(** * AutoCheck: status aggregation and report model

    A shallow embedding of the result/report model of the HOLFY27
    AutoCheck validator ([checks/base.py]), of the category table of
    [autocheck_config.py], of the HTML renderer of [autocheck_report.py]
    and of the orchestrator's [run] method of [autocheck.py], together
    with the properties the specification states about them.

    Python [str] values are modelled as [string] (the UTF-8 bytes of the
    text), Python lists as [list], Python dictionaries whose order is
    observable (they are serialised) as insertion-ordered association
    lists, and lookup tables as [gmap string _].  Methods of
    [ValidationReport] are computations in a small state monad over the
    object [self]. *)

From stdpp Require Import base option list strings gmap pretty.

Set Warnings "-register-all".

Open Scope string_scope.
Open Scope list_scope.

(** ** Python values that can sit in a [details] dictionary *)

(** [details: Dict[str, Any]].  The producers of this repository store
    strings, integers, booleans, [None], lists and nested dictionaries;
    [PFloat] carries the [repr] text of a float and [POther] stands for any
    other object (a date, an enum member) by the text [str()] gives it,
    which is what [json.dumps(..., default=str)] writes for it. *)
Inductive PyVal : Type :=
  | PNone
  | PBool (b : bool)
  | PInt (z : Z)
  | PFloat (repr : string)
  | PStr (s : string)
  | PList (l : list PyVal)
  | PDict (d : list (string * PyVal))
  | POther (str : string).

(** [dict.get(key)] on an insertion-ordered dictionary. *)
Fixpoint dict_get {V : Type} (d : list (string * V)) (key : string) : option V :=
  match d with
  | [] => None
  | (k, v) :: d' => if bool_decide (k = key) then Some v else dict_get d' key
  end.

(** [list(d.keys())]. *)
Definition dict_keys {V : Type} (d : list (string * V)) : list string := d.*1.

(** ** autocheck_config.py *)

Module Config.

(** Check categories and their display order. *)
Definition CHECK_CATEGORIES : list (string * string) :=
  [ ("ssl_checks", "SSL Certificate Checks");
    ("license_checks", "vSphere License Checks");
    ("ntp_checks", "NTP Configuration");
    ("vm_config_checks", "VM Configuration");
    ("vm_resource_checks", "VM Resources");
    ("password_expiration_checks", "Password Expiration");
    ("linux_checks", "Linux Machine Checks");
    ("windows_checks", "Windows Machine Checks");
    ("url_checks", "URL Accessibility");
    ("vsphere_checks", "vSphere Configuration");
    ("inventory_checks", "Inventory & Utilization") ].

End Config.

(** ** checks/base.py *)

Module Base.

(** *** CheckResult *)

Record CheckResult : Type := mkCheckResult {
  name : string;
  status : string;  (* PASS, FAIL, WARN, INFO, SKIPPED, FIXED *)
  message : string;
  details : list (string * PyVal)
}.

(** The six values of the [status] enum. *)
Definition STATUSES : list string :=
  ["PASS"; "FAIL"; "WARN"; "INFO"; "SKIPPED"; "FIXED"].

(** [return self.status in ('PASS', 'FIXED')] *)
Definition is_pass (self : CheckResult) : bool :=
  bool_decide (status self ∈ ["PASS"; "FIXED"]).

(** [return self.status == 'FAIL'] *)
Definition is_fail (self : CheckResult) : bool :=
  bool_decide (status self = "FAIL").

(** [return self.status == 'WARN'] *)
Definition is_warn (self : CheckResult) : bool :=
  bool_decide (status self = "WARN").

(** [asdict(self)]: the four fields in declaration order. *)
Definition CheckResult_to_dict (self : CheckResult) : PyVal :=
  PDict [ ("name", PStr (name self));
          ("status", PStr (status self));
          ("message", PStr (message self));
          ("details", PDict (details self)) ].

(** [f"{self.status}: {self.name} - {self.message}"] *)
Definition to_log_line (self : CheckResult) : string :=
  status self +:+ ": " +:+ name self +:+ " - " +:+ message self.

(** *** ValidationReport *)

Record ValidationReport : Type := mkValidationReport {
  lab_sku : string;
  timestamp : string;
  min_exp_date : string;
  max_exp_date : string;
  ssl_checks : list CheckResult;
  license_checks : list CheckResult;
  ntp_checks : list CheckResult;
  vm_config_checks : list CheckResult;
  vm_resource_checks : list CheckResult;
  password_expiration_checks : list CheckResult;
  linux_checks : list CheckResult;
  windows_checks : list CheckResult;
  url_checks : list CheckResult;
  vsphere_checks : list CheckResult;
  inventory_checks : list CheckResult;
  overall_status : string
}.

(** The dataclass constructor with every defaulted field left at its
    default: empty [timestamp], [min_exp_date], [max_exp_date] unless given,
    the eleven lists from [default_factory=list], [overall_status = "PASS"],
    followed by [__post_init__], which replaces an empty timestamp by the
    clock reading [now] ([datetime.datetime.now().isoformat()]). *)
Definition new_ValidationReport (now : string)
    (lab_sku timestamp min_exp_date max_exp_date : string) : ValidationReport :=
  {| lab_sku := lab_sku;
     timestamp := if bool_decide (timestamp = "") then now else timestamp;
     min_exp_date := min_exp_date;
     max_exp_date := max_exp_date;
     ssl_checks := [];
     license_checks := [];
     ntp_checks := [];
     vm_config_checks := [];
     vm_resource_checks := [];
     password_expiration_checks := [];
     linux_checks := [];
     windows_checks := [];
     url_checks := [];
     vsphere_checks := [];
     inventory_checks := [];
     overall_status := "PASS" |}.

(** Assignment [self.overall_status = v]. *)
Definition set_overall_status (v : string) (self : ValidationReport) : ValidationReport :=
  {| lab_sku := lab_sku self;
     timestamp := timestamp self;
     min_exp_date := min_exp_date self;
     max_exp_date := max_exp_date self;
     ssl_checks := ssl_checks self;
     license_checks := license_checks self;
     ntp_checks := ntp_checks self;
     vm_config_checks := vm_config_checks self;
     vm_resource_checks := vm_resource_checks self;
     password_expiration_checks := password_expiration_checks self;
     linux_checks := linux_checks self;
     windows_checks := windows_checks self;
     url_checks := url_checks self;
     vsphere_checks := vsphere_checks self;
     inventory_checks := inventory_checks self;
     overall_status := v |}.

(** *** The category lists by attribute name *)

(** [getattr(report, category_id, default)] for the list-valued attributes
    of a report, which are the only names [CHECK_CATEGORIES] holds; a name
    that is no attribute gives [default]. *)
Definition getattr (report : ValidationReport) (category_id : string)
    (default : list CheckResult) : list CheckResult :=
  if bool_decide (category_id = "ssl_checks") then ssl_checks report
  else if bool_decide (category_id = "license_checks") then license_checks report
  else if bool_decide (category_id = "ntp_checks") then ntp_checks report
  else if bool_decide (category_id = "vm_config_checks") then vm_config_checks report
  else if bool_decide (category_id = "vm_resource_checks") then vm_resource_checks report
  else if bool_decide (category_id = "password_expiration_checks")
    then password_expiration_checks report
  else if bool_decide (category_id = "linux_checks") then linux_checks report
  else if bool_decide (category_id = "windows_checks") then windows_checks report
  else if bool_decide (category_id = "url_checks") then url_checks report
  else if bool_decide (category_id = "vsphere_checks") then vsphere_checks report
  else if bool_decide (category_id = "inventory_checks") then inventory_checks report
  else default.

(** The report whose list attribute [category_id] holds [checks]; every
    other attribute is as in [report].  The callers name one of the eleven
    lists; for any other name the report is returned as it is. *)
Definition with_checks (category_id : string) (checks : list CheckResult)
    (report : ValidationReport) : ValidationReport :=
  let pick id (old : list CheckResult) :=
    if bool_decide (category_id = id) then checks else old in
  {| lab_sku := lab_sku report;
     timestamp := timestamp report;
     min_exp_date := min_exp_date report;
     max_exp_date := max_exp_date report;
     ssl_checks := pick "ssl_checks" (ssl_checks report);
     license_checks := pick "license_checks" (license_checks report);
     ntp_checks := pick "ntp_checks" (ntp_checks report);
     vm_config_checks := pick "vm_config_checks" (vm_config_checks report);
     vm_resource_checks := pick "vm_resource_checks" (vm_resource_checks report);
     password_expiration_checks :=
       pick "password_expiration_checks" (password_expiration_checks report);
     linux_checks := pick "linux_checks" (linux_checks report);
     windows_checks := pick "windows_checks" (windows_checks report);
     url_checks := pick "url_checks" (url_checks report);
     vsphere_checks := pick "vsphere_checks" (vsphere_checks report);
     inventory_checks := pick "inventory_checks" (inventory_checks report);
     overall_status := overall_status report |}.

(** [report.<category_id>.extend(results)]: the list grows in place, at
    its end. *)
Definition list_extend (category_id : string) (results : list CheckResult)
    (report : ValidationReport) : ValidationReport :=
  with_checks category_id (getattr report category_id [] ++ results) report.

(** [report.<category_id>.append(check)] *)
Definition list_append (category_id : string) (check : CheckResult)
    (report : ValidationReport) : ValidationReport :=
  list_extend category_id [check] report.

(** *** Methods as computations over [self] *)

Definition Method (A : Type) : Type := ValidationReport -> A * ValidationReport.

#[global] Instance Method_ret : MRet Method := fun A a self => (a, self).

#[global] Instance Method_bind : MBind Method :=
  fun A B k m self => let '(a, self') := m self in k a self'.

(** Read an attribute of [self]. *)
Definition attr {A} (f : ValidationReport -> A) : Method A :=
  fun self => (f self, self).

(** Write [self.overall_status]. *)
Definition assign_overall_status (v : string) : Method unit :=
  fun self => (tt, set_overall_status v self).

(** The value a call returns and the object it leaves behind. *)
Definition result_of {A} (m : Method A) (self : ValidationReport) : A := (m self).1.
Definition self_after {A} (m : Method A) (self : ValidationReport) : ValidationReport := (m self).2.

(** [get_all_checks]: the eleven lists joined with [+]. *)
Definition get_all_checks : Method (list CheckResult) :=
  a1 ← attr ssl_checks;
  a2 ← attr license_checks;
  a3 ← attr ntp_checks;
  a4 ← attr vm_config_checks;
  a5 ← attr vm_resource_checks;
  a6 ← attr password_expiration_checks;
  a7 ← attr linux_checks;
  a8 ← attr windows_checks;
  a9 ← attr url_checks;
  a10 ← attr vsphere_checks;
  a11 ← attr inventory_checks;
  mret (a1 ++ a2 ++ a3 ++ a4 ++ a5 ++ a6 ++ a7 ++ a8 ++ a9 ++ a10 ++ a11).

(** [any(c.status == s for c in checks)] *)
Definition any_status (s : string) (checks : list CheckResult) : bool :=
  existsb (fun c => bool_decide (status c = s)) checks.

(** [calculate_overall_status]: sets and returns [self.overall_status]. *)
Definition calculate_overall_status : Method string :=
  all_checks ← get_all_checks;
  (if any_status "FAIL" all_checks then assign_overall_status "FAIL"
   else if any_status "WARN" all_checks then assign_overall_status "WARN"
   else assign_overall_status "PASS");;
  attr overall_status.

(** [sum(1 for c in checks if P c)] *)
Definition count_if (P : CheckResult -> Prop) `{!∀ c, Decision (P c)}
    (checks : list CheckResult) : nat :=
  sum_list ((fun _ => 1) <$> filter P checks).

(** [get_summary]: the dictionary literal, keys in the order written. *)
Definition get_summary : Method (list (string * nat)) :=
  all_checks ← get_all_checks;
  mret [ ("pass", count_if (fun c => status c ∈ ["PASS"; "FIXED"]) all_checks);
        ("fail", count_if (fun c => status c = "FAIL") all_checks);
        ("warn", count_if (fun c => status c = "WARN") all_checks);
        ("info", count_if (fun c => status c = "INFO") all_checks);
        ("skipped", count_if (fun c => status c = "SKIPPED") all_checks);
        ("total", length all_checks) ].

Definition summary_to_py (summary : list (string * nat)) : PyVal :=
  PDict (prod_map id (fun n : nat => PInt (Z.of_nat n)) <$> summary).

(** [[c.to_dict() for c in checks]] *)
Definition checks_to_py (checks : list CheckResult) : PyVal :=
  PList (CheckResult_to_dict <$> checks).

(** [to_dict]: the dictionary literal, keys in the order written. *)
Definition to_dict : Method PyVal :=
  v_lab_sku ← attr lab_sku;
  v_timestamp ← attr timestamp;
  v_min_exp_date ← attr min_exp_date;
  v_max_exp_date ← attr max_exp_date;
  v_overall_status ← attr overall_status;
  v_summary ← get_summary;
  c1 ← attr ssl_checks;
  c2 ← attr license_checks;
  c3 ← attr ntp_checks;
  c4 ← attr vm_config_checks;
  c5 ← attr vm_resource_checks;
  c6 ← attr password_expiration_checks;
  c7 ← attr linux_checks;
  c8 ← attr windows_checks;
  c9 ← attr url_checks;
  c10 ← attr vsphere_checks;
  c11 ← attr inventory_checks;
  mret (PDict
    [ ("lab_sku", PStr v_lab_sku);
      ("timestamp", PStr v_timestamp);
      ("min_exp_date", PStr v_min_exp_date);
      ("max_exp_date", PStr v_max_exp_date);
      ("overall_status", PStr v_overall_status);
      ("summary", summary_to_py v_summary);
      ("ssl_checks", checks_to_py c1);
      ("license_checks", checks_to_py c2);
      ("ntp_checks", checks_to_py c3);
      ("vm_config_checks", checks_to_py c4);
      ("vm_resource_checks", checks_to_py c5);
      ("password_expiration_checks", checks_to_py c6);
      ("linux_checks", checks_to_py c7);
      ("windows_checks", checks_to_py c8);
      ("url_checks", checks_to_py c9);
      ("vsphere_checks", checks_to_py c10);
      ("inventory_checks", checks_to_py c11) ]).

(** [to_json]: [json.dumps(self.to_dict(), indent=indent, default=str)].
    [json.dumps] belongs to the Python standard library; its rendering of a
    value at an indentation is taken as given. *)
Section ToJson.
Variable json_dumps : PyVal -> Z -> string.

Definition to_json (indent : Z) : Method string :=
  document ← to_dict;
  mret (json_dumps document indent).
End ToJson.

(** *** Utility functions *)

Definition icons : gmap string string :=
  <["PASS" := "âœ…"]> (
  <["FAIL" := "âŒ"]> (
  <["WARN" := "âš ï¸"]> (
  <["INFO" := "â„¹ï¸"]> (
  <["SKIPPED" := "â­ï¸"]> (
  <["FIXED" := "ðŸ”§"]> ∅))))).

Definition icon_unknown : string := "â“".

(** [return icons.get(status, ...)] *)
Definition get_status_icon (status : string) : string :=
  default icon_unknown (icons !! status).

Definition classes : gmap string string :=
  <["PASS" := "status-pass"]> (
  <["FAIL" := "status-fail"]> (
  <["WARN" := "status-warn"]> (
  <["INFO" := "status-info"]> (
  <["SKIPPED" := "status-skipped"]> (
  <["FIXED" := "status-fixed"]> ∅))))).

(** [return classes.get(status, 'status-unknown')] *)
Definition get_status_class (status : string) : string :=
  default "status-unknown" (classes !! status).

(** *** Vocabulary of the properties *)

(** The eleven category lists joined in declaration order. *)
Definition joined (r : ValidationReport) : list CheckResult :=
  ssl_checks r ++ license_checks r ++ ntp_checks r ++ vm_config_checks r ++
  vm_resource_checks r ++ password_expiration_checks r ++ linux_checks r ++
  windows_checks r ++ url_checks r ++ vsphere_checks r ++ inventory_checks r.

(** [c] is a result of some category of the report. *)
Definition in_some_category (c : CheckResult) (r : ValidationReport) : Prop :=
  c ∈ ssl_checks r ∨ c ∈ license_checks r ∨ c ∈ ntp_checks r ∨
  c ∈ vm_config_checks r ∨ c ∈ vm_resource_checks r ∨
  c ∈ password_expiration_checks r ∨ c ∈ linux_checks r ∨
  c ∈ windows_checks r ∨ c ∈ url_checks r ∨ c ∈ vsphere_checks r ∨
  c ∈ inventory_checks r.

(** Some result of the report has status [s]. *)
Definition has_status (s : string) (r : ValidationReport) : Prop :=
  ∃ c, in_some_category c r ∧ status c = s.

(** Every category list of the report is empty. *)
Definition all_empty (r : ValidationReport) : Prop :=
  ssl_checks r = [] ∧ license_checks r = [] ∧ ntp_checks r = [] ∧
  vm_config_checks r = [] ∧ vm_resource_checks r = [] ∧
  password_expiration_checks r = [] ∧ linux_checks r = [] ∧
  windows_checks r = [] ∧ url_checks r = [] ∧ vsphere_checks r = [] ∧
  inventory_checks r = [].

(** How many results of a list, and of a report, have status [s]. *)
Definition count_in (s : string) (l : list CheckResult) : nat :=
  length (filter (fun c => status c = s) l).

Definition count_status (s : string) (r : ValidationReport) : nat :=
  count_in s (ssl_checks r) + count_in s (license_checks r) +
  count_in s (ntp_checks r) + count_in s (vm_config_checks r) +
  count_in s (vm_resource_checks r) + count_in s (password_expiration_checks r) +
  count_in s (linux_checks r) + count_in s (windows_checks r) +
  count_in s (url_checks r) + count_in s (vsphere_checks r) +
  count_in s (inventory_checks r).

(** How many results the report holds. *)
Definition total_results (r : ValidationReport) : nat :=
  length (ssl_checks r) + length (license_checks r) + length (ntp_checks r) +
  length (vm_config_checks r) + length (vm_resource_checks r) +
  length (password_expiration_checks r) + length (linux_checks r) +
  length (windows_checks r) + length (url_checks r) +
  length (vsphere_checks r) + length (inventory_checks r).

(** The attribute names of the eleven categories. *)
Definition category_ids : list string := Config.CHECK_CATEGORIES.*1.

(** A sequence of [append] calls, each on the category list it names. *)
Definition append_all (ops : list (string * CheckResult)) (r : ValidationReport)
    : ValidationReport :=
  foldl (fun r op => list_append op.1 op.2 r) r ops.

(** What [list_extend id results] adds to the list named [name]. *)
Definition added (id name : string) (results : list CheckResult) : list CheckResult :=
  if bool_decide (id = name) then results else [].

(** The entries of a document, when it is a dictionary. *)
Definition entries (v : PyVal) : list (string * PyVal) :=
  match v with PDict d => d | _ => [] end.

(** Statuses that carry no severity. *)
Definition neutral (c : CheckResult) : Prop :=
  status c ∈ ["INFO"; "SKIPPED"; "FIXED"].

(** *** Sample reports *)

Definition sample_new : ValidationReport :=
  new_ValidationReport "2026-02-01T08:00:00" "HOL-2701" "" "2027-12-30" "2028-12-31".

Definition sample_fail : CheckResult :=
  mkCheckResult "SSL: vcenter.lab:443" "FAIL" "certificate expired"
    [("host", PStr "vcenter.lab"); ("port", PInt 443)].
Definition sample_warn : CheckResult :=
  mkCheckResult "License: vSphere 8" "WARN" "expires within the window" [].
Definition sample_pass : CheckResult :=
  mkCheckResult "License: vSAN" "PASS" "valid" [].
Definition sample_skipped : CheckResult :=
  mkCheckResult "vSphere Checks" "SKIPPED" "No vCenter connections available" [].
Definition sample_fixed : CheckResult :=
  mkCheckResult "NTP: esx-01" "FIXED" "NTP service started" [].
Definition sample_info : CheckResult :=
  mkCheckResult "Windows Checks" "INFO" "No Windows machines to check" [].
Definition sample_odd : CheckResult :=
  mkCheckResult "URL: https://a.lab" "TIMEOUT" "status outside the enum" [].

(** ssl_checks = [FAIL], license_checks = [WARN, PASS], others empty. *)
Definition sample_mixed : ValidationReport :=
  list_extend "license_checks" [sample_warn; sample_pass]
    (list_append "ssl_checks" sample_fail sample_new).

(** Only vsphere_checks = [SKIPPED, SKIPPED]. *)
Definition sample_all_skipped : ValidationReport :=
  list_extend "vsphere_checks" [sample_skipped; sample_skipped] sample_new.

(** One FIXED result and nothing else. *)
Definition sample_only_fixed : ValidationReport :=
  list_append "ntp_checks" sample_fixed sample_new.

End Base.

(** ** autocheck_report.py *)

Module Report.
Import Base.

(** The templates below are the source's string literals.  A string
    literal here cannot spell the double-quote character, so a template
    writes a backquote where the source has a double quote (the source's
    templates contain no backquote) and [q] puts the double quotes back. *)
Definition dquote : Ascii.ascii := Ascii.ascii_of_nat 34.
Definition bquote : Ascii.ascii := Ascii.ascii_of_nat 96.

Fixpoint q (template : string) : string :=
  match template with
  | EmptyString => EmptyString
  | String a rest => String (if bool_decide (a = bquote) then dquote else a) (q rest)
  end.

(** The banner class and icon chosen from [report.overall_status]. *)
Definition banner (v_overall_status : string) : string * string :=
  if bool_decide (v_overall_status = "FAIL") then ("banner-fail", "❌")
  else if bool_decide (v_overall_status = "WARN") then ("banner-warn", "⚠️")
  else ("banner-pass", "✅").

(** The first f-string of [generate_html_content]: document head, style
    sheet, header, status banner and summary cards. *)
Definition html_head (v_lab_sku v_timestamp v_min_exp_date v_max_exp_date
    v_overall_status banner_class banner_icon : string)
    (n_pass n_fail n_warn n_info n_skipped : nat) : string :=
  q "<!DOCTYPE html>
<html lang=`en`>
<head>
    <meta charset=`UTF-8`>
    <meta name=`viewport` content=`width=device-width, initial-scale=1.0`>
    <title>AutoCheck Report - " +:+
  v_lab_sku +:+
  q "</title>
    <style>
        :root {
            --pass-color: #16a34a;
            --fail-color: #dc2626;
            --warn-color: #ca8a04;
            --info-color: #2563eb;
            --skip-color: #6b7280;
            --fixed-color: #7c3aed;
        }
        
        * {
            box-sizing: border-box;
        }
        
        body {
            font-family: 'Segoe UI', -apple-system, BlinkMacSystemFont, sans-serif;
            margin: 0;
            padding: 20px;
            background: #f1f5f9;
            color: #1e293b;
            line-height: 1.5;
        }
        
        .container {
            max-width: 1200px;
            margin: 0 auto;
        }
        
        header {
            background: white;
            border-radius: 8px;
            padding: 24px;
            margin-bottom: 24px;
            box-shadow: 0 1px 3px rgba(0,0,0,0.1);
        }
        
        h1 {
            margin: 0 0 16px 0;
            color: #0f172a;
            font-size: 24px;
        }
        
        .meta {
            color: #64748b;
            font-size: 14px;
        }
        
        .meta span {
            margin-right: 24px;
        }
        
        .banner {
            padding: 16px 24px;
            border-radius: 8px;
            margin-bottom: 24px;
            font-weight: 600;
            font-size: 18px;
            display: flex;
            align-items: center;
            gap: 12px;
        }
        
        .banner-pass {
            background: #dcfce7;
            color: #166534;
            border: 1px solid #86efac;
        }
        
        .banner-fail {
            background: #fee2e2;
            color: #991b1b;
            border: 1px solid #fca5a5;
        }
        
        .banner-warn {
            background: #fef3c7;
            color: #92400e;
            border: 1px solid #fcd34d;
        }
        
        .summary {
            display: grid;
            grid-template-columns: repeat(auto-fit, minmax(120px, 1fr));
            gap: 16px;
            margin-bottom: 24px;
        }
        
        .summary-card {
            background: white;
            border-radius: 8px;
            padding: 16px;
            text-align: center;
            box-shadow: 0 1px 3px rgba(0,0,0,0.1);
        }
        
        .summary-card .count {
            font-size: 32px;
            font-weight: 700;
        }
        
        .summary-card .label {
            font-size: 12px;
            text-transform: uppercase;
            color: #64748b;
            margin-top: 4px;
        }
        
        .summary-card.pass .count { color: var(--pass-color); }
        .summary-card.fail .count { color: var(--fail-color); }
        .summary-card.warn .count { color: var(--warn-color); }
        .summary-card.info .count { color: var(--info-color); }
        .summary-card.skip .count { color: var(--skip-color); }
        
        section {
            background: white;
            border-radius: 8px;
            margin-bottom: 16px;
            box-shadow: 0 1px 3px rgba(0,0,0,0.1);
            overflow: hidden;
        }
        
        section h2 {
            margin: 0;
            padding: 16px 24px;
            background: #f8fafc;
            border-bottom: 1px solid #e2e8f0;
            font-size: 16px;
            font-weight: 600;
            color: #334155;
        }
        
        .check-list {
            padding: 0;
            margin: 0;
            list-style: none;
        }
        
        .check-item {
            padding: 12px 24px;
            border-bottom: 1px solid #f1f5f9;
            display: flex;
            align-items: flex-start;
            gap: 12px;
        }
        
        .check-item:last-child {
            border-bottom: none;
        }
        
        .check-icon {
            flex-shrink: 0;
            width: 24px;
            text-align: center;
        }
        
        .check-content {
            flex-grow: 1;
            min-width: 0;
        }
        
        .check-name {
            font-weight: 500;
            color: #1e293b;
        }
        
        .check-message {
            font-size: 14px;
            color: #64748b;
            margin-top: 2px;
        }
        
        .check-status {
            flex-shrink: 0;
            padding: 2px 8px;
            border-radius: 4px;
            font-size: 12px;
            font-weight: 600;
            text-transform: uppercase;
        }
        
        .status-pass { background: #dcfce7; color: #166534; }
        .status-fail { background: #fee2e2; color: #991b1b; }
        .status-warn { background: #fef3c7; color: #92400e; }
        .status-info { background: #dbeafe; color: #1e40af; }
        .status-skipped { background: #f1f5f9; color: #475569; }
        .status-fixed { background: #ede9fe; color: #5b21b6; }
        
        .empty-section {
            padding: 24px;
            text-align: center;
            color: #94a3b8;
        }
        
        footer {
            text-align: center;
            padding: 24px;
            color: #94a3b8;
            font-size: 12px;
        }
    </style>
</head>
<body>
    <div class=`container`>
        <header>
            <h1>AutoCheck Report: " +:+
  v_lab_sku +:+
  q "</h1>
            <div class=`meta`>
                <span>Generated: " +:+
  v_timestamp +:+
  q "</span>
                <span>Expiration Window: " +:+
  v_min_exp_date +:+
  q " to " +:+
  v_max_exp_date +:+
  q "</span>
            </div>
        </header>
        
        <div class=`banner " +:+
  banner_class +:+
  q "`>
            <span>" +:+
  banner_icon +:+
  q "</span>
            <span>Overall Status: " +:+
  v_overall_status +:+
  q "</span>
        </div>
        
        <div class=`summary`>
            <div class=`summary-card pass`>
                <div class=`count`>" +:+
  pretty n_pass +:+
  q "</div>
                <div class=`label`>Passed</div>
            </div>
            <div class=`summary-card fail`>
                <div class=`count`>" +:+
  pretty n_fail +:+
  q "</div>
                <div class=`label`>Failed</div>
            </div>
            <div class=`summary-card warn`>
                <div class=`count`>" +:+
  pretty n_warn +:+
  q "</div>
                <div class=`label`>Warnings</div>
            </div>
            <div class=`summary-card info`>
                <div class=`count`>" +:+
  pretty n_info +:+
  q "</div>
                <div class=`label`>Info</div>
            </div>
            <div class=`summary-card skip`>
                <div class=`count`>" +:+
  pretty n_skipped +:+
  q "</div>
                <div class=`label`>Skipped</div>
            </div>
        </div>
".

(** One [<li>] of a section: the body of the inner loop. *)
Definition html_check_item (check : CheckResult) : string :=
  let icon := get_status_icon (status check) in
  let status_class := get_status_class (status check) in
  q "                <li class=`check-item`>
                    <span class=`check-icon`>" +:+ icon +:+ q "</span>
                    <div class=`check-content`>
                        <div class=`check-name`>" +:+ name check +:+ q "</div>
                        <div class=`check-message`>" +:+ message check +:+ q "</div>
                    </div>
                    <span class=`check-status " +:+ status_class +:+ q "`>" +:+ status check +:+ q "</span>
                </li>
".

(** The inner loop [for check in checks: html += ...]. *)
Definition html_checks_loop (html : string) (checks : list CheckResult) : string :=
  fold_left (fun html check => html +:+ html_check_item check) checks html.

(** One iteration of the loop over [config.CHECK_CATEGORIES]. *)
Definition html_category_step (report : ValidationReport) (html : string)
    (category : string * string) : string :=
  let '(category_id, category_name) := category in
  let checks := getattr report category_id [] in
  match checks with
  | [] => html  (* if not checks: continue *)
  | _ :: _ =>
      let html := html +:+ q "
        <section>
            <h2>" +:+ category_name +:+ q "</h2>
" in
      let html := html +:+ q "            <ul class=`check-list`>
" in
      let html := html_checks_loop html checks in
      let html := html +:+ q "            </ul>
" in
      html +:+ q "        </section>
"
  end.

Definition html_footer : string :=
  q "
        <footer>
            AutoCheck - HOLFY27 Lab Validation Tool | HOL Core Team
        </footer>
    </div>
</body>
</html>
".

(** [summary[key]]: [None] stands for [KeyError]. *)
Definition subscript (summary : list (string * nat)) (key : string) : option nat :=
  dict_get summary key.

(** [generate_html_content(report)].  The call reads the report through its
    methods and attributes; [None] stands for an exception out of the
    f-string. *)
Definition generate_html_content : Method (option string) :=
  summary ← get_summary;
  v_overall_status ← attr overall_status;
  let '(banner_class, banner_icon) := banner v_overall_status in
  v_lab_sku ← attr lab_sku;
  v_timestamp ← attr timestamp;
  v_min_exp_date ← attr min_exp_date;
  v_max_exp_date ← attr max_exp_date;
  report ← attr id;
  mret (n_pass ← subscript summary "pass";
       n_fail ← subscript summary "fail";
       n_warn ← subscript summary "warn";
       n_info ← subscript summary "info";
       n_skipped ← subscript summary "skipped";
       let html := html_head v_lab_sku v_timestamp v_min_exp_date v_max_exp_date
                     v_overall_status banner_class banner_icon
                     n_pass n_fail n_warn n_info n_skipped in
       let html := fold_left (html_category_step report) Config.CHECK_CATEGORIES html in
       Some (html +:+ html_footer)).

(** *** Vocabulary of the properties *)

(** The strings of a list, one after the other. *)
Definition join (parts : list string) : string := foldr String.append "" parts.

(** The section of one category: its title, then one item per result. *)
Definition html_section (category_name : string) (checks : list CheckResult) : string :=
  q "
        <section>
            <h2>" +:+ category_name +:+ q "</h2>
" +:+ q "            <ul class=`check-list`>
" +:+ join (html_check_item <$> checks) +:+ q "            </ul>
" +:+ q "        </section>
".

(** The categories of [CHECK_CATEGORIES] whose list in the report is not
    empty, in the order of [CHECK_CATEGORIES]. *)
Definition rendered_categories (r : ValidationReport) : list (string * string) :=
  filter (fun category => getattr r category.1 [] ≠ []) Config.CHECK_CATEGORIES.

(** A count of the summary, as the renderer reads it. *)
Definition summary_count (r : ValidationReport) (key : string) : nat :=
  default 0 (dict_get (result_of get_summary r) key).

(** The document head the renderer writes for a report. *)
Definition html_head_of (r : ValidationReport) : string :=
  html_head (lab_sku r) (timestamp r) (min_exp_date r) (max_exp_date r)
    (overall_status r) (banner (overall_status r)).1 (banner (overall_status r)).2
    (summary_count r "pass") (summary_count r "fail") (summary_count r "warn")
    (summary_count r "info") (summary_count r "skipped").

End Report.

(** ** autocheck.py *)

Module Orchestrator.
Import Base.

(** The parsed command line. *)
Record Args : Type := mkArgs {
  report_only : bool;
  json : bool;
  html : option string;
  verbose : bool;
  skip_vsphere : bool;
  skip_linux : bool;
  skip_windows : bool
}.

(** What a call of a check producer does: it returns its results or
    raises an exception, of which only the text is used. *)
Inductive Outcome : Type :=
  | Returned (results : list CheckResult)
  | Raised (e : string).

(** The surroundings of one run: which optional modules were imported, and
    how the external collaborators (lsfunctions, vCenter, the check
    producers) answer.  Each producer field is the outcome of the body of
    the [try] block of the matching [run_*] method. *)
Record World : Type := mkWorld {
  LSF_AVAILABLE : bool;
  SSL_CHECKS_AVAILABLE : bool;
  LICENSE_CHECKS_AVAILABLE : bool;
  NTP_CHECKS_AVAILABLE : bool;
  LINUX_CHECKS_AVAILABLE : bool;
  WINDOWS_CHECKS_AVAILABLE : bool;
  URL_CHECKS_AVAILABLE : bool;
  VSPHERE_CHECKS_AVAILABLE : bool;
  REPORT_AVAILABLE : bool;
  (* lsf.init(router=False): [None] when it raises, else lab_sku and labtype *)
  lsf_init : option (string * string);
  (* str() of the two dates of config.get_expiration_dates(lab_sku); the
     report carries them for display only *)
  get_expiration_dates : string -> string * string;
  (* datetime.datetime.now().isoformat() when the report is created *)
  now : string;
  (* lsf.connect_vcenters: [Some b] when it sets lsf.sis, non-empty iff b;
     [None] when no vCenter is configured or the call raises *)
  connect_vcenters : option bool;
  (* names of the Windows VMs lsf.get_all_vms() reports with an address *)
  windows_vms : list string;
  check_ssl_certificates : Outcome;
  check_licenses : Outcome;
  check_ntp_configuration : Outcome;
  check_vm_configuration : Outcome;
  check_urls : Outcome;
  check_linux_machines : Outcome;
  check_windows_machines : Outcome;
  check_vsphere_configuration : Outcome;
  check_password_expirations : Outcome
}.

(** The attributes of an [AutoCheck] object that [run] reads or writes;
    [report = None] is Python's [self.report = None], the two dates are
    kept as the text [str()] gives them, [sis] tells whether the list of
    vCenter connections is non-empty. *)
Record AutoCheck : Type := mkAutoCheck {
  args : Args;
  fix_issues : bool;
  report : option ValidationReport;
  lab_sku : string;
  labtype : string;
  min_exp_date : string;
  max_exp_date : string;
  sis : bool
}.

(** [AutoCheck.__init__(args)] *)
Definition AutoCheck_init (args : Args) : AutoCheck :=
  {| args := args;
     fix_issues := negb (report_only args);
     report := None;
     lab_sku := "HOL-UNKNOWN";
     labtype := "HOL";
     min_exp_date := "None";
     max_exp_date := "None";
     sis := false |}.

Definition with_report (r : ValidationReport) (self : AutoCheck) : AutoCheck :=
  {| args := args self; fix_issues := fix_issues self; report := Some r;
     lab_sku := lab_sku self; labtype := labtype self;
     min_exp_date := min_exp_date self; max_exp_date := max_exp_date self;
     sis := sis self |}.

Section Run.
Variable w : World.

(** [initialize]: [(False, self)] when [lsf.init] raises, else the lab
    identity, the expiration window, a fresh report and the vCenter
    connections are set up and it returns [True]. *)
Definition initialize (self : AutoCheck) : bool * AutoCheck :=
  let init :=
    if LSF_AVAILABLE w then
      match lsf_init w with
      | Some (sku, ty) => Some (sku, ty)
      | None => None
      end
    else Some (lab_sku self, labtype self) in
  match init with
  | None => (false, self)
  | Some (sku, ty) =>
      let '(lo, hi) := get_expiration_dates w sku in
      let r := new_ValidationReport (now w) sku "" lo hi in
      let connected :=
        if negb (skip_vsphere (args self)) && LSF_AVAILABLE w
        then default (sis self) (connect_vcenters w) else sis self in
      (true, {| args := args self; fix_issues := fix_issues self;
                report := Some r; lab_sku := sku; labtype := ty;
                min_exp_date := lo; max_exp_date := hi; sis := connected |})
  end.

(** The common tail of the [run_*] methods: [try: results = producer(...);
    report.<category>.extend(results)  except Exception as e:
    report.<category>.append(CheckResult(<title>, 'FAIL', ...))]. *)
Definition try_extend (category_id title : string) (o : Outcome)
    (r : ValidationReport) : ValidationReport :=
  match o with
  | Returned results => list_extend category_id results r
  | Raised e =>
      list_append category_id
        (mkCheckResult title "FAIL" ("Check failed with error: " +:+ e) []) r
  end.

Definition skipped (category_id title msg : string) (r : ValidationReport)
    : ValidationReport :=
  list_append category_id (mkCheckResult title "SKIPPED" msg []) r.

Definition run_ssl_checks (self : AutoCheck) (r : ValidationReport) : ValidationReport :=
  if negb (SSL_CHECKS_AVAILABLE w) then
    skipped "ssl_checks" "SSL Checks" "SSL check module not available" r
  else try_extend "ssl_checks" "SSL Checks" (check_ssl_certificates w) r.

Definition run_license_checks (self : AutoCheck) (r : ValidationReport) : ValidationReport :=
  if negb (LICENSE_CHECKS_AVAILABLE w) then
    skipped "license_checks" "License Checks" "License check module not available" r
  else if negb (sis self) then
    skipped "license_checks" "License Checks" "No vCenter connections available" r
  else try_extend "license_checks" "License Checks" (check_licenses w) r.

Definition run_ntp_checks (self : AutoCheck) (r : ValidationReport) : ValidationReport :=
  if negb (NTP_CHECKS_AVAILABLE w) then
    skipped "ntp_checks" "NTP Checks" "NTP check module not available" r
  else if negb (sis self) then
    skipped "ntp_checks" "NTP Checks" "No vCenter connections available" r
  else try_extend "ntp_checks" "NTP Checks" (check_ntp_configuration w) r.

Definition run_vm_config_checks (self : AutoCheck) (r : ValidationReport) : ValidationReport :=
  if negb (VSPHERE_CHECKS_AVAILABLE w) then
    skipped "vm_config_checks" "VM Config Checks" "vSphere check module not available" r
  else if negb (sis self) then
    skipped "vm_config_checks" "VM Config Checks" "No vCenter connections available" r
  else try_extend "vm_config_checks" "VM Config Checks" (check_vm_configuration w) r.

Definition run_url_checks (self : AutoCheck) (r : ValidationReport) : ValidationReport :=
  if negb (URL_CHECKS_AVAILABLE w) then
    skipped "url_checks" "URL Checks" "URL check module not available" r
  else try_extend "url_checks" "URL Checks" (check_urls w) r.

Definition run_linux_checks (self : AutoCheck) (r : ValidationReport) : ValidationReport :=
  if skip_linux (args self) then r
  else if negb (LINUX_CHECKS_AVAILABLE w) then
    skipped "linux_checks" "Linux Checks" "Linux check module not available" r
  else try_extend "linux_checks" "Linux Checks" (check_linux_machines w) r.

(** [_get_windows_hosts] *)
Definition _get_windows_hosts (self : AutoCheck) : list string :=
  if negb (LSF_AVAILABLE w) || negb (sis self) then [] else windows_vms w.

Definition run_windows_checks (self : AutoCheck) (r : ValidationReport) : ValidationReport :=
  if skip_windows (args self) then r
  else if negb (WINDOWS_CHECKS_AVAILABLE w) then
    skipped "windows_checks" "Windows Checks" "Windows check module not available" r
  else
    match _get_windows_hosts self with
    | [] =>
        list_append "windows_checks"
          (mkCheckResult "Windows Checks" "INFO" "No Windows machines to check" []) r
    | _ :: _ =>
        try_extend "windows_checks" "Windows Checks" (check_windows_machines w) r
    end.

Definition run_vsphere_checks (self : AutoCheck) (r : ValidationReport) : ValidationReport :=
  if skip_vsphere (args self) then r
  else if negb (VSPHERE_CHECKS_AVAILABLE w) then
    skipped "vsphere_checks" "vSphere Checks" "vSphere check module not available" r
  else if negb (sis self) then
    skipped "vsphere_checks" "vSphere Checks" "No vCenter connections available" r
  else try_extend "vsphere_checks" "vSphere Checks" (check_vsphere_configuration w) r.

Definition run_password_checks (self : AutoCheck) (r : ValidationReport) : ValidationReport :=
  if negb (LINUX_CHECKS_AVAILABLE w) then
    skipped "password_expiration_checks" "Password Checks"
      "Linux check module not available" r
  else try_extend "password_expiration_checks" "Password Checks"
         (check_password_expirations w) r.

(** The nine producer calls of [run], in the order written. *)
Definition run_all_checks (self : AutoCheck) (r : ValidationReport) : ValidationReport :=
  let r := run_ssl_checks self r in
  let r := run_license_checks self r in
  let r := run_ntp_checks self r in
  let r := run_vm_config_checks self r in
  let r := run_url_checks self r in
  let r := run_linux_checks self r in
  let r := run_windows_checks self r in
  let r := run_vsphere_checks self r in
  run_password_checks self r.

(** [generate_reports]: the reduction, then the documents.  Writing the
    documents reads the report and leaves it as it is; a failure while
    writing is caught and logged there. *)
Definition generate_reports (r : ValidationReport) : ValidationReport :=
  self_after calculate_overall_status r.

(** [run]: the exit code and the object afterwards.  Logging and the
    [finally] clause (disconnecting from vCenter) do not touch the
    report or the value returned. *)
Definition run (self : AutoCheck) : Z * AutoCheck :=
  let '(ok, self) := initialize self in
  if negb ok then (1%Z, self)
  else
    match report self with
    | None => (1%Z, self)  (* unreachable: initialize has set the report *)
    | Some r =>
        let r := run_all_checks self r in
        let r := generate_reports r in
        let self := with_report r self in
        ((if negb (bool_decide (overall_status r = "FAIL")) then 0 else 1)%Z, self)
    end.

(** [main]: [sys.exit(main())] makes the value [run] returns the exit
    code of the process. *)
Definition main (args : Args) : Z * AutoCheck := run (AutoCheck_init args).

End Run.

(** *** Vocabulary of the properties *)

(** The exit code of the process and the report the run leaves. *)
Definition exit_code (w : World) (a : Args) : Z := (main w a).1.

Definition final_report (w : World) (a : Args) : option ValidationReport :=
  report (main w a).2.

(** Whether [initialize] returns [True] in a run. *)
Definition initialized (w : World) (a : Args) : bool :=
  (initialize w (AutoCheck_init a)).1.

(** The exit code is non-zero exactly when the report's overall status is
    FAIL. *)
Definition exit_code_reflects_fail (w : World) (a : Args) : Prop :=
  exit_code w a ≠ 0%Z ↔
  ∃ r, final_report w a = Some r ∧ overall_status r = "FAIL".

(** A command line without options. *)
Definition no_options : Args :=
  {| report_only := false; json := false; html := None; verbose := false;
     skip_vsphere := false; skip_linux := false; skip_windows := false |}.

(** A run in which lsfunctions is present and [lsf.init] raises. *)
Definition world_init_raises : World :=
  {| LSF_AVAILABLE := true;
     SSL_CHECKS_AVAILABLE := true;
     LICENSE_CHECKS_AVAILABLE := true;
     NTP_CHECKS_AVAILABLE := true;
     LINUX_CHECKS_AVAILABLE := true;
     WINDOWS_CHECKS_AVAILABLE := true;
     URL_CHECKS_AVAILABLE := true;
     VSPHERE_CHECKS_AVAILABLE := true;
     REPORT_AVAILABLE := true;
     lsf_init := None;
     get_expiration_dates := fun _ => ("2027-12-30", "2028-12-31");
     now := "2026-02-01T08:00:00";
     connect_vcenters := None;
     windows_vms := [];
     check_ssl_certificates := Returned [];
     check_licenses := Returned [];
     check_ntp_configuration := Returned [];
     check_vm_configuration := Returned [];
     check_urls := Returned [];
     check_linux_machines := Returned [];
     check_windows_machines := Returned [];
     check_vsphere_configuration := Returned [];
     check_password_expirations := Returned [] |}.

(** A run without lsfunctions in which one URL check warns and the Linux
    producer raises. *)
Definition world_linux_raises : World :=
  {| LSF_AVAILABLE := false;
     SSL_CHECKS_AVAILABLE := true;
     LICENSE_CHECKS_AVAILABLE := true;
     NTP_CHECKS_AVAILABLE := true;
     LINUX_CHECKS_AVAILABLE := true;
     WINDOWS_CHECKS_AVAILABLE := true;
     URL_CHECKS_AVAILABLE := true;
     VSPHERE_CHECKS_AVAILABLE := true;
     REPORT_AVAILABLE := true;
     lsf_init := None;
     get_expiration_dates := fun _ => ("2027-12-30", "2028-12-31");
     now := "2026-02-01T08:00:00";
     connect_vcenters := None;
     windows_vms := [];
     check_ssl_certificates := Returned [];
     check_licenses := Returned [];
     check_ntp_configuration := Returned [];
     check_vm_configuration := Returned [];
     check_urls := Returned [mkCheckResult "URL: https://a.lab" "WARN" "slow" []];
     check_linux_machines := Raised "no route to host";
     check_windows_machines := Returned [];
     check_vsphere_configuration := Returned [];
     check_password_expirations := Returned [] |}.

End Orchestrator.

(** * Further code: definitions

    The check modules of [checks/], the helper functions of
    [autocheck_config.py] and the text log of [autocheck_report.py].  What a
    check reads from the outside (vSphere objects, lsfunctions, the network,
    the clock) is a parameter of its section or a field of a record; an
    exception that the code catches is a constructor of what is read.
    Library functions whose result depends on more than the bytes of a text
    ([str.lower], [str.strip], [int], [re.search] with flags) and
    comparisons of floating point numbers are parameters too. *)

(** ** Vocabulary for the properties of a whole run *)

Module RunVocabulary.
Import Base Orchestrator.

(** A report with nothing in it. *)
Definition blank : ValidationReport := new_ValidationReport "" "" "" "" "".

(** The eleven category lists of a report, in the order of
    [CHECK_CATEGORIES]. *)
Definition category_lists (r : ValidationReport) : list (list CheckResult) :=
  (fun id => getattr r id []) <$> category_ids.

(** The object [run] works on once [initialize] has returned. *)
Definition initialized_self (w : World) (a : Args) : AutoCheck :=
  (initialize w (AutoCheck_init a)).2.

(** The producers a run calls, each with what it answers, in the order of
    the calls: a producer is called when its module was imported, the
    command line does not skip it and, where the method asks for them, there
    are vCenter connections (for Windows: machines to check). *)
Definition invoked (w : World) (self : AutoCheck) : list Outcome :=
  (if SSL_CHECKS_AVAILABLE w then [check_ssl_certificates w] else []) ++
  (if LICENSE_CHECKS_AVAILABLE w && sis self then [check_licenses w] else []) ++
  (if NTP_CHECKS_AVAILABLE w && sis self then [check_ntp_configuration w] else []) ++
  (if VSPHERE_CHECKS_AVAILABLE w && sis self then [check_vm_configuration w] else []) ++
  (if URL_CHECKS_AVAILABLE w then [check_urls w] else []) ++
  (if negb (skip_linux (args self)) && LINUX_CHECKS_AVAILABLE w
   then [check_linux_machines w] else []) ++
  (if negb (skip_windows (args self)) && WINDOWS_CHECKS_AVAILABLE w &&
      bool_decide (_get_windows_hosts w self ≠ [])
   then [check_windows_machines w] else []) ++
  (if negb (skip_vsphere (args self)) && VSPHERE_CHECKS_AVAILABLE w && sis self
   then [check_vsphere_configuration w] else []) ++
  (if LINUX_CHECKS_AVAILABLE w then [check_password_expirations w] else []).

(** Some result of the list has status FAIL. *)
Definition has_fail (l : list CheckResult) : Prop :=
  ∃ c, c ∈ l ∧ status c = "FAIL".

(** A producer's answer that makes the run fail: an exception, or a result
    of status FAIL. *)
Definition failing (o : Outcome) : Prop :=
  match o with
  | Raised _ => True
  | Returned results => has_fail results
  end.

(** The one SKIPPED result a [run_*] method files when it does not call its
    producer. *)
Definition skipped_result (title msg : string) : CheckResult :=
  mkCheckResult title "SKIPPED" msg [].

(** A step that extends the list named [id] by results that do not depend on
    the report it is given. *)
Definition extends (id : string) (results : list CheckResult)
    (step : ValidationReport → ValidationReport) : Prop :=
  ∀ r, step r = list_extend id results r.

End RunVocabulary.

(** ** autocheck_report.py: the text log *)

Module TextLog.
Import Base Report.

(** [s * n] *)
Fixpoint str_repeat (s : string) (n : nat) : string :=
  match n with
  | 0 => ""
  | S n' => s +:+ str_repeat s n'
  end.

(** [sep.join(parts)] *)
Fixpoint str_join (sep : string) (parts : list string) : string :=
  match parts with
  | [] => ""
  | [part] => part
  | part :: rest => part +:+ sep +:+ str_join sep rest
  end.

(** The body of the loop over [config.CHECK_CATEGORIES]: the lines after
    one category. *)
Definition log_category_step (report : ValidationReport) (lines : list string)
    (category : string * string) : list string :=
  let '(category_id, category_name) := category in
  let checks := getattr report category_id [] in
  match checks with
  | [] => lines  (* if not checks: continue *)
  | _ :: _ =>
      let lines := lines ++ [str_repeat "-" 70] in
      let lines := lines ++ [category_name] in
      let lines := lines ++ [str_repeat "-" 70] in
      let lines := fold_left (fun lines check => lines ++ [to_log_line check])
                     checks lines in
      lines ++ [""]
  end.

(** The list [lines] of [generate_text_log] when the file is written;
    [None] stands for a [KeyError] from the summary. *)
Definition text_log_lines : Method (option (list string)) :=
  summary ← get_summary;
  report ← attr id;
  mret (n_pass ← subscript summary "pass";
        n_fail ← subscript summary "fail";
        n_warn ← subscript summary "warn";
        n_info ← subscript summary "info";
        n_skipped ← subscript summary "skipped";
        let lines := [] in
        let lines := lines ++ [str_repeat "=" 70] in
        let lines := lines ++ ["AutoCheck Report: " +:+ lab_sku report] in
        let lines := lines ++ [str_repeat "=" 70] in
        let lines := lines ++ ["Generated: " +:+ timestamp report] in
        let lines := lines ++ ["Expiration Window: " +:+ min_exp_date report +:+
                               " to " +:+ max_exp_date report] in
        let lines := lines ++ ["Overall Status: " +:+ overall_status report] in
        let lines := lines ++ [""] in
        let lines := lines ++ ["Summary: " +:+ pretty n_pass +:+ " passed, " +:+
                               pretty n_fail +:+ " failed, " +:+
                               pretty n_warn +:+ " warnings, " +:+
                               pretty n_info +:+ " info, " +:+
                               pretty n_skipped +:+ " skipped"] in
        let lines := lines ++ [""] in
        let lines := fold_left (log_category_step report) Config.CHECK_CATEGORIES lines in
        let lines := lines ++ [str_repeat "=" 70] in
        Some lines).

(** The text [generate_text_log] writes to the file: the lines joined by
    newlines. *)
Definition generate_text_log : Method (option string) :=
  lines ← text_log_lines;
  mret (str_join "
" <$> lines).

(** *** Vocabulary of the properties *)

(** The nine lines before the first category. *)
Definition log_header (r : ValidationReport) : list string :=
  [ str_repeat "=" 70;
    "AutoCheck Report: " +:+ lab_sku r;
    str_repeat "=" 70;
    "Generated: " +:+ timestamp r;
    "Expiration Window: " +:+ min_exp_date r +:+ " to " +:+ max_exp_date r;
    "Overall Status: " +:+ overall_status r;
    "";
    "Summary: " +:+ pretty (summary_count r "pass") +:+ " passed, " +:+
      pretty (summary_count r "fail") +:+ " failed, " +:+
      pretty (summary_count r "warn") +:+ " warnings, " +:+
      pretty (summary_count r "info") +:+ " info, " +:+
      pretty (summary_count r "skipped") +:+ " skipped";
    "" ].

(** The lines of one category: a ruled title, one line per result, an empty
    line. *)
Definition log_block (category_name : string) (checks : list CheckResult) : list string :=
  [str_repeat "-" 70; category_name; str_repeat "-" 70] ++
  (to_log_line <$> checks) ++ [""].

End TextLog.

(** ** Python text operations *)

(** Text is kept as its UTF-8 bytes.  Concatenation, equality, prefix and
    substring tests and splitting at an ASCII separator agree on bytes and
    on characters; [len] and slicing count characters, which are the bytes
    of ASCII text only. *)
Module PyStr.

(** [s.startswith(prefix)] *)
Fixpoint startswith (prefix s : string) : bool :=
  match prefix, s with
  | EmptyString, _ => true
  | String a prefix', String b s' => bool_decide (a = b) && startswith prefix' s'
  | String _ _, EmptyString => false
  end.

(** [pattern in s] *)
Fixpoint contains (pattern s : string) : bool :=
  startswith pattern s ||
  match s with
  | EmptyString => false
  | String _ s' => contains pattern s'
  end.

(** [sep.join(parts)] *)
Fixpoint join (sep : string) (parts : list string) : string :=
  match parts with
  | [] => ""
  | [part] => part
  | part :: rest => part +:+ sep +:+ join sep rest
  end.

(** [len(s)], [s[:n]] and [s[n:]] for a text of ASCII characters, where a
    character is a byte. *)
Definition len (s : string) : nat := String.length s.

Fixpoint take (n : nat) (s : string) : string :=
  match n, s with
  | S n', String a s' => String a (take n' s')
  | _, _ => ""
  end.

Fixpoint drop (n : nat) (s : string) : string :=
  match n, s with
  | S n', String _ s' => drop n' s'
  | _, _ => s
  end.

(** [s.split(sep)] for a separator that is not empty: [skip] characters of
    a separator just found are still to be passed over, [cur] is the part
    read so far. *)
Fixpoint split_aux (sep : string) (skip : nat) (cur : string) (s : string) : list string :=
  match s with
  | EmptyString => [cur]
  | String a s' =>
      match skip with
      | S skip' => split_aux sep skip' cur s'
      | O =>
          if startswith sep s then cur :: split_aux sep (len sep - 1) "" s'
          else split_aux sep 0 (cur +:+ String a "") s'
      end
  end.

Definition split (sep s : string) : list string := split_aux sep 0 "" s.

(** [parts[i]] where the index is in range. *)
Definition item (parts : list string) (i : nat) : string := nth i parts "".

(** [\d] on an ASCII character, and the value of a digit. *)
Definition is_digit (a : Ascii.ascii) : bool :=
  (48 <=? Ascii.nat_of_ascii a)%nat && (Ascii.nat_of_ascii a <=? 57)%nat.

Definition digit_value (a : Ascii.ascii) : Z :=
  Z.of_nat (Ascii.nat_of_ascii a) - 48.

(** [(?:\D|$)] at the start of the rest of the text. *)
Definition non_digit_or_end (s : string) : bool :=
  match s with
  | EmptyString => true
  | String a _ => negb (is_digit a)
  end.

(** [int(s)] for a text of ASCII digits; [None] is the [ValueError] of a
    text that holds another character or no character. *)
Fixpoint int_digits (acc : Z) (s : string) : option Z :=
  match s with
  | EmptyString => Some acc
  | String a s' =>
      if is_digit a then int_digits (10 * acc + digit_value a) s' else None
  end.

Definition int_of_digits (s : string) : option Z :=
  match s with
  | EmptyString => None
  | String _ _ => int_digits 0 s
  end.

(** Every character of the text is an ASCII character. *)
Definition ascii_text (s : string) : Prop :=
  Forall (fun a => Ascii.nat_of_ascii a < 128) (String.list_ascii_of_string s).

End PyStr.

(** ** autocheck_config.py: helper functions *)

Module ConfigFunctions.

(** VMs to skip during configuration checks (system VMs). *)
Definition SKIP_VM_PATTERNS : list string :=
  [ "vcf-services-platform-template-";
    "SupervisorControlPlaneVM" ].

(** License/certificate expiration thresholds (months from today). *)
Definition EXPIRATION_PASS_MONTHS : Z := 9.
Definition EXPIRATION_WARN_MONTHS : Z := 3.

(** Per-check timeout of a URL request (seconds). *)
Definition CHECK_TIMEOUT_URL : Z := 15.

(** Password expiration thresholds (days). *)
Definition PASSWORD_EXPIRE_PASS_DAYS : Z := 1095.  (* 3 years *)
Definition PASSWORD_EXPIRE_WARN_DAYS : Z := 730.   (* 2 years *)

(** The characters [-] and [9]. *)
Definition dash : Ascii.ascii := Ascii.ascii_of_nat 45.
Definition nine : Ascii.ascii := Ascii.ascii_of_nat 57.

(** [re.match] of [-(\d{4})(?:\D|$)] at the start of an ASCII text: the
    first two characters of group 1. *)
Definition match_year_at (s : string) : option string :=
  match s with
  | String a (String d1 (String d2 (String d3 (String d4 rest)))) =>
      if bool_decide (a = dash) &&
         PyStr.is_digit d1 && PyStr.is_digit d2 && PyStr.is_digit d3 &&
         PyStr.is_digit d4 && PyStr.non_digit_or_end rest
      then Some (String d1 (String d2 ""))
      else None
  | _ => None
  end.

(** [re.search(r'-(\d{4})(?:\D|$)', lab_sku)]: the leftmost match. *)
Fixpoint search_year (s : string) : option string :=
  match match_year_at s with
  | Some year_part => Some year_part
  | None =>
      match s with
      | EmptyString => None
      | String _ s' => search_year s'
      end
  end.

(** [re.match] of [-9\d{2}(?:\D|$)] at the start of an ASCII text. *)
Definition match_beta_at (s : string) : bool :=
  match s with
  | String a (String b (String d1 (String d2 rest))) =>
      bool_decide (a = dash) && bool_decide (b = nine) &&
      PyStr.is_digit d1 && PyStr.is_digit d2 && PyStr.non_digit_or_end rest
  | _ => false
  end.

(** [re.search(r'-9\d{2}(?:\D|$)', lab_sku)] finds a match. *)
Fixpoint search_beta (s : string) : bool :=
  match_beta_at s ||
  match s with
  | EmptyString => false
  | String _ s' => search_beta s'
  end.

(** [get_lab_year(lab_sku)] for a SKU of ASCII characters. *)
Definition get_lab_year (lab_sku : string) : string :=
  let default_year := "27" in
  if bool_decide (lab_sku = "") || bool_decide (PyStr.len lab_sku < 4) then default_year
  else
    let in_range :=
      match search_year lab_sku with
      | Some year_part =>
          match PyStr.int_of_digits year_part with
          | Some year_int =>
              if bool_decide (20 ≤ year_int)%Z && bool_decide (year_int ≤ 35)%Z
              then Some year_part else None
          | None => None
          end
      | None => None
      end in
    match in_range with
    | Some year_part => year_part
    | None => if search_beta lab_sku then default_year else default_year
    end.

(** A [datetime.date]. *)
Record Date : Type := mkDate {
  year : Z;
  month : Z;
  day : Z
}.

(** [get_expiration_dates(lab_sku)]; [None] is the [ValueError] of [int]. *)
Definition get_expiration_dates (lab_sku : string) : option (Date * Date) :=
  let lab_year := get_lab_year lab_sku in
  match PyStr.int_of_digits lab_year with
  | Some n =>
      let year := (n + 2000)%Z in
      Some (mkDate year 12 30, mkDate (year + 1) 12 31)
  | None => None
  end.

(** [should_skip_vm]: the loop returns at the first pattern found in the
    name. *)
Definition should_skip_vm (vm_name : string) : bool :=
  existsb (fun pattern => PyStr.contains pattern vm_name) SKIP_VM_PATTERNS.

End ConfigFunctions.

(** ** checks/vsphere_checks.py: VM configuration *)

Module VsphereChecks.
Import Base.

(** [vm.config]: the extra options and the guest identifier, which may be
    [None]. *)
Record VMConfig : Type := mkVMConfig {
  extraConfig : list (string * string);
  guestId : option string
}.

(** A [vim.VirtualMachine] as the check reads it; [vm_config = None] is a
    VM whose [config] is [None]. *)
Record VM : Type := mkVM {
  vm_name : string;
  vm_config : option VMConfig
}.

(** An element of the list [vms]: a VM whose attributes are read, or a VM
    on which [check_single_vm_configuration] raises an exception, with the
    name that the handler reads from it and the text [e] of the exception. *)
Inductive VmEntry : Type :=
  | ReadableVm (vm : VM)
  | RaisingVm (vmname e : string).

Section VmConfiguration.
(** Whether pyVmomi was imported. *)
Variable PYVMOMI_AVAILABLE : bool.
(** [re.search(pattern, text, re.IGNORECASE)] finds a match. *)
Variable re_search_ignorecase : string -> string -> bool.
(** Whether [vm.ReconfigVM_Task] with the one option succeeds; an exception
    counts as a failure. *)
Variable reconfig : VM -> string -> string -> bool.

(** [add_vm_config_extra_option(vm, option_key, option_value)] *)
Definition add_vm_config_extra_option (vm : VM) (option_key option_value : string) : bool :=
  if negb PYVMOMI_AVAILABLE then false
  else reconfig vm option_key option_value.

(** The loop over [vm.config.extraConfig]: the last entry of a key wins; an
    unreadable configuration leaves the three values empty. *)
Definition read_options (vm : VM) : string * string * string :=
  match vm_config vm with
  | None => ("", "", "")
  | Some c =>
      fold_left
        (fun '(uuid_action, type_delay, autolock) '(key, value) =>
           let uuid_action :=
             if bool_decide (key = "uuid.action") then value else uuid_action in
           let type_delay :=
             if bool_decide (key = "keyboard.typematicMinDelay") then value
             else type_delay in
           let autolock :=
             if bool_decide (key = "tools.guest.desktop.autolock") then value
             else autolock in
           (uuid_action, type_delay, autolock))
        (extraConfig c) ("", "", "")
  end.

(** [vm.config.guestId if vm.config else ''] *)
Definition guest_id_of (vm : VM) : option string :=
  match vm_config vm with
  | Some c => guestId c
  | None => Some ""
  end.

(** [guest_id and re.search(pattern, guest_id, re.IGNORECASE)] *)
Definition guest_matches (pattern : string) (guest_id : option string) : bool :=
  match guest_id with
  | None => false
  | Some g => negb (bool_decide (g = "")) && re_search_ignorecase pattern g
  end.

Definition linux_patterns : string :=
  "linux|ubuntu|debian|centos|sles|suse|asianux|novell|redhat|photon|rhel|other".

(** One of the three checks: the issue and the fix it appends. *)
Definition check_option (vm : VM) (fix_issues : bool) (applies : bool)
    (option_key current wanted fixed_text : string)
    (lists : list string * list string) : list string * list string :=
  let '(issues, fixes) := lists in
  if applies && negb (bool_decide (current = wanted)) then
    let issues := issues ++ [option_key +:+ " is '" +:+ current +:+ "' (should be '" +:+
                             wanted +:+ "')"] in
    if fix_issues then
      if add_vm_config_extra_option vm option_key wanted
      then (issues, fixes ++ [fixed_text])
      else (issues, fixes)
    else (issues, fixes)
  else (issues, fixes).

Definition py_option_str (v : option string) : PyVal :=
  match v with Some s => PStr s | None => PNone end.

(** [check_single_vm_configuration(vm, fix_issues)]; [None] is the Python
    [None] returned for a system VM. *)
Definition check_single_vm_configuration (vm : VM) (fix_issues : bool)
    : option CheckResult :=
  let check_name := "VM Config: " +:+ vm_name vm in
  if ConfigFunctions.should_skip_vm (vm_name vm) then None
  else
    let '(uuid_action, type_delay, autolock) := read_options vm in
    let guest_id := guest_id_of vm in
    let lists := ([], []) in
    let lists := check_option vm fix_issues true
                   "uuid.action" uuid_action "keep" "uuid.action fixed" lists in
    let lists := check_option vm fix_issues (guest_matches "windows" guest_id)
                   "tools.guest.desktop.autolock" autolock "FALSE" "autolock fixed"
                   lists in
    let lists := check_option vm fix_issues (guest_matches linux_patterns guest_id)
                   "keyboard.typematicMinDelay" type_delay "2000000"
                   "typematicMinDelay fixed" lists in
    let '(issues, fixes) := lists in
    let '(status, message) :=
      match issues with
      | _ :: _ =>
          match fixes with
          | _ :: _ =>
              if fix_issues then ("FIXED", "Fixed: " +:+ PyStr.join ", " fixes)
              else ("FAIL", PyStr.join "; " issues)
          | [] => ("FAIL", PyStr.join "; " issues)
          end
      | [] => ("PASS", "VM configuration correct")
      end in
    Some (mkCheckResult check_name status message
            [ ("vm_name", PStr (vm_name vm));
              ("guest_id", py_option_str guest_id);
              ("uuid_action", PStr uuid_action);
              ("type_delay", PStr type_delay);
              ("autolock", PStr autolock) ]).

(** [check_vm_configuration(vms, fix_issues)]: a VM on which the check
    raises gets the result of the handler. *)
Definition check_vm_configuration (vms : list VmEntry) (fix_issues : bool)
    : list CheckResult :=
  match vms with
  | [] => [mkCheckResult "VM Configuration" "SKIPPED" "No VMs to check" []]
  | _ :: _ =>
      fold_left
        (fun results entry =>
           match entry with
           | ReadableVm vm =>
               match check_single_vm_configuration vm fix_issues with
               | Some result => results ++ [result]
               | None => results
               end
           | RaisingVm vmname e =>
               results ++ [mkCheckResult ("VM Config: " +:+ vmname) "WARN"
                             ("Could not check: " +:+ e) []]
           end)
        vms []
  end.

(** *** Vocabulary of the properties *)

(** The three options as the check reads them. *)
Definition uuid_action_of (vm : VM) : string := (read_options vm).1.1.
Definition type_delay_of (vm : VM) : string := (read_options vm).1.2.
Definition autolock_of (vm : VM) : string := (read_options vm).2.

(** The three issues the check looks for. *)
Definition uuid_issue (vm : VM) : bool :=
  negb (bool_decide (uuid_action_of vm = "keep")).
Definition autolock_issue (vm : VM) : bool :=
  guest_matches "windows" (guest_id_of vm) &&
  negb (bool_decide (autolock_of vm = "FALSE")).
Definition delay_issue (vm : VM) : bool :=
  guest_matches linux_patterns (guest_id_of vm) &&
  negb (bool_decide (type_delay_of vm = "2000000")).

End VmConfiguration.

(** What reading an attribute of a vSphere object gives: its value, or an
    exception with its text. *)
Inductive Read (A : Type) : Type :=
  | Value (a : A)
  | Error (e : string).
Arguments Value {A} a.
Arguments Error {A} e.

(** A [vim.ClusterComputeResource]: its name, [drsConfig.enabled] with
    [drsConfig.defaultVmBehavior], and [dasConfig.enabled]. *)
Record Cluster : Type := mkCluster {
  cluster_name : string;
  drsConfig : Read (bool * string);
  dasConfig : Read bool
}.

(** [check_cluster_drs(cluster)] *)
Definition check_cluster_drs (cluster : Cluster) : CheckResult :=
  let check_name := "DRS: " +:+ cluster_name cluster in
  match drsConfig cluster with
  | Value (drs_enabled, drs_behavior) =>
      if negb drs_enabled then
        mkCheckResult check_name "PASS" "DRS disabled (minimizes I/O)"
          [("enabled", PBool false); ("behavior", PNone)]
      else if bool_decide (drs_behavior = "fullyAutomated") then
        mkCheckResult check_name "FAIL"
          "DRS is FullyAutomated - should be PartiallyAutomated"
          [("enabled", PBool true); ("behavior", PStr drs_behavior)]
      else
        mkCheckResult check_name "PASS" ("DRS is " +:+ drs_behavior)
          [("enabled", PBool true); ("behavior", PStr drs_behavior)]
  | Error e =>
      mkCheckResult check_name "WARN" ("Could not check DRS: " +:+ e) []
  end.

(** [check_cluster_ha(cluster)] *)
Definition check_cluster_ha (cluster : Cluster) : CheckResult :=
  let check_name := "HA: " +:+ cluster_name cluster in
  match dasConfig cluster with
  | Value ha_enabled =>
      if ha_enabled then
        mkCheckResult check_name "FAIL" "HA is enabled - should be disabled for labs"
          [("enabled", PBool true)]
      else
        mkCheckResult check_name "PASS" "HA disabled" [("enabled", PBool false)]
  | Error e =>
      mkCheckResult check_name "WARN" ("Could not check HA: " +:+ e) []
  end.

(** A [vim.HostSystem] as the build check reads it: its name and
    [config.product.version] with [config.product.build], [None] when
    reading them raises an exception. *)
Record BuildHost : Type := mkBuildHost {
  build_host_name : string;
  product : option (string * string)
}.

(** [f"{version} (build {build})"] *)
Definition full_build_of (version build : string) : string :=
  version +:+ " (build " +:+ build +:+ ")".

(** [if full_build not in builds: builds[full_build] = []] and then
    [builds[full_build].append(name)], on a dictionary in insertion
    order. *)
Fixpoint builds_append (builds : list (string * list string))
    (full_build name : string) : list (string * list string) :=
  match builds with
  | [] => [(full_build, [name])]
  | (k, hosts) :: rest =>
      if bool_decide (k = full_build) then (k, hosts ++ [name]) :: rest
      else (k, hosts) :: builds_append rest full_build name
  end.

Section Inventory.
Variable PYVMOMI_AVAILABLE : bool.

(** [check_clusters(sis)]: a vCenter is the clusters of its container view,
    or the exception creating the view raises. *)
Definition check_clusters (sis : list (Read (list Cluster))) : list CheckResult :=
  if negb PYVMOMI_AVAILABLE then
    [mkCheckResult "Cluster Checks" "SKIPPED" "pyVmomi not available" []]
  else
    fold_left
      (fun results si =>
         match si with
         | Value view =>
             fold_left
               (fun results cluster =>
                  (results ++ [check_cluster_drs cluster]) ++ [check_cluster_ha cluster])
               view results
         | Error e =>
             results ++ [mkCheckResult "Cluster Checks" "WARN"
                           ("Could not check clusters: " +:+ e) []]
         end)
      sis [].

(** The result that follows the loop of [check_esxi_builds], and the
    results for the builds after it. *)
Definition analyze_builds (builds : list (string * list string)) : list CheckResult :=
  match builds with
  | [] => [mkCheckResult "ESXi Builds" "SKIPPED" "No ESXi hosts found" []]
  | [(build, hosts)] =>
      [mkCheckResult "ESXi Builds" "PASS"
         ("All " +:+ pretty (length hosts) +:+ " hosts are running " +:+ build)
         [("build", PStr build); ("host_count", PInt (Z.of_nat (length hosts)))]]
  | _ =>
      mkCheckResult "ESXi Builds" "WARN"
        ("Inconsistent builds: " +:+ pretty (length builds) +:+
         " different versions found")
        [("builds", PDict ((fun '(k, v) => (k, PList (PStr <$> v))) <$> builds))]
      :: ((fun '(build, hosts) =>
             mkCheckResult ("ESXi Build: " +:+ build) "INFO"
               (pretty (length hosts) +:+ " host(s): " +:+
                PyStr.join ", " (take 3 hosts) +:+
                (if bool_decide (3 < length hosts) then "..." else ""))
               [("build", PStr build); ("hosts", PList (PStr <$> hosts))])
          <$> builds)
  end.

(** [check_esxi_builds(sis)]: a vCenter is the hosts of its container view,
    or the exception creating the view raises. *)
Definition check_esxi_builds (sis : list (Read (list BuildHost))) : list CheckResult :=
  if negb PYVMOMI_AVAILABLE then
    [mkCheckResult "ESXi Build Checks" "SKIPPED" "pyVmomi not available" []]
  else
    let '(results, builds) :=
      fold_left
        (fun '(results, builds) si =>
           match si with
           | Value view =>
               (results,
                fold_left
                  (fun builds host =>
                     match product host with
                     | Some (version, build) =>
                         builds_append builds (full_build_of version build)
                           (build_host_name host)
                     | None => builds
                     end)
                  view builds)
           | Error e =>
               (results ++ [mkCheckResult "ESXi Build Checks" "WARN"
                              ("Could not check ESXi builds: " +:+ e) []],
                builds)
           end)
        sis ([], []) in
    results ++ analyze_builds builds.

End Inventory.

(** *** Vocabulary of the properties *)

(** The build and the name of every host whose build can be read, in the
    order the check visits them. *)
Definition readable_hosts (sis : list (Read (list BuildHost))) : list (string * string) :=
  sis ≫= (fun si =>
    match si with
    | Value view =>
        omap (fun host =>
                match product host with
                | Some (version, build) =>
                    Some (full_build_of version build, build_host_name host)
                | None => None
                end) view
    | Error _ => []
    end).

(** The dictionary [builds] after the hosts [l], given as build and name,
    have been entered into [builds]. *)
Definition group (l : list (string * string)) (builds : list (string * list string))
    : list (string * list string) :=
  fold_left (fun builds '(k, n) => builds_append builds k n) l builds.

(** The number of host names in the dictionary [builds]. *)
Definition total (builds : list (string * list string)) : nat :=
  sum_list (length ∘ snd <$> builds).

(** The result for a vCenter whose view of the hosts cannot be created. *)
Definition build_warning (e : string) : CheckResult :=
  mkCheckResult "ESXi Build Checks" "WARN" ("Could not check ESXi builds: " +:+ e) [].

(** The texts of the exceptions of the vCenters whose view cannot be
    created. *)
Definition view_errors {A} (sis : list (Read (list A))) : list string :=
  omap (fun si => match si with Error e => Some e | Value _ => None end) sis.

End VsphereChecks.

(** ** checks/linux_checks.py *)

Module LinuxChecks.
Import Base.

(** The answers of lsfunctions that [check_ssh_access] looks at: ping, a
    TCP port probe, and the return code and error text of the command
    [hostname] run over SSH as root. *)
Record Lsf : Type := mkLsf {
  test_ping : string -> bool;
  test_tcp_port : string -> Z -> bool;
  ssh_hostname : string -> Z * string
}.

(** [check_ssh_access(hostname, lsf)]; [lsf = None] is a missing module. *)
Definition check_ssh_access (hostname : string) (lsf : option Lsf) : CheckResult :=
  let check_name := "SSH: " +:+ hostname in
  match lsf with
  | None => mkCheckResult check_name "SKIPPED" "lsfunctions not available" []
  | Some lsf =>
      if negb (test_ping lsf hostname) then
        mkCheckResult check_name "WARN" "Host not responding to ping"
          [("hostname", PStr hostname)]
      else if negb (test_tcp_port lsf hostname 22) then
        mkCheckResult check_name "WARN" "SSH port 22 not responding"
          [("hostname", PStr hostname); ("port", PInt 22)]
      else
        let '(returncode, stderr) := ssh_hostname lsf hostname in
        if bool_decide (returncode = 0%Z) then
          mkCheckResult check_name "PASS" "SSH accessible with root credentials"
            [("hostname", PStr hostname); ("user", PStr "root")]
        else
          mkCheckResult check_name "FAIL" "SSH authentication failed"
            [("hostname", PStr hostname); ("user", PStr "root"); ("error", PStr stderr)]
  end.

(** [check_linux_machines(hosts, lsf)] *)
Definition check_linux_machines (hosts : list string) (lsf : option Lsf)
    : list CheckResult :=
  match hosts with
  | [] => [mkCheckResult "Linux Checks" "SKIPPED" "No Linux hosts to check" []]
  | _ :: _ =>
      fold_left (fun results hostname => results ++ [check_ssh_access hostname lsf])
        hosts []
  end.

Section PasswordExpiration.
(** [get_password_expiration_days(hostname, username, lsf)]: the days until
    the password expires, [None] when it never expires or cannot be told.
    The function reads the account over SSH and catches every exception. *)
Variable get_password_expiration_days : string -> string -> option Z.

(** [check_single_password_expiration(hostname, username, lsf)] *)
Definition check_single_password_expiration (hostname username : string) : CheckResult :=
  let check_name := "Password: " +:+ hostname +:+ " (" +:+ username +:+ ")" in
  match get_password_expiration_days hostname username with
  | None =>
      mkCheckResult check_name "PASS" "Password never expires"
        [("hostname", PStr hostname); ("username", PStr username);
         ("expires", PStr "never")]
  | Some days =>
      let details := [("hostname", PStr hostname); ("username", PStr username);
                      ("days", PInt days)] in
      if bool_decide (days < 0)%Z then
        mkCheckResult check_name "FAIL"
          ("Password EXPIRED " +:+ pretty (Z.abs days) +:+ " days ago") details
      else if bool_decide (ConfigFunctions.PASSWORD_EXPIRE_PASS_DAYS ≤ days)%Z then
        mkCheckResult check_name "PASS"
          ("Expires in " +:+ pretty days +:+ " days (" +:+ pretty (days / 365)%Z +:+
           " years)") details
      else if bool_decide (ConfigFunctions.PASSWORD_EXPIRE_WARN_DAYS ≤ days)%Z then
        mkCheckResult check_name "PASS"
          ("Expires in " +:+ pretty days +:+ " days (" +:+ pretty (days / 365)%Z +:+
           " years)") details
      else
        mkCheckResult check_name "FAIL"
          ("Expires in " +:+ pretty days +:+ " days - TOO SOON") details
  end.

End PasswordExpiration.

(** What [lsf.ssh] gives for the command [date +%s]: the finished process,
    or an exception with its text. *)
Inductive SshDate : Type :=
  | SshReturned (returncode : Z) (stdout stderr : string)
  | SshRaised (e : string).

(** What [int(text.strip())] gives: the number, or the text of the
    [ValueError]. *)
Inductive IntParse : Type :=
  | IntValue (n : Z)
  | IntError (e : string).

Section TimeSync.
(** Whether the lsfunctions module is given. *)
Variable lsf_given : bool.
(** [lsf.ssh('date +%s', f'root@{hostname}', password)] *)
Variable ssh_date : string -> SshDate.
(** [int(stdout.strip())] *)
Variable int_strip : string -> IntParse.
(** [int(datetime.datetime.now().timestamp())] *)
Variable local_time : Z.

(** [check_time_sync(hostname, lsf)] *)
Definition check_time_sync (hostname : string) : CheckResult :=
  let check_name := "Time: " +:+ hostname in
  if negb lsf_given then
    mkCheckResult check_name "SKIPPED" "lsfunctions not available" []
  else
    match ssh_date hostname with
    | SshRaised e =>
        mkCheckResult check_name "WARN" ("Could not check time: " +:+ e)
          [("hostname", PStr hostname); ("error", PStr e)]
    | SshReturned returncode stdout stderr =>
        if negb (bool_decide (returncode = 0%Z)) then
          mkCheckResult check_name "WARN" "Could not get remote time"
            [("hostname", PStr hostname); ("error", PStr stderr)]
        else
          match int_strip stdout with
          | IntError e =>
              mkCheckResult check_name "WARN" ("Could not check time: " +:+ e)
                [("hostname", PStr hostname); ("error", PStr e)]
          | IntValue remote_time =>
              let delta_seconds := Z.abs (remote_time - local_time) in
              let details := [("hostname", PStr hostname);
                              ("delta_seconds", PInt delta_seconds)] in
              if bool_decide (delta_seconds ≤ 60)%Z then
                mkCheckResult check_name "PASS"
                  ("Time synchronized (delta: " +:+ pretty delta_seconds +:+ "s)") details
              else if bool_decide (delta_seconds ≤ 300)%Z then
                mkCheckResult check_name "WARN"
                  ("Time slightly off (delta: " +:+ pretty delta_seconds +:+ "s)") details
              else
                mkCheckResult check_name "FAIL"
                  ("Time significantly off (delta: " +:+ pretty delta_seconds +:+ "s)")
                  details
          end
    end.

End TimeSync.

Section PasswordExpirations.
(** Whether the lsfunctions module is given. *)
Variable lsf_given : bool.
(** [lsf.config]: the value of an option of a section, [None] when
    [has_option] is false. *)
Variable config_get : string -> string -> option string.
(** [str.strip] and [str.lower]. *)
Variable strip : string -> string.
Variable lower : string -> string.
Variable get_password_expiration_days : string -> string -> option Z.

(** The loop over the lines of an option that holds host entries: the
    host names, in order. *)
Definition host_entries (raw : string) : list string :=
  fold_left
    (fun hosts entry =>
       if bool_decide (entry = "") || PyStr.startswith "#" (strip entry) then hosts
       else
         let hostname := strip (PyStr.item (PyStr.split ":" entry) 0) in
         if negb (bool_decide (hostname = "")) then hosts ++ [hostname] else hosts)
    (PyStr.split "
" raw) [].

(** The hosts of an option, none when the option is missing. *)
Definition option_hosts (section option : string) : list string :=
  match config_get section option with
  | Some raw => host_entries raw
  | None => []
  end.

(** The loop over the URL entries that adds SDDC managers. *)
Definition sddc_from_urls (sddc_managers : list string) : list string :=
  match config_get "RESOURCES" "URLs" with
  | Some raw =>
      fold_left
        (fun sddc_managers entry =>
           if PyStr.contains "sddcmanager" (lower entry) then
             let url := strip (PyStr.item (PyStr.split "," entry) 0) in
             if PyStr.contains "://" url then
               let hostname :=
                 PyStr.item (PyStr.split ":"
                   (PyStr.item (PyStr.split "/"
                      (PyStr.item (PyStr.split "://" url) 1)) 0)) 0 in
               if negb (bool_decide (hostname = "")) &&
                  negb (bool_decide (hostname ∈ sddc_managers))
               then sddc_managers ++ [hostname] else sddc_managers
             else sddc_managers
           else sddc_managers)
        (PyStr.split "
" raw) sddc_managers
  | None => sddc_managers
  end.

(** The loop that checks the given users on every host of a list. *)
Definition check_accounts (users : list string) (results : list CheckResult)
    (hosts : list string) : list CheckResult :=
  fold_left
    (fun results hostname =>
       fold_left
         (fun results user =>
            results ++ [check_single_password_expiration get_password_expiration_days
                          hostname user])
         users results)
    hosts results.

(** [check_password_expirations(lsf)] *)
Definition check_password_expirations : list CheckResult :=
  if negb lsf_given then
    [mkCheckResult "Password Expiration Checks" "SKIPPED" "lsfunctions not available" []]
  else
    let results := [] in
    let esxi_hosts := option_hosts "RESOURCES" "ESXiHosts" in
    let results := check_accounts ["root"] results esxi_hosts in
    let vcenters := option_hosts "RESOURCES" "vCenters" in
    let results := check_accounts ["root"] results vcenters in
    let nsx_managers := option_hosts "VCF" "vcfnsxmgr" in
    let results := check_accounts ["root"; "admin"] results nsx_managers in
    let sddc_managers := option_hosts "VCF" "sddcmanager" in
    let sddc_managers := sddc_from_urls sddc_managers in
    let results := check_accounts ["vcf"; "root"; "backup"] results sddc_managers in
    results.

(** *** Vocabulary of the properties *)

(** The accounts the check looks at, host and user, in its order. *)
Definition accounts : list (string * string) :=
  ((fun h => (h, "root")) <$> option_hosts "RESOURCES" "ESXiHosts") ++
  ((fun h => (h, "root")) <$> option_hosts "RESOURCES" "vCenters") ++
  (option_hosts "VCF" "vcfnsxmgr" ≫= fun h => [(h, "root"); (h, "admin")]) ++
  (sddc_from_urls (option_hosts "VCF" "sddcmanager") ≫=
     fun h => [(h, "vcf"); (h, "root"); (h, "backup")]).

End PasswordExpirations.

End LinuxChecks.

(** ** checks/ntp_checks.py *)

Module NtpChecks.
Import Base.

(** An entry of [esx_host.config.service.service]. *)
Record Service : Type := mkService {
  key : string;
  running : bool;
  policy : string
}.

(** A [vim.HostSystem] as the check reads it.  [services = None] and
    [ntp_servers = None] stand for a part of the configuration whose
    reading raises an exception. *)
Record EsxHost : Type := mkEsxHost {
  host_name : string;
  services : option (list Service);
  ntp_servers : option (list string)
}.

(** The dictionary [ntp_data]. *)
Record NtpData : Type := mkNtpData {
  ntp_hostname : string;
  ntp_running : bool;
  ntp_policy : string;
  ntp_server : string
}.

(** The loop of [get_ntp_config] from the first service on: it stops at
    the first service whose key is ntpd. *)
Fixpoint find_ntpd (esx_host : EsxHost) (ntp_data : NtpData) (l : list Service) : NtpData :=
  match l with
  | [] => ntp_data
  | service :: rest =>
      if bool_decide (key service = "ntpd") then
        let ntp_data := mkNtpData (ntp_hostname ntp_data) (running service)
                          (policy service) (ntp_server ntp_data) in
        match ntp_servers esx_host with
        | None => ntp_data  (* the exception ends the loop *)
        | Some [] => ntp_data
        | Some (server :: _) =>
            mkNtpData (ntp_hostname ntp_data) (ntp_running ntp_data)
              (ntp_policy ntp_data) server
        end
      else find_ntpd esx_host ntp_data rest
  end.

(** [get_ntp_config(esx_host)] *)
Definition get_ntp_config (esx_host : EsxHost) : NtpData :=
  let ntp_data := mkNtpData (host_name esx_host) false "" "" in
  match services esx_host with
  | None => ntp_data
  | Some l => find_ntpd esx_host ntp_data l
  end.

(** [check_single_host_ntp(host)] *)
Definition check_single_host_ntp (host : EsxHost) : CheckResult :=
  let ntp_config := get_ntp_config host in
  let check_name := "NTP: " +:+ host_name host in
  let issues := [] in
  let issues := if negb (ntp_running ntp_config)
                then issues ++ ["NTPD not running"] else issues in
  let issues := if negb (bool_decide (ntp_policy ntp_config = "on"))
                then issues ++ ["NTPD policy is '" +:+ ntp_policy ntp_config +:+
                                "' (should be 'on')"]
                else issues in
  let issues := if bool_decide (ntp_server ntp_config = "")
                then issues ++ ["No NTP server configured"] else issues in
  let '(status, message) :=
    match issues with
    | _ :: _ => ("WARN", PyStr.join "; " issues)
    | [] => ("PASS", "NTP configured correctly (server: " +:+ ntp_server ntp_config +:+ ")")
    end in
  mkCheckResult check_name status message
    [ ("hostname", PStr (ntp_hostname ntp_config));
      ("running", PBool (ntp_running ntp_config));
      ("policy", PStr (ntp_policy ntp_config));
      ("server", PStr (ntp_server ntp_config)) ].

(** An element of the list [hosts]: a host whose properties are read, or
    a host on which [check_single_host_ntp] raises an exception, with the
    name that the handler reads from it and the text [e] of the exception. *)
Inductive HostEntry : Type :=
  | ReadableHost (host : EsxHost)
  | RaisingHost (hostname e : string).

(** [check_ntp_configuration(hosts)]: a host on which the check raises gets
    the result of the handler. *)
Definition check_ntp_configuration (hosts : list HostEntry) : list CheckResult :=
  match hosts with
  | [] => [mkCheckResult "NTP Checks" "SKIPPED" "No ESXi hosts to check" []]
  | _ :: _ =>
      fold_left
        (fun results entry =>
           match entry with
           | ReadableHost host => results ++ [check_single_host_ntp host]
           | RaisingHost hostname e =>
               results ++ [mkCheckResult ("NTP: " +:+ hostname) "FAIL"
                             ("Failed to check NTP: " +:+ e) []]
           end)
        hosts []
  end.

End NtpChecks.

(** ** checks/license_checks.py *)

Module LicenseChecks.
Import Base.

(** [mask_license_key(license_key)] *)
Definition mask_license_key (license_key : string) : string :=
  if bool_decide (10 < PyStr.len license_key) then
    PyStr.take 5 license_key +:+ "-****-****-****-" +:+
    PyStr.drop (PyStr.len license_key - 5) license_key
  else license_key.

Section Licenses.
(** A [datetime.date]. *)
Variable Date : Type.
(** [str(exp_date)] *)
Variable date_str : Date -> string.
(** Whether [config.get_months_until_expiration(exp_date) >= months]: the
    months are the days from today to the date divided by 30.44, a floating
    point number. *)
Variable months_until_at_least : Date -> Z -> bool.

(** [get_license_expiration_status(exp_date)] *)
Definition get_license_expiration_status (exp_date : Date) : string * string :=
  if months_until_at_least exp_date ConfigFunctions.EXPIRATION_PASS_MONTHS then
    ("PASS", "License valid - expires " +:+ date_str exp_date +:+ " (>= 9 months)")
  else if months_until_at_least exp_date ConfigFunctions.EXPIRATION_WARN_MONTHS then
    ("WARN", "License expiring soon - expires " +:+ date_str exp_date +:+ " (< 9 months)")
  else
    ("FAIL", "License expiring critically soon - expires " +:+ date_str exp_date +:+
             " (< 3 months)").

(** [check_single_license(license_key, license_name, entity_name, exp_date)];
    [exp_date = None] is the Python [None] or another false value. *)
Definition check_single_license (license_key license_name entity_name : string)
    (exp_date : option Date) : CheckResult :=
  let check_name := "License: " +:+ license_name in
  if bool_decide (license_key = "00000-00000-00000-00000-00000") then
    mkCheckResult check_name "FAIL"
      "Evaluation license detected - requires production license"
      [("license_key", PStr license_key); ("entity", PStr entity_name)]
  else
    match exp_date with
    | Some exp_date =>
        let '(status, message) := get_license_expiration_status exp_date in
        mkCheckResult check_name status message
          [("license_key", PStr (mask_license_key license_key));
           ("entity", PStr entity_name);
           ("expiration", PStr (date_str exp_date))]
    | None =>
        let '(status, message) :=
          if PyStr.contains "NSX for vShield Endpoint" license_name
          then ("WARN", "Non-expiring license (expected for vShield Endpoint)")
          else ("FAIL", "Non-expiring license detected - requires dated license") in
        mkCheckResult check_name status message
          [("license_key", PStr (mask_license_key license_key));
           ("entity", PStr entity_name);
           ("expiration", PStr "Never")]
    end.

(** The value of a license property: a [datetime], which has a [date]
    method, a [date], a false value such as [None], or another value, given
    by the text [str] shows. *)
Inductive PropValue : Type :=
  | DateTimeValue (d : Date)
  | DateValue (d : Date)
  | FalsyValue
  | OtherValue (text : string).

(** [asset.assignedLicense] with [asset.entityDisplayName], and an entry of
    [lic_mgr.licenses]. *)
Record Asset : Type := mkAsset {
  asset_licenseKey : string;
  asset_name : string;
  entityDisplayName : string;
  asset_properties : list (string * PropValue)
}.

Record License : Type := mkLicense {
  licenseKey : string;
  license_name : string;
  used : bool;
  properties : list (string * PropValue)
}.

(** The license manager of a vCenter: reading it raises an exception,
    [QueryAssignedLicenses] raises one, or it gives the assigned and the
    installed licenses. *)
Inductive LicenseManager : Type :=
  | ManagerError (e : string)
  | QueryError (e : string)
  | Manager (assets : list Asset) (licenses : list License).

(** The loop over the properties: the value of the first property whose
    key is expirationDate, [FalsyValue] (the initial [None]) without one. *)
Fixpoint expiration_property (props : list (string * PropValue)) : PropValue :=
  match props with
  | [] => FalsyValue
  | (key, value) :: rest =>
      if bool_decide (key = "expirationDate") then value else expiration_property rest
  end.

(** The date [check_single_license] gets for an assigned license. *)
Definition assigned_exp_date (value : PropValue) : option Date :=
  match value with
  | DateTimeValue d => Some d   (* exp_date.date() *)
  | DateValue d => Some d
  | FalsyValue => None
  | OtherValue _ => None
  end.

(** [exp_msg] of an unassigned license. *)
Definition exp_msg (value : PropValue) : string :=
  match value with
  | DateTimeValue d => " - expires " +:+ date_str d
  | DateValue d => " - expires " +:+ date_str d
  | FalsyValue => " - no expiration date"
  | OtherValue text => " - expires " +:+ text
  end.

(** The body of the loop over the assigned licenses. *)
Definition asset_step (state : list CheckResult * gset string) (asset : Asset)
    : list CheckResult * gset string :=
  let '(results, license_keys_checked) := state in
  if bool_decide (asset_licenseKey asset ∈ license_keys_checked) then state
  else
    let license_keys_checked := license_keys_checked ∪ {[ asset_licenseKey asset ]} in
    let exp_date := assigned_exp_date (expiration_property (asset_properties asset)) in
    (results ++ [check_single_license (asset_licenseKey asset) (asset_name asset)
                   (entityDisplayName asset) exp_date],
     license_keys_checked).

(** The body of the loop over the installed licenses. *)
Definition license_step (state : list CheckResult * gset string) (lic : License)
    : list CheckResult * gset string :=
  let '(results, license_keys_checked) := state in
  if bool_decide (licenseKey lic ∈ license_keys_checked) then state
  else if negb (used lic) &&
          negb (bool_decide (licenseKey lic = "00000-00000-00000-00000-00000")) then
    (results ++ [mkCheckResult ("License: " +:+ license_name lic) "WARN"
                   ("Unassigned license - should be removed" +:+
                    exp_msg (expiration_property (properties lic)))
                   [("license_key", PStr (mask_license_key (licenseKey lic)));
                    ("used", PBool false)]],
     license_keys_checked ∪ {[ licenseKey lic ]})
  else state.

(** The body of the loop over the vCenters. *)
Definition si_step (state : list CheckResult * gset string) (si : LicenseManager)
    : list CheckResult * gset string :=
  match si with
  | ManagerError e =>
      (state.1 ++ [mkCheckResult "License Check" "FAIL"
                     ("Could not check licenses: " +:+ e) []], state.2)
  | QueryError e =>
      (state.1 ++ [mkCheckResult "License Query" "FAIL"
                     ("Failed to query assigned licenses: " +:+ e) []], state.2)
  | Manager assets licenses =>
      fold_left license_step licenses (fold_left asset_step assets state)
  end.

(** [check_licenses(sis, min_exp_date, max_exp_date)] *)
Definition check_licenses (sis : list LicenseManager) : list CheckResult :=
  (fold_left si_step sis ([], ∅)).1.

(** *** Vocabulary of the properties *)

(** Some result reports the evaluation license. *)
Definition evaluation_reported (results : list CheckResult) : Prop :=
  ∃ c, c ∈ results ∧ status c = "FAIL" ∧
       message c = "Evaluation license detected - requires production license".

(** What the loops of [check_licenses] keep true of the results and the
    set of checked keys: the evaluation key is checked only with its
    report. *)
Definition invariant (state : list CheckResult * gset string) : Prop :=
  "00000-00000-00000-00000-00000" ∈ state.2 → evaluation_reported state.1.

(** From one state of the loops to a later one at most [n] results are
    added at the end, and no checked key is forgotten. *)
Definition grows (n : nat) (s1 s2 : list CheckResult * gset string) : Prop :=
  (∃ more, s2.1 = s1.1 ++ more ∧ (length more ≤ n)%nat) ∧ s1.2 ⊆ s2.2.

(** The most results a vCenter can add. *)
Definition most_results (si : LicenseManager) : nat :=
  match si with
  | ManagerError _ => 1
  | QueryError _ => 1
  | Manager assets licenses => length assets + length licenses
  end.

End Licenses.

Arguments DateTimeValue {Date} d.
Arguments DateValue {Date} d.
Arguments FalsyValue {Date}.
Arguments OtherValue {Date} text.
Arguments mkAsset {Date} _ _ _ _.
Arguments asset_licenseKey {Date} _.
Arguments asset_name {Date} _.
Arguments entityDisplayName {Date} _.
Arguments asset_properties {Date} _.
Arguments mkLicense {Date} _ _ _ _.
Arguments licenseKey {Date} _.
Arguments license_name {Date} _.
Arguments used {Date} _.
Arguments properties {Date} _.
Arguments ManagerError {Date} e.
Arguments QueryError {Date} e.
Arguments Manager {Date} assets licenses.
Arguments most_results {Date} si.

End LicenseChecks.

(** ** checks/ssl_checks.py *)

Module SslChecks.
Import Base.

(** [SslHost] as [get_ssl_host_from_url] creates it; the other fields are
    written by the check and read nowhere else. *)
Record SslHost : Type := mkSslHost {
  SslHost_name : string;
  SslHost_port : Z
}.

(** What fetching and reading the certificate of a host gives: the common
    name of the subject, the unit and the organisation of the issuer, the
    expiration date and the days from today to it; or one of the
    exceptions the check tells apart. *)
Inductive CertFetch (Date : Type) : Type :=
  | Certificate (CN OU Org : option string) (ssl_exp_date : Date) (days_until : Z)
  | SocketTimeout
  | GaiError (e : string)
  | OtherError (e : string).
Arguments Certificate {Date} CN OU Org ssl_exp_date days_until.
Arguments SocketTimeout {Date}.
Arguments GaiError {Date} e.
Arguments OtherError {Date} e.

(** [x or default] for an optional text. *)
Definition str_or (x : option string) (default : string) : string :=
  match x with
  | Some s => if bool_decide (s = "") then default else s
  | None => default
  end.

Section Certificates.
(** Whether OpenSSL and ssl were imported. *)
Variable SSL_AVAILABLE : bool.
(** [str.lower] and [int] on a text; [None] is the [ValueError] of [int]. *)
Variable lower : string -> string.
Variable py_int : string -> option Z.
(** [lsf.test_tcp_port] and [lsf.check_proxy]; [None] when lsfunctions is
    missing or has no such function.  An exception of [check_proxy] counts
    as [False]. *)
Variable test_tcp_port : option (string -> Z -> bool).
Variable check_proxy : option (string -> bool).
(** A [datetime.date] and [str] on it. *)
Variable Date : Type.
Variable date_str : Date -> string.
(** Fetching and reading the certificate of a host and port. *)
Variable get_certificate : string -> Z -> CertFetch Date.
(** Whether [days_until / 30.44 >= months], a comparison of floating point
    numbers. *)
Variable months_at_least : Z -> Z -> bool.

(** [get_ssl_host_from_url(url)] *)
Definition get_ssl_host_from_url (url : string) : SslHost :=
  let url := if PyStr.contains "://" url then PyStr.item (PyStr.split "://" url) 1
             else url in
  let url := if PyStr.contains "/" url then PyStr.item (PyStr.split "/" url) 0
             else url in
  if PyStr.contains ":" url then
    let parts := PyStr.split ":" url in
    let name := PyStr.item parts 0 in
    let port := match py_int (PyStr.item parts 1) with
                | Some port => port
                | None => 443%Z
                end in
    mkSslHost name port
  else mkSslHost url 443.

(** [is_external_host(hostname)] *)
Definition is_external_host (hostname : string) : bool :=
  let external_patterns := ["vmware.com"; "broadcom.com"; "github.com"; "google.com"] in
  let hostname_lower := lower hostname in
  existsb (fun pattern => PyStr.contains pattern hostname_lower) external_patterns.

(** [should_skip_url(url, lsf)] *)
Definition should_skip_url (url : string) : bool :=
  match check_proxy with
  | Some check_proxy => check_proxy url
  | None => false
  end.

(** [check_single_certificate(host, lsf)] *)
Definition check_single_certificate (host : SslHost) : CheckResult :=
  let name := SslHost_name host in
  let port := SslHost_port host in
  let check_name := "SSL: " +:+ name +:+ ":" +:+ pretty port in
  let reachable := match test_tcp_port with
                   | Some test_tcp_port => test_tcp_port name port
                   | None => true
                   end in
  if negb reachable then
    mkCheckResult check_name "WARN" "Host not reachable"
      [("host", PStr name); ("port", PInt port)]
  else
    match get_certificate name port with
    | Certificate CN OU Org ssl_exp_date days_until =>
        let certname := str_or CN "Unknown" in
        let issuer :=
          if negb (bool_decide (str_or OU "" = "")) || negb (bool_decide (str_or Org "" = ""))
          then "OU=" +:+ str_or OU "" +:+ " O=" +:+ str_or Org ""
          else "Self-Signed" in
        let '(status, message) :=
          if months_at_least days_until ConfigFunctions.EXPIRATION_PASS_MONTHS then
            ("PASS", "Certificate valid - expires " +:+ date_str ssl_exp_date +:+
                     " (>= 9 months)")
          else if months_at_least days_until ConfigFunctions.EXPIRATION_WARN_MONTHS then
            ("WARN", "Certificate expires soon - expires " +:+ date_str ssl_exp_date +:+
                     " (< 9 months)")
          else if is_external_host name then
            ("WARN", "External certificate expires soon - expires " +:+
                     date_str ssl_exp_date)
          else
            ("FAIL", "Certificate expires critically soon - expires " +:+
                     date_str ssl_exp_date +:+ " (< 3 months)") in
        mkCheckResult check_name status message
          [("host", PStr name); ("port", PInt port); ("certname", PStr certname);
           ("expiration", PStr (date_str ssl_exp_date));
           ("days_to_expire", PInt days_until); ("issuer", PStr issuer)]
    | SocketTimeout =>
        mkCheckResult check_name "WARN" "Connection timed out"
          [("host", PStr name); ("port", PInt port); ("error", PStr "timeout")]
    | GaiError e =>
        mkCheckResult check_name "WARN" ("DNS resolution failed: " +:+ e)
          [("host", PStr name); ("port", PInt port); ("error", PStr e)]
    | OtherError e =>
        let '(status, message) :=
          if is_external_host name
          then ("WARN", "External host check failed (expected): " +:+ e)
          else ("FAIL", "Could not check certificate: " +:+ e) in
        mkCheckResult check_name status message
          [("host", PStr name); ("port", PInt port); ("error", PStr e)]
    end.

(** The body of the loop of [check_ssl_certificates] on the results and the
    set [checked_hosts]. *)
Definition ssl_step (state : list CheckResult * gset string) (url : string)
    : list CheckResult * gset string :=
  let '(results, checked_hosts) := state in
  if negb (PyStr.startswith "https" (lower url)) then state
  else if should_skip_url url then state
  else
    let host := get_ssl_host_from_url url in
    let host_key := SslHost_name host +:+ ":" +:+ pretty (SslHost_port host) in
    if bool_decide (host_key ∈ checked_hosts) then state
    else (results ++ [check_single_certificate host], checked_hosts ∪ {[ host_key ]}).

(** [check_ssl_certificates(urls, min_exp_date, lsf)] *)
Definition check_ssl_certificates (urls : list string) : list CheckResult :=
  if negb SSL_AVAILABLE then
    [mkCheckResult "SSL Check" "SKIPPED" "OpenSSL not available - install pyOpenSSL" []]
  else (fold_left ssl_step urls ([], ∅)).1.

(** *** Vocabulary of the properties *)

(** The URLs the loop does not pass over. *)
Definition eligible (url : string) : Prop :=
  PyStr.startswith "https" (lower url) = true ∧ should_skip_url url = false.

(** The name of the result of the host of a URL. *)
Definition certificate_name (url : string) : string :=
  let host := get_ssl_host_from_url url in
  "SSL: " +:+ SslHost_name host +:+ ":" +:+ pretty (SslHost_port host).

(** The text of a URL with an optional scheme, a host, an optional port
    text and an optional path. *)
Definition url_text (scheme : option string) (host : string) (port path : option string)
    : string :=
  match scheme with Some s => s +:+ "://" | None => "" end +:+
  host +:+
  match port with Some p => ":" +:+ p | None => "" end +:+
  match path with Some p => "/" +:+ p | None => "" end.

(** The port of the host answers, as far as it is tested. *)
Definition reachable (host : SslHost) : bool :=
  match test_tcp_port with
  | Some test_tcp_port => test_tcp_port (SslHost_name host) (SslHost_port host)
  | None => true
  end.

End Certificates.

End SslChecks.

(** ** checks/url_checks.py *)

Module UrlChecks.
Import Base.

(** The dictionary [parse_url_entry] returns. *)
Record ParsedUrl : Type := mkParsedUrl {
  url : string;
  description : string;
  expected_text : string
}.

(** What [lsf.test_url] gives: its answer, or an exception with its text. *)
Inductive TestUrl : Type :=
  | Accessible (accessible : bool)
  | TestUrlError (e : string).

(** What [session.get] gives: the status code and the text of the response,
    or one of the exceptions the check tells apart. *)
Inductive GetUrl : Type :=
  | Response (status_code : Z) (text : string)
  | TimeoutError
  | ConnectionError (e : string)
  | RequestError (e : string).

(** [text or None] in a [details] dictionary. *)
Definition str_or_none (text : string) : PyVal :=
  if bool_decide (text = "") then PNone else PStr text.

Section Urls.
(** Whether requests and urllib3 were imported. *)
Variable REQUESTS_AVAILABLE : bool.
(** [str.strip] and [str.lower]. *)
Variable strip : string -> string.
Variable lower : string -> string.
(** [lsf.test_url(url, expected_text=...)], [None] when lsfunctions is
    missing or has no such function; and [session.get(url, ...)]. *)
Variable lsf_test_url : option (string -> option string -> TestUrl).
Variable session_get : string -> GetUrl.
(** The time the request of a URL took, as [f"{elapsed:.2f}"] and as
    [round(elapsed, 2)] show it. *)
Variable elapsed_text : string -> string.
Variable elapsed_round : string -> string.

(** [parse_url_entry(entry)] *)
Definition parse_url_entry (entry : string) : ParsedUrl :=
  let parts := PyStr.split "," entry in
  let result := mkParsedUrl (strip (PyStr.item parts 0)) "" "" in
  let result :=
    if bool_decide (1 < length parts)
    then mkParsedUrl (url result) (strip (PyStr.item parts 1)) (expected_text result)
    else result in
  let result :=
    if bool_decide (2 < length parts)
    then mkParsedUrl (url result) (description result) (strip (PyStr.item parts 2))
    else result in
  result.

(** [check_single_url(url, description, expected_text, lsf)]; the slice
    [expected_text[:30]] of the one message is that of ASCII text. *)
Definition check_single_url (url description expected_text : string) : CheckResult :=
  let check_name := if negb (bool_decide (description = ""))
                    then "URL: " +:+ description else "URL: " +:+ url in
  if negb REQUESTS_AVAILABLE then
    mkCheckResult check_name "SKIPPED" "requests library not available" []
  else
    match lsf_test_url with
    | Some test_url =>
        match test_url url (if negb (bool_decide (expected_text = ""))
                            then Some expected_text else None) with
        | Accessible true =>
            mkCheckResult check_name "PASS" ("Accessible (" +:+ elapsed_text url +:+ "s)")
              [("url", PStr url); ("response_time", PFloat (elapsed_round url));
               ("expected_text", str_or_none expected_text)]
        | Accessible false =>
            mkCheckResult check_name "FAIL" "Not accessible or expected text not found"
              [("url", PStr url); ("expected_text", str_or_none expected_text)]
        | TestUrlError e =>
            mkCheckResult check_name "FAIL" ("Check failed: " +:+ e)
              [("url", PStr url); ("error", PStr e)]
        end
    | None =>
        match session_get url with
        | Response status_code text =>
            if negb (bool_decide (status_code = 200%Z)) then
              mkCheckResult check_name "FAIL" ("HTTP " +:+ pretty status_code)
                [("url", PStr url); ("status_code", PInt status_code);
                 ("response_time", PFloat (elapsed_round url))]
            else if negb (bool_decide (expected_text = "")) &&
                    negb (PyStr.contains expected_text text) then
              mkCheckResult check_name "FAIL"
                ("Expected text not found: '" +:+ PyStr.take 30 expected_text +:+ "...'")
                [("url", PStr url); ("expected_text", PStr expected_text);
                 ("response_time", PFloat (elapsed_round url))]
            else
              mkCheckResult check_name "PASS" ("Accessible (" +:+ elapsed_text url +:+ "s)")
                [("url", PStr url); ("status_code", PInt status_code);
                 ("response_time", PFloat (elapsed_round url))]
        | TimeoutError =>
            mkCheckResult check_name "FAIL"
              ("Timeout after " +:+ pretty ConfigFunctions.CHECK_TIMEOUT_URL +:+ "s")
              [("url", PStr url); ("error", PStr "timeout")]
        | ConnectionError e =>
            mkCheckResult check_name "FAIL" "Connection refused or host unreachable"
              [("url", PStr url); ("error", PStr e)]
        | RequestError e =>
            mkCheckResult check_name "FAIL" ("Check failed: " +:+ e)
              [("url", PStr url); ("error", PStr e)]
        end
    end.

(** The body of the loop of [check_urls] on the results and the set
    [checked_urls]. *)
Definition url_step (state : list CheckResult * gset string) (entry : string)
    : list CheckResult * gset string :=
  let '(results, checked_urls) := state in
  if bool_decide (entry = "") || PyStr.startswith "#" (strip entry) then state
  else
    let parsed := parse_url_entry entry in
    if bool_decide (url parsed ∈ checked_urls) then state
    else
      let checked_urls := checked_urls ∪ {[ url parsed ]} in
      if negb (PyStr.startswith "http" (lower (url parsed))) then (results, checked_urls)
      else (results ++ [check_single_url (url parsed) (description parsed)
                          (expected_text parsed)],
            checked_urls).

(** [check_urls(url_entries, lsf)] *)
Definition check_urls (url_entries : list string) : list CheckResult :=
  match url_entries with
  | [] => [mkCheckResult "URL Checks" "SKIPPED" "No URLs to check" []]
  | _ :: _ => (fold_left url_step url_entries ([], ∅)).1
  end.

(** *** Vocabulary of the properties *)

(** An entry that is neither empty nor a comment and whose URL starts with
    http in some letter case. *)
Definition checkable (entry : string) : Prop :=
  entry ≠ "" ∧ PyStr.startswith "#" (strip entry) = false ∧
  PyStr.startswith "http" (lower (url (parse_url_entry entry))) = true.

(** The check of the URL of an entry. *)
Definition check_entry (entry : string) : CheckResult :=
  let parsed := parse_url_entry entry in
  check_single_url (url parsed) (description parsed) (expected_text parsed).

(** The entries whose URL the loop checks: of the entries with the same
    URL the first that is neither empty nor a comment, if its URL starts
    with http. *)
Fixpoint requested (checked_urls : gset string) (url_entries : list string) : list string :=
  match url_entries with
  | [] => []
  | entry :: rest =>
      if bool_decide (entry = "") || PyStr.startswith "#" (strip entry)
      then requested checked_urls rest
      else if bool_decide (url (parse_url_entry entry) ∈ checked_urls)
      then requested checked_urls rest
      else
        (if PyStr.startswith "http" (lower (url (parse_url_entry entry)))
         then [entry] else []) ++
        requested (checked_urls ∪ {[ url (parse_url_entry entry) ]}) rest
  end.

End Urls.

End UrlChecks.

(** ** checks/windows_checks.py *)

Module WindowsChecks.
Import Base.

(** The dictionary of a Windows host: [host['name']] and [host.get('ip')],
    [None] when the key is missing. *)
Record WinHost : Type := mkWinHost {
  win_name : string;
  win_ip : option string
}.

(** What running the executable through the pypsexec client gives: the
    decoded output and error text with the return code, or an exception
    with its text. *)
Inductive ClientRun : Type :=
  | Executed (stdout stderr : string) (return_code : Z)
  | ClientError (e : string).

(** The dictionary [run_remote_command] returns. *)
Record RemoteResult : Type := mkRemoteResult {
  success : bool;
  stdout : string;
  stderr : string;
  return_code : Z
}.

Section Windows.
(** Whether pypsexec was imported. *)
Variable PYPSEXEC_AVAILABLE : bool.
(** [str.lower]. *)
Variable lower : string -> string.
(** [lsf.test_ping], [lsf.test_tcp_port] and the value of
    [lsf.get_password()]; [None] when lsfunctions is missing or has no such
    function. *)
Variable test_ping : option (string -> bool).
Variable test_tcp_port : option (string -> Z -> bool).
Variable get_password : option string.
(** The pypsexec client run of [cmd.exe /c command] on a host, as user and
    with password. *)
Variable client_run : string -> string -> string -> string -> ClientRun.

(** [run_remote_command(hostname, username, password, command)] *)
Definition run_remote_command (hostname username password command : string)
    : RemoteResult :=
  if negb PYPSEXEC_AVAILABLE then mkRemoteResult false "" "pypsexec not available" (-1)
  else
    match client_run hostname username password command with
    | Executed stdout stderr return_code =>
        mkRemoteResult (bool_decide (return_code = 0%Z)) stdout stderr return_code
    | ClientError e => mkRemoteResult false "" e (-1)
    end.

(** [host.get('ip', '')] *)
Definition ip_of (host : WinHost) : string :=
  match win_ip host with Some ip => ip | None => "" end.

(** [check_windows_accessibility(host, lsf)] *)
Definition check_windows_accessibility (host : WinHost) : CheckResult :=
  let check_name := "Windows: " +:+ win_name host in
  let ip := ip_of host in
  if bool_decide (ip = "") then
    mkCheckResult check_name "SKIPPED" "No IP address available"
      [("vm_name", PStr (win_name host))]
  else if match test_ping with Some test_ping => negb (test_ping ip) | None => false end then
    mkCheckResult check_name "WARN" "Host not responding to ping"
      [("vm_name", PStr (win_name host)); ("ip", PStr ip)]
  else if match test_tcp_port with
          | Some test_tcp_port => negb (test_tcp_port ip 445%Z)
          | None => false
          end then
    mkCheckResult check_name "WARN" "SMB port 445 not responding"
      [("vm_name", PStr (win_name host)); ("ip", PStr ip); ("port", PInt 445)]
  else
    mkCheckResult check_name "PASS" "Host accessible (ping and SMB port 445)"
      [("vm_name", PStr (win_name host)); ("ip", PStr ip)].

(** [check_windows_activation(host, password)]; the slices of the error
    text and of the output are those of ASCII text. *)
Definition check_windows_activation (host : WinHost) (password : string) : CheckResult :=
  let check_name := "Activation: " +:+ win_name host in
  let ip := ip_of host in
  if negb PYPSEXEC_AVAILABLE then
    mkCheckResult check_name "SKIPPED" "pypsexec not available" []
  else if bool_decide (ip = "") then
    mkCheckResult check_name "SKIPPED" "No IP address available" []
  else
    let result := run_remote_command ip "Administrator" password
                    "cscript //nologo C:\Windows\System32\slmgr.vbs /xpr" in
    if negb (success result) then
      mkCheckResult check_name "WARN"
        ("Could not check activation: " +:+ PyStr.take 50 (stderr result))
        [("vm_name", PStr (win_name host)); ("ip", PStr ip)]
    else
      let stdout_lower := lower (stdout result) in
      let details := [("vm_name", PStr (win_name host)); ("ip", PStr ip);
                      ("output", PStr (PyStr.take 100 (stdout result)))] in
      if PyStr.contains "permanently activated" stdout_lower ||
         PyStr.contains "will expire" stdout_lower then
        mkCheckResult check_name "PASS" "Windows is activated" details
      else if PyStr.contains "notification mode" stdout_lower ||
              PyStr.contains "not activated" stdout_lower then
        mkCheckResult check_name "FAIL" "Windows is NOT activated" details
      else
        mkCheckResult check_name "WARN" "Could not determine activation status" details.

(** [check_windows_firewall(host, password)]; the slice of the error text
    is that of ASCII text. *)
Definition check_windows_firewall (host : WinHost) (password : string) : CheckResult :=
  let check_name := "Firewall: " +:+ win_name host in
  let ip := ip_of host in
  if negb PYPSEXEC_AVAILABLE then
    mkCheckResult check_name "SKIPPED" "pypsexec not available" []
  else if bool_decide (ip = "") then
    mkCheckResult check_name "SKIPPED" "No IP address available" []
  else
    let result := run_remote_command ip "Administrator" password
                    "netsh advfirewall show allprofiles state" in
    if negb (success result) then
      mkCheckResult check_name "WARN"
        ("Could not check firewall: " +:+ PyStr.take 50 (stderr result))
        [("vm_name", PStr (win_name host)); ("ip", PStr ip)]
    else
      let stdout_lower := lower (stdout result) in
      if PyStr.contains "state                                 on" stdout_lower then
        mkCheckResult check_name "FAIL" "Firewall is enabled on one or more profiles"
          [("vm_name", PStr (win_name host)); ("ip", PStr ip)]
      else
        mkCheckResult check_name "PASS" "Firewall is disabled on all profiles"
          [("vm_name", PStr (win_name host)); ("ip", PStr ip)].

(** The body of the loop of [check_windows_machines]. *)
Definition windows_step (password : string) (results : list CheckResult) (host : WinHost)
    : list CheckResult :=
  let access_result := check_windows_accessibility host in
  let results := results ++ [access_result] in
  if negb (bool_decide (status access_result = "PASS")) then results
  else
    let results :=
      if PYPSEXEC_AVAILABLE && negb (bool_decide (password = ""))
      then results ++ [check_windows_activation host password] else results in
    let results :=
      if PYPSEXEC_AVAILABLE && negb (bool_decide (password = ""))
      then results ++ [check_windows_firewall host password] else results in
    results.

(** [check_windows_machines(hosts, lsf)] *)
Definition check_windows_machines (hosts : list WinHost) : list CheckResult :=
  match hosts with
  | [] => [mkCheckResult "Windows Checks" "SKIPPED" "No Windows machines to check" []]
  | _ :: _ =>
      let results := [] in
      let results :=
        if negb PYPSEXEC_AVAILABLE
        then results ++ [mkCheckResult "Windows Checks" "WARN"
                           "pypsexec not available - limited checks only" []]
        else results in
      let password := match get_password with Some p => p | None => "" end in
      fold_left (windows_step password) hosts results
  end.

(** *** Vocabulary of the properties *)

(** The password the detailed checks use. *)
Definition password_of : string :=
  match get_password with Some p => p | None => "" end.

(** Whether the detailed checks of a host run. *)
Definition detailed (host : WinHost) : bool :=
  bool_decide (status (check_windows_accessibility host) = "PASS") &&
  PYPSEXEC_AVAILABLE && negb (bool_decide (password_of = "")).

End Windows.

End WindowsChecks.

(** * Properties *)

(** Close a decidable closed goal by evaluating its decision procedure. *)
Ltac by_decide :=
  match goal with |- ?P => exact (@bool_decide_unpack P _ I) end.

(** ** The result and report model *)

Module BaseSpec.
Import Base.

(** *** Reading methods leave the object alone *)

Lemma get_all_checks_run r : get_all_checks r = (joined r, r).
Proof. reflexivity. Qed.

Lemma calculate_overall_status_run r :
  calculate_overall_status r =
    let s := if any_status "FAIL" (joined r) then "FAIL"
             else if any_status "WARN" (joined r) then "WARN" else "PASS" in
    (s, set_overall_status s r).
Proof.
  unfold calculate_overall_status, mbind, Method_bind.
  rewrite get_all_checks_run. simpl.
  destruct (any_status "FAIL" (joined r)); [reflexivity|].
  destruct (any_status "WARN" (joined r)); reflexivity.
Qed.

Lemma in_joined c r : c ∈ joined r ↔ in_some_category c r.
Proof. unfold joined, in_some_category. rewrite !elem_of_app. tauto. Qed.

Lemma any_status_true s l :
  any_status s l = true ↔ ∃ c, c ∈ l ∧ status c = s.
Proof.
  unfold any_status. rewrite existsb_exists. split.
  - intros (c & Hin & Hc). exists c. split; [by apply list_elem_of_In|].
    by apply bool_decide_eq_true in Hc.
  - intros (c & Hin & Hc). exists c. split; [by apply list_elem_of_In|].
    by apply bool_decide_eq_true.
Qed.

Lemma any_status_joined s r : any_status s (joined r) = true ↔ has_status s r.
Proof.
  rewrite any_status_true. unfold has_status.
  split; intros (c & Hc & Hs); exists c; split; try done; by apply in_joined.
Qed.

Lemma not_has_status s r : any_status s (joined r) = false → ¬ has_status s r.
Proof. intros H Hhas. apply any_status_joined in Hhas. congruence. Qed.

Lemma statuses_in_enum r :
  forallb (fun c => bool_decide (status c ∈ STATUSES)) (joined r) = true →
  ∀ c, in_some_category c r → status c ∈ STATUSES.
Proof.
  intros H c Hin. apply in_joined, list_elem_of_In in Hin.
  rewrite forallb_forall in H. specialize (H c Hin).
  by apply bool_decide_eq_true in H.
Qed.

(** *** Status predicates of a single result *)

(** C9. For every CheckResult, [is_pass] returns true if and only if its
    status is PASS or FIXED, and [is_fail] returns true if and only if its
    status is FAIL. *)
Theorem is_pass_is_fail_spec (c : CheckResult) :
  (is_pass c = true ↔ status c = "PASS" ∨ status c = "FIXED") ∧
  (is_fail c = true ↔ status c = "FAIL").
Proof.
  unfold is_pass, is_fail. rewrite !bool_decide_eq_true.
  split; [|done]. rewrite !elem_of_cons, elem_of_nil. tauto.
Qed.

(** *** The aggregate view *)

(** C10. For every report, [get_all_checks] returns the concatenation of
    the eleven category lists in the order ssl, license, ntp, vm_config,
    vm_resource, password_expiration, linux, windows, url, vsphere,
    inventory, each list in its own order; its length is the sum of the
    eleven lengths, and the call leaves the report as it was. *)
Theorem get_all_checks_spec (r : ValidationReport) :
  result_of get_all_checks r =
    ssl_checks r ++ license_checks r ++ ntp_checks r ++ vm_config_checks r ++
    vm_resource_checks r ++ password_expiration_checks r ++ linux_checks r ++
    windows_checks r ++ url_checks r ++ vsphere_checks r ++ inventory_checks r ∧
  length (result_of get_all_checks r) = total_results r ∧
  self_after get_all_checks r = r.
Proof.
  unfold result_of, self_after. rewrite get_all_checks_run. simpl.
  split; [reflexivity|]. split; [|reflexivity].
  unfold joined, total_results. rewrite !length_app. lia.
Qed.

(** *** The status reduction *)

Lemma all_empty_joined r : all_empty r → joined r = [].
Proof.
  unfold all_empty, joined.
  intros (-> & -> & -> & -> & -> & -> & -> & -> & -> & -> & ->). reflexivity.
Qed.

(** C1. For every report, [calculate_overall_status] returns FAIL iff at
    least one result across the eleven category lists has status FAIL;
    otherwise it returns WARN iff at least one has status WARN; otherwise
    it returns PASS.  The value returned is the one stored in
    [overall_status], and a report whose eleven lists are all empty
    reduces to PASS. *)
Theorem calculate_overall_status_spec (r : ValidationReport) :
  let s := result_of calculate_overall_status r in
  (s = "FAIL" ↔ has_status "FAIL" r) ∧
  (¬ has_status "FAIL" r → (s = "WARN" ↔ has_status "WARN" r)) ∧
  (¬ has_status "FAIL" r → ¬ has_status "WARN" r → s = "PASS") ∧
  overall_status (self_after calculate_overall_status r) = s ∧
  (all_empty r → s = "PASS").
Proof.
  unfold result_of, self_after. rewrite calculate_overall_status_run. simpl.
  pose proof (any_status_joined "FAIL" r) as HF.
  pose proof (any_status_joined "WARN" r) as HW.
  split_and!.
  - destruct (any_status "FAIL" (joined r)); [tauto|].
    destruct (any_status "WARN" (joined r));
      (split; [discriminate | intros H; apply HF in H; discriminate]).
  - intros HnF. destruct (any_status "FAIL" (joined r)); [tauto|].
    destruct (any_status "WARN" (joined r)); [tauto|].
    split; [discriminate | intros H; apply HW in H; discriminate].
  - intros HnF HnW. destruct (any_status "FAIL" (joined r)); [tauto|].
    destruct (any_status "WARN" (joined r)); [tauto|]. reflexivity.
  - reflexivity.
  - intros He. rewrite (all_empty_joined r He). reflexivity.
Qed.

(** The reduction on the empty report and on one with two SKIPPED results. *)
Lemma calculate_overall_status_spec_witness :
  (all_empty sample_new ∧
   result_of calculate_overall_status sample_new = "PASS") ∧
  (¬ has_status "FAIL" sample_all_skipped ∧
   ¬ has_status "WARN" sample_all_skipped ∧
   result_of calculate_overall_status sample_all_skipped = "PASS").
Proof.
  assert (He : all_empty sample_new) by (repeat split).
  assert (HF : ¬ has_status "FAIL" sample_all_skipped)
    by (apply not_has_status; reflexivity).
  assert (HW : ¬ has_status "WARN" sample_all_skipped)
    by (apply not_has_status; reflexivity).
  split.
  - split; [exact He|].
    exact (proj2 (proj2 (proj2 (proj2 (calculate_overall_status_spec sample_new)))) He).
  - split; [exact HF|]. split; [exact HW|].
    exact (proj1 (proj2 (proj2 (calculate_overall_status_spec sample_all_skipped))) HF HW).
Defined.

(** Scenario: ssl_checks = [FAIL], license_checks = [WARN, PASS]. *)
Example reduction_mixed :
  result_of calculate_overall_status sample_mixed = "FAIL" ∧
  overall_status sample_mixed = "PASS" ∧
  overall_status (self_after calculate_overall_status sample_mixed) = "FAIL".
Proof. repeat split. Qed.

(** *** Summary counting *)

Lemma count_if_length (P : CheckResult → Prop) `{!∀ c, Decision (P c)} l :
  count_if P l = length (filter P l).
Proof.
  unfold count_if. induction (filter P l) as [|c l' IH]; [done|].
  change (S (sum_list ((fun _ => 1) <$> l')) = S (length l')). by f_equal.
Qed.

Lemma count_in_app s l1 l2 : count_in s (l1 ++ l2) = count_in s l1 + count_in s l2.
Proof. unfold count_in. by rewrite filter_app, length_app. Qed.

Lemma count_in_joined s r : count_in s (joined r) = count_status s r.
Proof. unfold joined, count_status. rewrite !count_in_app. lia. Qed.

Lemma length_joined r : length (joined r) = total_results r.
Proof. unfold joined, total_results. rewrite !length_app. lia. Qed.

(** The [pass] bucket: results whose status is PASS or FIXED. *)
Lemma count_pass_fixed l :
  length (filter (fun c => status c ∈ ["PASS"; "FIXED"]) l) =
    count_in "PASS" l + count_in "FIXED" l.
Proof.
  unfold count_in. induction l as [|c l IH]; [done|].
  rewrite !filter_cons.
  destruct (decide (status c ∈ ["PASS"; "FIXED"])) as [HM|HM];
    rewrite !elem_of_cons, elem_of_nil in HM;
    destruct (decide (status c = "PASS")) as [HP|HP];
    destruct (decide (status c = "FIXED")) as [HX|HX]; simpl;
    try (rewrite IH; lia); try tauto.
  rewrite HP in HX. discriminate.
Qed.

(** The six statuses partition a list whose statuses are all in the enum. *)
Lemma count_partition l :
  (∀ c, c ∈ l → status c ∈ STATUSES) →
  count_in "PASS" l + count_in "FIXED" l + count_in "FAIL" l +
  count_in "WARN" l + count_in "INFO" l + count_in "SKIPPED" l = length l.
Proof.
  unfold count_in. induction l as [|c l IH]; intros Hall; [done|].
  assert (Hc : status c ∈ STATUSES) by (apply Hall; apply elem_of_cons; by left).
  assert (Hl : ∀ c', c' ∈ l → status c' ∈ STATUSES)
    by (intros c' Hin; apply Hall; apply elem_of_cons; by right).
  specialize (IH Hl). rewrite !filter_cons. unfold STATUSES in Hc.
  rewrite !elem_of_cons, elem_of_nil in Hc.
  destruct Hc as [Hc|[Hc|[Hc|[Hc|[Hc|[Hc|[]]]]]]]; rewrite Hc; simpl; lia.
Qed.

(** C2. For every report, [get_summary] returns a mapping with exactly the
    keys pass, fail, warn, info, skipped, total; pass is the number of
    results with status PASS plus those with status FIXED; fail, warn, info
    and skipped count the results with exactly that status; total is the
    number of all results of the eleven categories; and when every result's
    status is one of the six enum values, the five buckets sum to total. *)
Theorem get_summary_spec (r : ValidationReport) :
  let s := result_of get_summary r in
  dict_keys s = ["pass"; "fail"; "warn"; "info"; "skipped"; "total"] ∧
  dict_get s "pass" = Some (count_status "PASS" r + count_status "FIXED" r) ∧
  dict_get s "fail" = Some (count_status "FAIL" r) ∧
  dict_get s "warn" = Some (count_status "WARN" r) ∧
  dict_get s "info" = Some (count_status "INFO" r) ∧
  dict_get s "skipped" = Some (count_status "SKIPPED" r) ∧
  dict_get s "total" = Some (total_results r) ∧
  ((∀ c, in_some_category c r → status c ∈ STATUSES) →
   ∃ n_pass n_fail n_warn n_info n_skipped n_total,
     dict_get s "pass" = Some n_pass ∧ dict_get s "fail" = Some n_fail ∧
     dict_get s "warn" = Some n_warn ∧ dict_get s "info" = Some n_info ∧
     dict_get s "skipped" = Some n_skipped ∧ dict_get s "total" = Some n_total ∧
     n_pass + n_fail + n_warn + n_info + n_skipped = n_total).
Proof.
  unfold result_of, get_summary, mbind, Method_bind.
  rewrite get_all_checks_run. simpl.
  rewrite !count_if_length, count_pass_fixed.
  change (length (filter (λ c, status c = ?s) ?l)) with (count_in s l).
  rewrite !count_in_joined, length_joined.
  split_and!; try reflexivity.
  intros Hall. eexists _, _, _, _, _, _. split_and!; try reflexivity.
  rewrite <- !count_in_joined, <- length_joined.
  rewrite <- (count_partition (joined r)); [lia|].
  intros c Hc. apply Hall. by apply in_joined.
Qed.

(** Scenario: ssl_checks = [FAIL], license_checks = [WARN, PASS]. *)
Lemma get_summary_spec_witness :
  (∀ c, in_some_category c sample_mixed → status c ∈ STATUSES) ∧
  ∃ n_pass n_fail n_warn n_info n_skipped n_total,
    dict_get (result_of get_summary sample_mixed) "pass" = Some n_pass ∧
    dict_get (result_of get_summary sample_mixed) "fail" = Some n_fail ∧
    dict_get (result_of get_summary sample_mixed) "warn" = Some n_warn ∧
    dict_get (result_of get_summary sample_mixed) "info" = Some n_info ∧
    dict_get (result_of get_summary sample_mixed) "skipped" = Some n_skipped ∧
    dict_get (result_of get_summary sample_mixed) "total" = Some n_total ∧
    n_pass + n_fail + n_warn + n_info + n_skipped = n_total.
Proof.
  assert (H : ∀ c, in_some_category c sample_mixed → status c ∈ STATUSES)
    by (apply statuses_in_enum; reflexivity).
  split; [exact H|].
  exact (proj2 (proj2 (proj2 (proj2 (proj2 (proj2 (proj2
           (get_summary_spec sample_mixed))))))) H).
Defined.

Example summary_mixed :
  result_of get_summary sample_mixed =
    [("pass", 1); ("fail", 1); ("warn", 1); ("info", 0); ("skipped", 0); ("total", 3)].
Proof. reflexivity. Qed.

Example summary_all_skipped :
  result_of get_summary sample_all_skipped =
    [("pass", 0); ("fail", 0); ("warn", 0); ("info", 0); ("skipped", 2); ("total", 2)].
Proof. reflexivity. Qed.

(** With a status outside the enum the five buckets fall short of total. *)
Example summary_odd_status :
  result_of get_summary (list_append "url_checks" sample_odd sample_new) =
    [("pass", 0); ("fail", 0); ("warn", 0); ("info", 0); ("skipped", 0); ("total", 1)].
Proof. reflexivity. Qed.

(** *** Appending to category lists *)

Lemma elem_category_ids id :
  id ∈ category_ids ↔
  id = "ssl_checks" ∨ id = "license_checks" ∨ id = "ntp_checks" ∨
  id = "vm_config_checks" ∨ id = "vm_resource_checks" ∨
  id = "password_expiration_checks" ∨ id = "linux_checks" ∨
  id = "windows_checks" ∨ id = "url_checks" ∨ id = "vsphere_checks" ∨
  id = "inventory_checks".
Proof.
  unfold category_ids. simpl. rewrite !elem_of_cons, elem_of_nil. tauto.
Qed.

Lemma list_extend_fields id results r :
  let r' := list_extend id results r in
  ssl_checks r' = ssl_checks r ++ added id "ssl_checks" results ∧
  license_checks r' = license_checks r ++ added id "license_checks" results ∧
  ntp_checks r' = ntp_checks r ++ added id "ntp_checks" results ∧
  vm_config_checks r' = vm_config_checks r ++ added id "vm_config_checks" results ∧
  vm_resource_checks r' =
    vm_resource_checks r ++ added id "vm_resource_checks" results ∧
  password_expiration_checks r' =
    password_expiration_checks r ++ added id "password_expiration_checks" results ∧
  linux_checks r' = linux_checks r ++ added id "linux_checks" results ∧
  windows_checks r' = windows_checks r ++ added id "windows_checks" results ∧
  url_checks r' = url_checks r ++ added id "url_checks" results ∧
  vsphere_checks r' = vsphere_checks r ++ added id "vsphere_checks" results ∧
  inventory_checks r' = inventory_checks r ++ added id "inventory_checks" results.
Proof.
  unfold list_extend, with_checks, added. simpl.
  split_and!;
    (case_bool_decide as H; [rewrite H; reflexivity | by rewrite app_nil_r]).
Qed.

Lemma elem_of_added c id name results :
  c ∈ added id name results ↔ id = name ∧ c ∈ results.
Proof.
  unfold added. case_bool_decide; [tauto|]. rewrite elem_of_nil. tauto.
Qed.

Lemma in_some_category_extend id results r c :
  in_some_category c (list_extend id results r) ↔
  in_some_category c r ∨ (id ∈ category_ids ∧ c ∈ results).
Proof.
  rewrite elem_category_ids. unfold in_some_category.
  destruct (list_extend_fields id results r)
    as (-> & -> & -> & -> & -> & -> & -> & -> & -> & -> & ->).
  rewrite !elem_of_app, !elem_of_added. tauto.
Qed.

Lemma has_status_append s id c r :
  has_status s (list_append id c r) ↔
  has_status s r ∨ (id ∈ category_ids ∧ status c = s).
Proof.
  unfold has_status, list_append. split.
  - intros (c' & Hin & Hs). apply in_some_category_extend in Hin.
    destruct Hin as [Hin|[Hid Hin]]; [left; by exists c'|].
    apply list_elem_of_singleton in Hin. subst c'. by right.
  - intros [(c' & Hin & Hs)|[Hid Hs]].
    + exists c'. split; [|done]. apply in_some_category_extend. by left.
    + exists c. split; [|done]. apply in_some_category_extend. right.
      split; [done|]. by apply list_elem_of_singleton.
Qed.

Lemma overall_status_append_all ops r :
  overall_status (append_all ops r) = overall_status r.
Proof.
  revert r. induction ops as [|op ops IH]; intros r; [done|].
  unfold append_all in *. simpl. by rewrite IH.
Qed.

(** The reduction depends on the report through [has_status] alone. *)
Lemma reduction_has_status r :
  result_of calculate_overall_status r =
    if decide (any_status "FAIL" (joined r) = true) then "FAIL"
    else if decide (any_status "WARN" (joined r) = true) then "WARN" else "PASS".
Proof.
  unfold result_of. rewrite calculate_overall_status_run. simpl.
  destruct (any_status "FAIL" (joined r)); [done|].
  by destruct (any_status "WARN" (joined r)).
Qed.

Lemma reduction_congruence r r' :
  (has_status "FAIL" r ↔ has_status "FAIL" r') →
  (has_status "WARN" r ↔ has_status "WARN" r') →
  result_of calculate_overall_status r = result_of calculate_overall_status r'.
Proof.
  intros HF HW. rewrite !reduction_has_status.
  rewrite <- !any_status_joined in HF, HW.
  repeat case_decide; try done; tauto.
Qed.

Lemma neutral_not s c : neutral c → s = "FAIL" ∨ s = "WARN" → status c ≠ s.
Proof.
  unfold neutral. rewrite !elem_of_cons, elem_of_nil.
  intros [H|[H|[H|[]]]] [-> | ->]; rewrite H; discriminate.
Qed.

Lemma reduction_append_neutral id c r :
  neutral c →
  result_of calculate_overall_status (list_append id c r) =
  result_of calculate_overall_status r.
Proof.
  intros Hn. apply reduction_congruence; rewrite has_status_append;
    (split; [intros [H|[_ H]]; [done|] | by left]).
  - by apply (neutral_not "FAIL") in Hn; [|left].
  - by apply (neutral_not "WARN") in Hn; [|right].
Qed.

Lemma joined_singleton c r :
  total_results r = 1 → in_some_category c r → joined r = [c].
Proof.
  intros Hlen Hin. rewrite <- length_joined in Hlen. apply in_joined in Hin.
  destruct (joined r) as [|c' [|? ?]]; simpl in Hlen; try lia.
  apply list_elem_of_singleton in Hin. by subst.
Qed.

(** C3. Results with status INFO, SKIPPED or FIXED never influence the
    overall status: appending any number of such results to any category
    lists leaves the value [calculate_overall_status] returns unchanged; and
    a report holding exactly one result, of status FIXED, reduces to PASS
    and has [summary['pass'] = 1]. *)
Theorem neutral_statuses_spec :
  (∀ (ops : list (string * CheckResult)) (r : ValidationReport),
     Forall (fun op => op.1 ∈ category_ids ∧
                       status op.2 ∈ ["INFO"; "SKIPPED"; "FIXED"]) ops →
     result_of calculate_overall_status (append_all ops r) =
     result_of calculate_overall_status r) ∧
  (∀ (r : ValidationReport) (c : CheckResult),
     total_results r = 1 → in_some_category c r → status c = "FIXED" →
     result_of calculate_overall_status r = "PASS" ∧
     overall_status (self_after calculate_overall_status r) = "PASS" ∧
     dict_get (result_of get_summary r) "pass" = Some 1).
Proof.
  split.
  - intros ops. induction ops as [|[id c] ops IH]; intros r Hall; [done|].
    apply Forall_cons in Hall as [[_ Hc] Hops]. unfold append_all in *. simpl.
    rewrite (IH _ Hops). by apply reduction_append_neutral.
  - intros r c Hlen Hin Hs.
    pose proof (joined_singleton c r Hlen Hin) as Hj.
    unfold result_of, self_after. rewrite calculate_overall_status_run.
    unfold get_summary, mbind, Method_bind. rewrite get_all_checks_run, Hj.
    unfold any_status, count_if. simpl. rewrite !filter_cons, Hs. simpl.
    done.
Qed.

(** An INFO and a FIXED result appended to the mixed scenario; the report
    with one FIXED result. *)
Lemma neutral_statuses_spec_witness :
  result_of calculate_overall_status
    (append_all [("windows_checks", sample_info); ("ntp_checks", sample_fixed)]
       sample_mixed) =
  result_of calculate_overall_status sample_mixed ∧
  (result_of calculate_overall_status sample_only_fixed = "PASS" ∧
   overall_status (self_after calculate_overall_status sample_only_fixed) = "PASS" ∧
   dict_get (result_of get_summary sample_only_fixed) "pass" = Some 1).
Proof.
  split.
  - apply (proj1 neutral_statuses_spec).
    repeat (apply Forall_cons; split); try apply Forall_nil;
      (split; by_decide).
  - apply (proj2 neutral_statuses_spec sample_only_fixed sample_fixed).
    + reflexivity.
    + unfold in_some_category. right. right. left.
      change (sample_fixed ∈ [sample_fixed]). apply list_elem_of_here.
    + reflexivity.
Defined.

(** *** The derived field is not kept in sync *)

Lemma reduction_fail r :
  has_status "FAIL" r → result_of calculate_overall_status r = "FAIL".
Proof.
  intros H. apply any_status_joined in H.
  rewrite reduction_has_status. by rewrite decide_True.
Qed.

Lemma reduction_warn r :
  ¬ has_status "FAIL" r → has_status "WARN" r →
  result_of calculate_overall_status r = "WARN".
Proof.
  intros HF HW. rewrite <- any_status_joined in HF. apply any_status_joined in HW.
  rewrite reduction_has_status. rewrite decide_False by done. by rewrite decide_True.
Qed.

Lemma reduction_stored r :
  overall_status (self_after calculate_overall_status r) =
  result_of calculate_overall_status r.
Proof. unfold result_of, self_after. by rewrite calculate_overall_status_run. Qed.

Lemma new_report_no_status s now sku ts lo hi :
  ¬ has_status s (new_ValidationReport now sku ts lo hi).
Proof.
  intros (c & Hin & _). unfold in_some_category in Hin. simpl in Hin.
  rewrite !elem_of_nil in Hin. tauto.
Qed.

(** C4. The [overall_status] field is not kept in sync with the category
    lists: a newly constructed report has [overall_status = PASS];
    appending results to any category list leaves the field unchanged;
    so after any sequence of appends to a new report the field still reads
    PASS, also when a FAIL or WARN result is present, for which
    [calculate_overall_status] then returns, and stores, FAIL or WARN. *)
Theorem overall_status_stale_spec :
  (∀ now sku ts lo hi,
     overall_status (new_ValidationReport now sku ts lo hi) = "PASS") ∧
  (∀ id results r,
     overall_status (list_extend id results r) = overall_status r) ∧
  (∀ id c r, overall_status (list_append id c r) = overall_status r) ∧
  (∀ now sku ts lo hi ops,
     overall_status (append_all ops (new_ValidationReport now sku ts lo hi)) = "PASS") ∧
  (∀ now sku ts lo hi id c s,
     id ∈ category_ids → s = "FAIL" ∨ s = "WARN" → status c = s →
     let r := list_append id c (new_ValidationReport now sku ts lo hi) in
     has_status s r ∧
     overall_status r = "PASS" ∧
     result_of calculate_overall_status r = s ∧
     overall_status (self_after calculate_overall_status r) = s).
Proof.
  split_and!; try reflexivity.
  - intros. by rewrite overall_status_append_all.
  - intros now sku ts lo hi id c s Hid Hs Hc r.
    assert (Hhas : has_status s r).
    { apply has_status_append. by right. }
    assert (Hred : result_of calculate_overall_status r = s).
    { destruct Hs as [-> | ->]; [by apply reduction_fail|].
      apply reduction_warn; [|done].
      intros HF. apply has_status_append in HF as [HF|[_ HF]].
      - by apply new_report_no_status in HF.
      - rewrite Hc in HF. discriminate. }
    split; [done|]. split; [reflexivity|]. split; [done|].
    by rewrite reduction_stored.
Qed.

(** A FAIL result appended to a new report: the field still reads PASS. *)
Lemma overall_status_stale_spec_witness :
  let r := list_append "ssl_checks" sample_fail sample_new in
  has_status "FAIL" r ∧
  overall_status r = "PASS" ∧
  result_of calculate_overall_status r = "FAIL" ∧
  overall_status (self_after calculate_overall_status r) = "FAIL".
Proof.
  apply (proj2 (proj2 (proj2 (proj2 overall_status_stale_spec)))).
  - apply elem_category_ids. left. reflexivity.
  - left. reflexivity.
  - reflexivity.
Defined.

(** *** Serialization *)

(** The document holds, under each category name, the results of that
    category in the order of the list. *)
Lemma to_dict_category r id :
  id ∈ category_ids →
  dict_get (entries (result_of to_dict r)) id =
    Some (PList (CheckResult_to_dict <$> getattr r id [])).
Proof.
  rewrite elem_category_ids.
  intros [->|[->|[->|[->|[->|[->|[->|[->|[->|[->| ->]]]]]]]]]]; reflexivity.
Qed.

End BaseSpec.

(** ** The status markers and the HTML renderer *)

Module ReportSpec.
Import Base Report.

(** C7. For every status string, also one outside the six-value enum, the
    marker functions return a value: a status that is none of the six maps
    to the fallback icon and to the CSS class status-unknown. *)
Theorem status_markers_spec (status : string) :
  status ∉ STATUSES →
  get_status_icon status = icon_unknown ∧
  get_status_class status = "status-unknown".
Proof.
  unfold STATUSES. rewrite !not_elem_of_cons.
  intros (H1 & H2 & H3 & H4 & H5 & H6 & _).
  unfold get_status_icon, get_status_class, icons, classes.
  rewrite !lookup_insert_ne, !lookup_empty by done. done.
Qed.

(** A status that no producer should emit. *)
Lemma status_markers_spec_witness :
  ("TIMEOUT" ∉ STATUSES) ∧
  get_status_icon "TIMEOUT" = icon_unknown ∧
  get_status_class "TIMEOUT" = "status-unknown".
Proof.
  assert (H : "TIMEOUT" ∉ STATUSES) by by_decide.
  split; [exact H|]. exact (status_markers_spec "TIMEOUT" H).
Defined.

Example status_markers_known :
  (get_status_class <$> STATUSES) =
    ["status-pass"; "status-fail"; "status-warn"; "status-info";
     "status-skipped"; "status-fixed"].
Proof. reflexivity. Qed.

Lemma append_assoc (s1 s2 s3 : string) : (s1 +:+ s2) +:+ s3 = s1 +:+ s2 +:+ s3.
Proof.
  induction s1 as [|a s1 IH]; [done|].
  change (String a ((s1 +:+ s2) +:+ s3) = String a (s1 +:+ s2 +:+ s3)).
  by rewrite IH.
Qed.

Lemma append_nil_r (s : string) : s +:+ "" = s.
Proof.
  induction s as [|a s IH]; [done|].
  change (String a (s +:+ "") = String a s). by rewrite IH.
Qed.

Lemma html_checks_loop_join html checks :
  html_checks_loop html checks = html +:+ join (html_check_item <$> checks).
Proof.
  unfold html_checks_loop. revert html.
  induction checks as [|c checks IH]; intros html.
  - cbn [fold_left]. rewrite fmap_nil. cbn [join foldr]. by rewrite append_nil_r.
  - cbn [fold_left]. rewrite IH, fmap_cons. cbn [join foldr].
    by rewrite append_assoc.
Qed.

Lemma html_category_step_section r html category :
  html_category_step r html category =
    html +:+ (if decide (getattr r category.1 [] ≠ [])
              then html_section category.2 (getattr r category.1 []) else "").
Proof.
  destruct category as [category_id category_name].
  unfold html_category_step. simpl.
  destruct (getattr r category_id []) as [|c checks] eqn:E.
  - rewrite decide_False by (intros H; by apply H). by rewrite append_nil_r.
  - rewrite decide_True by done.
    rewrite html_checks_loop_join. unfold html_section.
    rewrite !append_assoc. reflexivity.
Qed.

Lemma html_categories_loop r categories html :
  fold_left (html_category_step r) categories html =
    html +:+ join ((fun category => html_section category.2 (getattr r category.1 []))
                     <$> filter (fun category => getattr r category.1 [] ≠ []) categories).
Proof.
  revert html. induction categories as [|category categories IH]; intros html.
  - cbn [fold_left]. rewrite filter_nil, fmap_nil. cbn [join foldr].
    by rewrite append_nil_r.
  - cbn [fold_left]. rewrite IH, html_category_step_section, filter_cons.
    destruct (decide (getattr r category.1 [] ≠ [])).
    + rewrite fmap_cons. cbn [join foldr]. by rewrite append_assoc.
    + by rewrite append_nil_r.
Qed.

Lemma generate_html_content_run r :
  generate_html_content r =
    (Some (fold_left (html_category_step r) Config.CHECK_CATEGORIES (html_head_of r)
           +:+ html_footer), r).
Proof.
  unfold generate_html_content, html_head_of, mbind, Method_bind.
  change (get_summary r) with (result_of get_summary r, r).
  cbv beta iota. unfold attr at 1. cbv beta iota.
  destruct (banner (overall_status r)) as [banner_class banner_icon].
  reflexivity.
Qed.

(** C5. For every report, the HTML rendering is the document head, then
    one titled section for each category of [CHECK_CATEGORIES] whose result
    list is not empty, in the order of [CHECK_CATEGORIES], then the footer:
    a category has a section if and only if its list (the report attribute
    of that name) is non-empty.  The structured document of [to_dict] has
    all eleven category keys, an empty category as an empty list. *)
Theorem rendering_sections_spec (r : ValidationReport) :
  result_of generate_html_content r =
    Some (html_head_of r +:+
          join ((fun category => html_section category.2 (getattr r category.1 []))
                  <$> rendered_categories r) +:+
          html_footer) ∧
  ((fun id => getattr r id []) <$> category_ids) =
    [ssl_checks r; license_checks r; ntp_checks r; vm_config_checks r;
     vm_resource_checks r; password_expiration_checks r; linux_checks r;
     windows_checks r; url_checks r; vsphere_checks r; inventory_checks r] ∧
  rendered_categories r `sublist_of` Config.CHECK_CATEGORIES ∧
  (∀ category, category ∈ Config.CHECK_CATEGORIES →
     (category ∈ rendered_categories r ↔ getattr r category.1 [] ≠ [])) ∧
  (∀ id, id ∈ category_ids →
     dict_get (entries (result_of to_dict r)) id =
       Some (PList (CheckResult_to_dict <$> getattr r id []))) ∧
  (∀ id, id ∈ category_ids → getattr r id [] = [] →
     dict_get (entries (result_of to_dict r)) id = Some (PList [])).
Proof.
  split_and!.
  - unfold result_of. rewrite generate_html_content_run. cbn [fst].
    rewrite html_categories_loop. by rewrite append_assoc.
  - reflexivity.
  - apply sublist_filter.
  - intros category Hin. unfold rendered_categories.
    rewrite list_elem_of_filter. tauto.
  - intros id Hid. by apply BaseSpec.to_dict_category.
  - intros id Hid He. rewrite (BaseSpec.to_dict_category r id Hid). by rewrite He.
Qed.

(** The mixed scenario: NTP has no results, so no section and an empty list. *)
Lemma rendering_sections_spec_witness :
  (("ntp_checks", "NTP Configuration") ∉ rendered_categories sample_mixed) ∧
  ("ssl_checks", "SSL Certificate Checks") ∈ rendered_categories sample_mixed ∧
  dict_get (entries (result_of to_dict sample_mixed)) "ntp_checks" = Some (PList []).
Proof.
  pose proof (rendering_sections_spec sample_mixed)
    as (_ & _ & _ & Hiff & _ & Hempty).
  split_and!.
  - intros Hin. apply Hiff in Hin.
    + apply Hin. reflexivity.
    + by_decide.
  - apply Hiff.
    + by_decide.
    + discriminate.
  - apply Hempty; [|reflexivity]. by_decide.
Defined.

Example rendered_mixed :
  rendered_categories sample_mixed =
    [("ssl_checks", "SSL Certificate Checks");
     ("license_checks", "vSphere License Checks")].
Proof. reflexivity. Qed.

End ReportSpec.

(** ** The orchestrator's exit code *)

Module OrchestratorSpec.
Import Base Orchestrator.

Lemma initialize_outcome w self :
  (∃ self' r, initialize w self = (true, self') ∧ report self' = Some r) ∨
  initialize w self = (false, self).
Proof.
  unfold initialize.
  destruct (LSF_AVAILABLE w); [destruct (lsf_init w) as [[sku ty]|]|].
  - destruct (get_expiration_dates w sku) as [lo hi]. left. by eexists _, _.
  - by right.
  - destruct (get_expiration_dates w (lab_sku self)) as [lo hi]. left.
    by eexists _, _.
Qed.

Lemma reduction_values r :
  result_of calculate_overall_status r ∈ ["FAIL"; "WARN"; "PASS"].
Proof.
  rewrite BaseSpec.reduction_has_status. repeat case_decide.
  all: rewrite !elem_of_cons; tauto.
Qed.

Lemma reduction_idempotent r :
  result_of calculate_overall_status (self_after calculate_overall_status r) =
  result_of calculate_overall_status r.
Proof.
  unfold self_after at 1. rewrite BaseSpec.calculate_overall_status_run.
  cbn [snd]. rewrite !BaseSpec.reduction_has_status. reflexivity.
Qed.

(** C6 as stated, an exit code that is non-zero exactly for a FAIL report,
    does not hold of a run whose initialization fails: [run] returns 1 and
    there is no report. *)
Lemma exit_code_reflects_fail_counterexample :
  exit_code world_init_raises no_options = 1%Z ∧
  final_report world_init_raises no_options = None ∧
  ¬ exit_code_reflects_fail world_init_raises no_options.
Proof.
  split; [reflexivity|]. split; [reflexivity|].
  unfold exit_code_reflects_fail. intros [H _].
  destruct H as (r & Hr & _); [discriminate|]. discriminate.
Qed.

(** C6, amended. When initialization succeeds, the run ends with a report
    whose [overall_status] is the reduction of its results, and the exit
    code is non-zero (it is 1) if and only if that status is FAIL; WARN and
    PASS give exit code 0.  When initialization fails, [run] returns 1 and
    no report exists. *)
Theorem exit_code_spec (w : World) (a : Args) :
  (initialized w a = true →
   ∃ r, final_report w a = Some r ∧
        overall_status r = result_of calculate_overall_status r ∧
        overall_status r ∈ ["FAIL"; "WARN"; "PASS"] ∧
        (exit_code w a ≠ 0%Z ↔ overall_status r = "FAIL") ∧
        (exit_code w a = 1%Z ↔ overall_status r = "FAIL") ∧
        (overall_status r = "WARN" ∨ overall_status r = "PASS" →
         exit_code w a = 0%Z)) ∧
  (initialized w a = false →
   exit_code w a = 1%Z ∧ final_report w a = None).
Proof.
  unfold initialized, exit_code, final_report, main, run.
  destruct (initialize_outcome w (AutoCheck_init a))
    as [(self' & r0 & -> & Hr)| ->]; cbn [fst negb]; (split; [|done]).
  - intros _. rewrite Hr.
    set (r1 := run_all_checks w self' r0).
    exists (generate_reports r1). cbn [fst snd report with_report].
    split; [reflexivity|].
    assert (Hs : overall_status (generate_reports r1) =
                 result_of calculate_overall_status (generate_reports r1)).
    { unfold generate_reports. rewrite reduction_idempotent.
      apply BaseSpec.reduction_stored. }
    split; [done|].
    split; [rewrite Hs; apply reduction_values|].
    case_bool_decide as HF; cbn [negb].
    + rewrite HF. split_and!; try done.
      intros [H|H]; discriminate.
    + split_and!; try done; tauto.
  - intros H. discriminate.
Qed.

(** A run that reaches the reduction with a FAIL result exits with 1. *)
Lemma exit_code_spec_witness :
  initialized world_linux_raises no_options = true ∧
  ∃ r, final_report world_linux_raises no_options = Some r ∧
       overall_status r = result_of calculate_overall_status r ∧
       overall_status r ∈ ["FAIL"; "WARN"; "PASS"] ∧
       (exit_code world_linux_raises no_options ≠ 0%Z ↔ overall_status r = "FAIL") ∧
       (exit_code world_linux_raises no_options = 1%Z ↔ overall_status r = "FAIL") ∧
       (overall_status r = "WARN" ∨ overall_status r = "PASS" →
        exit_code world_linux_raises no_options = 0%Z).
Proof.
  split; [reflexivity|].
  apply (proj1 (exit_code_spec world_linux_raises no_options)). reflexivity.
Defined.

End OrchestratorSpec.

(** * Further properties *)

(** ** Loops that append one result for each element *)

Module Loops.

Lemma append_loop {A B} (f : A → B) (l : list A) (results : list B) :
  fold_left (fun results x => results ++ [f x]) l results = results ++ (f <$> l).
Proof.
  revert results. induction l as [|x l IH]; intros results.
  - by rewrite app_nil_r.
  - cbn [fold_left fmap list_fmap]. rewrite IH. by rewrite <- app_assoc.
Qed.

End Loops.

(** ** What a whole run does to the report *)

Module RunSpec.
Import Base Orchestrator RunVocabulary.

Lemma added_same id results : added id id results = results.
Proof. unfold added. by rewrite bool_decide_eq_true_2. Qed.

Lemma added_other id name results : id ≠ name → added id name results = [].
Proof. intros H. unfold added. by rewrite bool_decide_eq_false_2. Qed.

Lemma category_lists_fields r :
  category_lists r =
    [ssl_checks r; license_checks r; ntp_checks r; vm_config_checks r;
     vm_resource_checks r; password_expiration_checks r; linux_checks r;
     windows_checks r; url_checks r; vsphere_checks r; inventory_checks r].
Proof. reflexivity. Qed.

Lemma category_lists_extend id results r :
  category_lists (list_extend id results r) =
    zip_with app (category_lists r) ((fun name => added id name results) <$> category_ids).
Proof.
  rewrite !category_lists_fields.
  destruct (BaseSpec.list_extend_fields id results r)
    as (-> & -> & -> & -> & -> & -> & -> & -> & -> & -> & ->).
  reflexivity.
Qed.

Lemma list_extend_nil id r : list_extend id [] r = r.
Proof.
  pose proof (category_lists_extend id [] r) as H.
  assert (Ha : ∀ name, added id name [] = []) by (intros; unfold added; by case_bool_decide).
  rewrite !category_lists_fields in H. cbn [fmap list_fmap category_ids] in H.
  unfold category_ids, Config.CHECK_CATEGORIES in H. cbn [fmap list_fmap fst zip_with] in H.
  rewrite !Ha, !app_nil_r in H.
  injection H as H1 H2 H3 H4 H5 H6 H7 H8 H9 H10 H11.
  destruct r. unfold list_extend, with_checks in *. cbn [Base.lab_sku Base.timestamp
    Base.min_exp_date Base.max_exp_date Base.overall_status] in *.
  by rewrite H1, H2, H3, H4, H5, H6, H7, H8, H9, H10, H11.
Qed.

(** *** Each step appends to one list *)

Lemma try_extend_extends id title o (field : ValidationReport → list CheckResult) :
  (∀ results, field (list_extend id results blank) = results) →
  extends id (field (try_extend id title o blank)) (try_extend id title o).
Proof.
  intros Hf r. destruct o as [results|e]; unfold try_extend, list_append;
    by rewrite Hf.
Qed.

Lemma skipped_extends id title msg (field : ValidationReport → list CheckResult) :
  (∀ results, field (list_extend id results blank) = results) →
  extends id (field (skipped id title msg blank)) (skipped id title msg).
Proof. intros Hf r. unfold skipped, list_append. by rewrite Hf. Qed.

Lemma append_extends id c (field : ValidationReport → list CheckResult) :
  (∀ results, field (list_extend id results blank) = results) →
  extends id (field (list_append id c blank)) (list_append id c).
Proof. intros Hf r. unfold list_append. by rewrite Hf. Qed.

Lemma keep_extends id (field : ValidationReport → list CheckResult) :
  field blank = [] → extends id (field blank) (fun r => r).
Proof. intros Hf r. by rewrite Hf, list_extend_nil. Qed.

(** Solve [extends] goals for the [run_*] methods by following their
    branches. *)
Ltac step_extends :=
  repeat match goal with
  | |- context [if ?b then _ else _] => destruct b
  | |- context [match ?l with [] => _ | _ :: _ => _ end] => destruct l
  end;
  first [ apply try_extend_extends | apply skipped_extends
        | apply append_extends | apply keep_extends ];
  reflexivity.

Lemma run_ssl_checks_extends w self :
  extends "ssl_checks" (ssl_checks (run_ssl_checks w self blank)) (run_ssl_checks w self).
Proof. unfold run_ssl_checks. step_extends. Qed.

Lemma run_license_checks_extends w self :
  extends "license_checks" (license_checks (run_license_checks w self blank))
    (run_license_checks w self).
Proof. unfold run_license_checks. step_extends. Qed.

Lemma run_ntp_checks_extends w self :
  extends "ntp_checks" (ntp_checks (run_ntp_checks w self blank)) (run_ntp_checks w self).
Proof. unfold run_ntp_checks. step_extends. Qed.

Lemma run_vm_config_checks_extends w self :
  extends "vm_config_checks" (vm_config_checks (run_vm_config_checks w self blank))
    (run_vm_config_checks w self).
Proof. unfold run_vm_config_checks. step_extends. Qed.

Lemma run_url_checks_extends w self :
  extends "url_checks" (url_checks (run_url_checks w self blank)) (run_url_checks w self).
Proof. unfold run_url_checks. step_extends. Qed.

Lemma run_linux_checks_extends w self :
  extends "linux_checks" (linux_checks (run_linux_checks w self blank))
    (run_linux_checks w self).
Proof. unfold run_linux_checks. step_extends. Qed.

Lemma run_windows_checks_extends w self :
  extends "windows_checks" (windows_checks (run_windows_checks w self blank))
    (run_windows_checks w self).
Proof. unfold run_windows_checks. step_extends. Qed.

Lemma run_vsphere_checks_extends w self :
  extends "vsphere_checks" (vsphere_checks (run_vsphere_checks w self blank))
    (run_vsphere_checks w self).
Proof. unfold run_vsphere_checks. step_extends. Qed.

Lemma run_password_checks_extends w self :
  extends "password_expiration_checks"
    (password_expiration_checks (run_password_checks w self blank))
    (run_password_checks w self).
Proof. unfold run_password_checks. step_extends. Qed.

(** *** The nine steps together *)

Lemma run_all_checks_extends w self r :
  run_all_checks w self r =
    list_extend "password_expiration_checks"
      (password_expiration_checks (run_password_checks w self blank))
    (list_extend "vsphere_checks" (vsphere_checks (run_vsphere_checks w self blank))
    (list_extend "windows_checks" (windows_checks (run_windows_checks w self blank))
    (list_extend "linux_checks" (linux_checks (run_linux_checks w self blank))
    (list_extend "url_checks" (url_checks (run_url_checks w self blank))
    (list_extend "vm_config_checks" (vm_config_checks (run_vm_config_checks w self blank))
    (list_extend "ntp_checks" (ntp_checks (run_ntp_checks w self blank))
    (list_extend "license_checks" (license_checks (run_license_checks w self blank))
    (list_extend "ssl_checks" (ssl_checks (run_ssl_checks w self blank)) r)))))))).
Proof.
  unfold run_all_checks.
  rewrite (run_ssl_checks_extends w self r).
  rewrite (run_license_checks_extends w self _).
  rewrite (run_ntp_checks_extends w self _).
  rewrite (run_vm_config_checks_extends w self _).
  rewrite (run_url_checks_extends w self _).
  rewrite (run_linux_checks_extends w self _).
  rewrite (run_windows_checks_extends w self _).
  rewrite (run_vsphere_checks_extends w self _).
  by rewrite (run_password_checks_extends w self _).
Qed.

(** What the nine steps add, list by list. *)
Lemma run_all_checks_lists w self r :
  category_lists (run_all_checks w self r) =
    zip_with app (category_lists r)
      [ssl_checks (run_ssl_checks w self blank);
       license_checks (run_license_checks w self blank);
       ntp_checks (run_ntp_checks w self blank);
       vm_config_checks (run_vm_config_checks w self blank);
       [];
       password_expiration_checks (run_password_checks w self blank);
       linux_checks (run_linux_checks w self blank);
       windows_checks (run_windows_checks w self blank);
       url_checks (run_url_checks w self blank);
       vsphere_checks (run_vsphere_checks w self blank);
       []].
Proof.
  rewrite run_all_checks_extends, !category_lists_extend, category_lists_fields.
  unfold category_ids, Config.CHECK_CATEGORIES. cbn [fmap list_fmap fst zip_with].
  rewrite !added_same. rewrite !added_other by discriminate.
  rewrite !app_nil_r. reflexivity.
Qed.

Lemma run_all_checks_scalars w self r :
  let r' := run_all_checks w self r in
  Base.lab_sku r' = Base.lab_sku r ∧ timestamp r' = timestamp r ∧
  Base.min_exp_date r' = Base.min_exp_date r ∧
  Base.max_exp_date r' = Base.max_exp_date r ∧
  overall_status r' = overall_status r.
Proof. cbv zeta. rewrite run_all_checks_extends. by repeat split. Qed.

(** X2. The nine check steps of a run only append: every category list of
    the report they are given is a prefix of the same list afterwards, what
    is appended is what the steps put on an empty report, and the scalar
    fields, [overall_status] among them, are left as they were. *)
Theorem run_all_checks_appends (w : World) (self : AutoCheck) (r : ValidationReport) :
  let r' := run_all_checks w self r in
  category_lists r' =
    zip_with app (category_lists r) (category_lists (run_all_checks w self blank)) ∧
  Forall2 (fun before after => before `prefix_of` after)
    (category_lists r) (category_lists r') ∧
  Base.lab_sku r' = Base.lab_sku r ∧ timestamp r' = timestamp r ∧
  Base.min_exp_date r' = Base.min_exp_date r ∧
  Base.max_exp_date r' = Base.max_exp_date r ∧
  overall_status r' = overall_status r.
Proof.
  cbv zeta. split; [|split; [|apply run_all_checks_scalars]].
  - rewrite (run_all_checks_lists w self r), (run_all_checks_lists w self blank).
    reflexivity.
  - rewrite (run_all_checks_lists w self r), category_lists_fields.
    cbn [zip_with]. repeat (apply Forall2_cons; split; [by apply prefix_app_r|]).
    apply Forall2_nil_2.
Qed.

(** *** The report a run ends with *)

Lemma generate_reports_lists r :
  category_lists (generate_reports r) = category_lists r.
Proof.
  unfold generate_reports, self_after.
  by rewrite BaseSpec.calculate_overall_status_run.
Qed.

Lemma generate_reports_status r :
  overall_status (generate_reports r) = result_of calculate_overall_status r.
Proof. apply BaseSpec.reduction_stored. Qed.

Lemma run_outcome w a :
  initialized w a = true →
  ∃ sku lo hi,
    let r := run_all_checks w (initialized_self w a)
               (new_ValidationReport (now w) sku "" lo hi) in
    final_report w a = Some (generate_reports r) ∧
    exit_code w a =
      (if bool_decide (result_of calculate_overall_status r = "FAIL") then 1 else 0)%Z.
Proof.
  unfold initialized, initialized_self, final_report, exit_code, main, run, initialize.
  destruct (LSF_AVAILABLE w); [destruct (lsf_init w) as [[sku ty]|]|].
  - destruct (get_expiration_dates w sku) as [lo hi]. intros _.
    exists sku, lo, hi. cbn [fst snd negb report with_report].
    rewrite generate_reports_status. split; [done|]. by case_bool_decide.
  - discriminate.
  - destruct (get_expiration_dates w _) as [lo hi] eqn:E. intros _.
    exists (lab_sku (AutoCheck_init a)), lo, hi. cbn [fst snd negb report with_report].
    rewrite generate_reports_status. split; [done|]. by case_bool_decide.
Qed.

(** X1. No step of a run files anything under vm_resource_checks or
    inventory_checks: in the report of every run that initializes, both
    lists are empty, and neither category is among those the renderers give
    a section. *)
Theorem never_filled_categories (w : World) (a : Args) :
  initialized w a = true →
  ∃ r, final_report w a = Some r ∧
       vm_resource_checks r = [] ∧ inventory_checks r = [] ∧
       Forall (fun category => category.1 ≠ "vm_resource_checks" ∧
                               category.1 ≠ "inventory_checks")
              (Report.rendered_categories r).
Proof.
  intros Hinit. destruct (run_outcome w a Hinit) as (sku & lo & hi & Hr & _).
  cbv zeta in Hr. eexists. split; [exact Hr|].
  match goal with |- vm_resource_checks ?r = [] ∧ _ =>
    pose proof (generate_reports_lists
      (run_all_checks w (initialized_self w a)
         (new_ValidationReport (now w) sku "" lo hi))) as Hl;
    set (final := r) in * end.
  rewrite run_all_checks_lists, !category_lists_fields in Hl.
  cbn [zip_with] in Hl.
  injection Hl as _ _ _ _ Hres _ _ _ _ _ Hinv.
  cbn in Hres, Hinv. split; [done|]. split; [done|].
  unfold Report.rendered_categories. apply Forall_forall. intros category Hin.
  apply list_elem_of_filter in Hin as [Hne Hin].
  split; intros Hid; apply Hne.
  - destruct category as [id title]. simpl in Hid. subst id. exact Hres.
  - destruct category as [id title]. simpl in Hid. subst id. exact Hinv.
Qed.

(** *** Which runs fail *)

Lemma has_fail_app (l1 l2 : list CheckResult) :
  has_fail (l1 ++ l2) ↔ has_fail l1 ∨ has_fail l2.
Proof.
  split.
  - intros (c & Hin & Hs). apply elem_of_app in Hin as [Hin|Hin]; [left|right];
      by exists c.
  - intros [(c & Hin & Hs)|(c & Hin & Hs)]; exists c; (split; [|done]);
      apply elem_of_app; [by left|by right].
Qed.

Lemma has_fail_nil : has_fail (@nil CheckResult) ↔ False.
Proof. split; [|done]. intros (c & Hin & _). by apply elem_of_nil in Hin. Qed.

Lemma has_fail_marker c0 : status c0 ≠ "FAIL" → has_fail [c0] ↔ False.
Proof.
  intros Hne. split; [|done]. intros (c & Hin & Hs).
  apply list_elem_of_singleton in Hin. by subst.
Qed.

Lemma has_fail_joined r : has_status "FAIL" r ↔ has_fail (joined r).
Proof.
  unfold has_status. split; intros (c & Hin & Hs); exists c; (split; [|done]);
    by apply BaseSpec.in_joined.
Qed.

Lemma fails_outcome id title o (field : ValidationReport → list CheckResult) :
  (∀ results, field (list_extend id results blank) = results) →
  has_fail (field (try_extend id title o blank)) ↔ Exists failing [o].
Proof.
  intros Hf. rewrite Exists_cons, Exists_nil.
  destruct o as [results|e]; unfold try_extend, list_append; rewrite Hf; simpl.
  - tauto.
  - split; [tauto|]. intros _. eexists. split; [apply list_elem_of_here|done].
Qed.

Lemma fails_skipped id title msg (field : ValidationReport → list CheckResult) :
  (∀ results, field (list_extend id results blank) = results) →
  has_fail (field (skipped id title msg blank)) ↔ Exists failing [].
Proof.
  intros Hf. unfold skipped, list_append. rewrite Hf, Exists_nil.
  by apply has_fail_marker.
Qed.

Lemma fails_keep (field : ValidationReport → list CheckResult) :
  field blank = [] → has_fail (field blank) ↔ Exists failing [].
Proof. intros ->. rewrite Exists_nil. apply has_fail_nil. Qed.

(** Close one branch of a [run_*] method on the empty report. *)
Ltac step_fails :=
  cbn [negb andb];
  first [ apply fails_outcome | apply fails_skipped | apply fails_keep ];
  reflexivity.

Lemma run_ssl_checks_fails w self :
  has_fail (ssl_checks (run_ssl_checks w self blank)) ↔
  Exists failing (if SSL_CHECKS_AVAILABLE w then [check_ssl_certificates w] else []).
Proof. unfold run_ssl_checks. destruct (SSL_CHECKS_AVAILABLE w); step_fails. Qed.

Lemma run_license_checks_fails w self :
  has_fail (license_checks (run_license_checks w self blank)) ↔
  Exists failing (if LICENSE_CHECKS_AVAILABLE w && sis self
                  then [check_licenses w] else []).
Proof. unfold run_license_checks. destruct (LICENSE_CHECKS_AVAILABLE w), (sis self); step_fails. Qed.

Lemma run_ntp_checks_fails w self :
  has_fail (ntp_checks (run_ntp_checks w self blank)) ↔
  Exists failing (if NTP_CHECKS_AVAILABLE w && sis self
                  then [check_ntp_configuration w] else []).
Proof. unfold run_ntp_checks. destruct (NTP_CHECKS_AVAILABLE w), (sis self); step_fails. Qed.

Lemma run_vm_config_checks_fails w self :
  has_fail (vm_config_checks (run_vm_config_checks w self blank)) ↔
  Exists failing (if VSPHERE_CHECKS_AVAILABLE w && sis self
                  then [check_vm_configuration w] else []).
Proof. unfold run_vm_config_checks. destruct (VSPHERE_CHECKS_AVAILABLE w), (sis self); step_fails. Qed.

Lemma run_url_checks_fails w self :
  has_fail (url_checks (run_url_checks w self blank)) ↔
  Exists failing (if URL_CHECKS_AVAILABLE w then [check_urls w] else []).
Proof. unfold run_url_checks. destruct (URL_CHECKS_AVAILABLE w); step_fails. Qed.

Lemma run_linux_checks_fails w self :
  has_fail (linux_checks (run_linux_checks w self blank)) ↔
  Exists failing (if negb (skip_linux (args self)) && LINUX_CHECKS_AVAILABLE w
                  then [check_linux_machines w] else []).
Proof. unfold run_linux_checks. destruct (skip_linux (args self)), (LINUX_CHECKS_AVAILABLE w); step_fails. Qed.

Lemma run_windows_checks_fails w self :
  has_fail (windows_checks (run_windows_checks w self blank)) ↔
  Exists failing (if negb (skip_windows (args self)) && WINDOWS_CHECKS_AVAILABLE w &&
                     bool_decide (_get_windows_hosts w self ≠ [])
                  then [check_windows_machines w] else []).
Proof.
  unfold run_windows_checks.
  destruct (skip_windows (args self)); [step_fails|].
  destruct (WINDOWS_CHECKS_AVAILABLE w); [|step_fails].
  destruct (_get_windows_hosts w self) as [|host hosts]; cbn [negb andb].
  - rewrite bool_decide_eq_false_2 by (intros H; by apply H).
    rewrite Exists_nil. by apply has_fail_marker.
  - rewrite bool_decide_eq_true_2 by done. by apply fails_outcome.
Qed.

Lemma run_vsphere_checks_fails w self :
  has_fail (vsphere_checks (run_vsphere_checks w self blank)) ↔
  Exists failing (if negb (skip_vsphere (args self)) && VSPHERE_CHECKS_AVAILABLE w &&
                     sis self
                  then [check_vsphere_configuration w] else []).
Proof. unfold run_vsphere_checks. destruct (skip_vsphere (args self)), (VSPHERE_CHECKS_AVAILABLE w), (sis self); step_fails. Qed.

Lemma run_password_checks_fails w self :
  has_fail (password_expiration_checks (run_password_checks w self blank)) ↔
  Exists failing (if LINUX_CHECKS_AVAILABLE w
                  then [check_password_expirations w] else []).
Proof. unfold run_password_checks. destruct (LINUX_CHECKS_AVAILABLE w); step_fails. Qed.

Lemma joined_lists r : joined r = concat (category_lists r).
Proof.
  rewrite category_lists_fields. unfold joined. cbn [concat].
  by rewrite app_nil_r.
Qed.

Lemma run_all_checks_fails w self r :
  has_status "FAIL" (run_all_checks w self r) ↔
  has_status "FAIL" r ∨ Exists failing (invoked w self).
Proof.
  rewrite !has_fail_joined, !joined_lists, run_all_checks_lists, category_lists_fields.
  cbn [zip_with concat]. rewrite !has_fail_app.
  unfold invoked. rewrite !Exists_app.
  rewrite run_ssl_checks_fails, run_license_checks_fails, run_ntp_checks_fails,
    run_vm_config_checks_fails, run_url_checks_fails, run_linux_checks_fails,
    run_windows_checks_fails, run_vsphere_checks_fails, run_password_checks_fails.
  rewrite has_fail_nil. tauto.
Qed.

Lemma reduction_fail_iff r :
  result_of calculate_overall_status r = "FAIL" ↔ has_status "FAIL" r.
Proof.
  rewrite BaseSpec.reduction_has_status, <- BaseSpec.any_status_joined.
  repeat case_decide; split; intros Hx; try done; congruence.
Qed.

Lemma run_not_initialized w a :
  initialized w a = false → exit_code w a = 1%Z ∧ final_report w a = None.
Proof.
  unfold initialized, final_report, exit_code, main, run, initialize.
  destruct (LSF_AVAILABLE w); [destruct (lsf_init w) as [[sku ty]|]|].
  - destruct (get_expiration_dates w sku) as [lo hi]. discriminate.
  - done.
  - destruct (get_expiration_dates w _) as [lo hi]. discriminate.
Qed.

(** X3. The exit code of a run is 1 exactly when initialization fails or
    some producer the run calls raises an exception or returns a result of
    status FAIL; it is 0 exactly when initialization succeeds and every
    producer called returns results none of which is FAIL.  The SKIPPED and
    INFO results the run files itself never make it fail. *)
Theorem exit_code_by_producers (w : World) (a : Args) :
  (exit_code w a = 1%Z ↔
     initialized w a = false ∨ Exists failing (invoked w (initialized_self w a))) ∧
  (exit_code w a = 0%Z ↔
     initialized w a = true ∧
     Forall (fun o => ¬ failing o) (invoked w (initialized_self w a))).
Proof.
  destruct (initialized w a) eqn:Hinit.
  - destruct (run_outcome w a Hinit) as (sku & lo & hi & _ & Hcode). cbv zeta in Hcode.
    rewrite Hcode, Forall_Exists_neg.
    assert (Hiff : result_of calculate_overall_status
                     (run_all_checks w (initialized_self w a)
                        (new_ValidationReport (now w) sku "" lo hi)) = "FAIL" ↔
                   Exists failing (invoked w (initialized_self w a))).
    { rewrite reduction_fail_iff, run_all_checks_fails.
      pose proof (BaseSpec.new_report_no_status "FAIL" (now w) sku "" lo hi). tauto. }
    case_bool_decide as Hred; (split; split).
    + intros _. right. by apply Hiff.
    + done.
    + discriminate.
    + intros [_ Hno]. exfalso. apply Hno. by apply Hiff.
    + discriminate.
    + intros [?|Hex]; [discriminate|]. exfalso. apply Hred. by apply Hiff.
    + intros _. split; [done|]. intros Hex. apply Hred. by apply Hiff.
    + done.
  - destruct (run_not_initialized w a Hinit) as [-> _]. (split; split).
    + intros _. by left.
    + done.
    + discriminate.
    + intros [? _]. discriminate.
Qed.

(** A run that initializes, calls a producer that raises, and exits with 1. *)
Example exit_code_linux_raises :
  Exists failing (invoked world_linux_raises (initialized_self world_linux_raises no_options)) ∧
  exit_code world_linux_raises no_options = 1%Z.
Proof.
  split; [|reflexivity].
  apply Exists_cons_tl, Exists_cons_tl, Exists_cons_hd. exact I.
Qed.

(** *** Runs without a vCenter connection *)

Lemma initialized_args w a : args (initialized_self w a) = a.
Proof.
  unfold initialized_self, initialize.
  destruct (LSF_AVAILABLE w); [destruct (lsf_init w) as [[sku ty]|]|]; try done.
  - by destruct (get_expiration_dates w sku).
  - by destruct (get_expiration_dates w _).
Qed.

Lemma no_connection w a :
  skip_vsphere a = true ∨ LSF_AVAILABLE w = false ∨ connect_vcenters w = None ∨
  connect_vcenters w = Some false →
  sis (initialized_self w a) = false.
Proof.
  unfold initialized_self, initialize. intros H.
  destruct (LSF_AVAILABLE w) eqn:HL; [destruct (lsf_init w) as [[sku ty]|]|]; try done.
  - destruct (get_expiration_dates w sku). simpl.
    destruct (skip_vsphere a); [done|]. simpl.
    destruct H as [H|[H|[H|H]]]; try done; by rewrite H.
  - destruct (get_expiration_dates w _). simpl.
    rewrite andb_false_r. reflexivity.
Qed.

(** X4. Without a vCenter connection (the command line skips vSphere,
    lsfunctions is missing, or no connection was made) the producers for
    licenses, NTP, VM configuration and vSphere are not consulted: each of
    the first three categories holds exactly one SKIPPED result, the vSphere
    category one SKIPPED result or, when skipped on the command line,
    nothing; and no Windows machine is found, so that category holds one
    INFO result unless it is skipped or its module is missing. *)
Theorem no_connection_skips (w : World) (a : Args) :
  initialized w a = true →
  skip_vsphere a = true ∨ LSF_AVAILABLE w = false ∨ connect_vcenters w = None ∨
  connect_vcenters w = Some false →
  ∃ r, final_report w a = Some r ∧
    license_checks r =
      [skipped_result "License Checks"
         (if LICENSE_CHECKS_AVAILABLE w then "No vCenter connections available"
          else "License check module not available")] ∧
    ntp_checks r =
      [skipped_result "NTP Checks"
         (if NTP_CHECKS_AVAILABLE w then "No vCenter connections available"
          else "NTP check module not available")] ∧
    vm_config_checks r =
      [skipped_result "VM Config Checks"
         (if VSPHERE_CHECKS_AVAILABLE w then "No vCenter connections available"
          else "vSphere check module not available")] ∧
    vsphere_checks r =
      (if skip_vsphere a then []
       else [skipped_result "vSphere Checks"
               (if VSPHERE_CHECKS_AVAILABLE w then "No vCenter connections available"
                else "vSphere check module not available")]) ∧
    windows_checks r =
      (if skip_windows a then []
       else if WINDOWS_CHECKS_AVAILABLE w
            then [mkCheckResult "Windows Checks" "INFO" "No Windows machines to check" []]
            else [skipped_result "Windows Checks" "Windows check module not available"]).
Proof.
  intros Hinit Hno. apply (no_connection w a) in Hno.
  destruct (run_outcome w a Hinit) as (sku & lo & hi & Hr & _). cbv zeta in Hr.
  eexists. split; [exact Hr|].
  pose proof (generate_reports_lists
    (run_all_checks w (initialized_self w a)
       (new_ValidationReport (now w) sku "" lo hi))) as Hl.
  rewrite run_all_checks_lists, !category_lists_fields in Hl. cbn [zip_with] in Hl.
  injection Hl as _ Hlic Hntp Hvmc _ _ _ Hwin _ Hvs _.
  cbn [new_ValidationReport license_checks ntp_checks vm_config_checks
       vsphere_checks windows_checks app] in Hlic, Hntp, Hvmc, Hwin, Hvs.
  rewrite Hlic, Hntp, Hvmc, Hwin, Hvs.
  unfold run_license_checks, run_ntp_checks, run_vm_config_checks, run_vsphere_checks,
    run_windows_checks, _get_windows_hosts.
  rewrite Hno, initialized_args, orb_true_r. cbn [negb].
  split_and!.
  - by destruct (LICENSE_CHECKS_AVAILABLE w).
  - by destruct (NTP_CHECKS_AVAILABLE w).
  - by destruct (VSPHERE_CHECKS_AVAILABLE w).
  - by destruct (skip_vsphere a), (VSPHERE_CHECKS_AVAILABLE w).
  - by destruct (skip_windows a), (WINDOWS_CHECKS_AVAILABLE w).
Qed.

(** A run without lsfunctions. *)
Lemma no_connection_skips_witness :
  ∃ r, final_report world_linux_raises no_options = Some r ∧
       license_checks r =
         [skipped_result "License Checks" "No vCenter connections available"] ∧
       vsphere_checks r =
         [skipped_result "vSphere Checks" "No vCenter connections available"].
Proof.
  destruct (no_connection_skips world_linux_raises no_options)
    as (r & Hr & Hlic & _ & _ & Hvs & _).
  - reflexivity.
  - right. left. reflexivity.
  - exists r. split; [exact Hr|]. split; [exact Hlic|exact Hvs].
Defined.

(** A run that initializes. *)
Lemma never_filled_categories_witness :
  ∃ r, final_report world_linux_raises no_options = Some r ∧
       vm_resource_checks r = [] ∧ inventory_checks r = [].
Proof.
  destruct (never_filled_categories world_linux_raises no_options)
    as (r & Hr & H1 & H2 & _); [reflexivity|].
  exists r. by repeat split.
Defined.

End RunSpec.

(** ** The text log *)

Module TextLogSpec.
Import Base Report TextLog.

Lemma log_checks_loop lines checks :
  fold_left (fun lines check => lines ++ [to_log_line check]) checks lines =
    lines ++ (to_log_line <$> checks).
Proof.
  revert lines. induction checks as [|c checks IH]; intros lines.
  - by rewrite fmap_nil, app_nil_r.
  - cbn [fold_left]. rewrite IH, fmap_cons, <- app_assoc. reflexivity.
Qed.

Lemma log_category_step_block r lines category :
  log_category_step r lines category =
    lines ++ (if decide (getattr r category.1 [] ≠ [])
              then log_block category.2 (getattr r category.1 []) else []).
Proof.
  destruct category as [category_id category_name].
  unfold log_category_step. cbn [fst snd].
  destruct (getattr r category_id []) as [|c checks] eqn:E.
  - rewrite decide_False by (intros H; by apply H). by rewrite app_nil_r.
  - rewrite decide_True by done. rewrite log_checks_loop. unfold log_block.
    rewrite <- !app_assoc. reflexivity.
Qed.

Lemma log_categories_loop r categories lines :
  fold_left (log_category_step r) categories lines =
    lines ++ concat ((fun category => log_block category.2 (getattr r category.1 []))
                       <$> filter (fun category => getattr r category.1 [] ≠ []) categories).
Proof.
  revert lines. induction categories as [|category categories IH]; intros lines.
  - by rewrite app_nil_r.
  - cbn [fold_left]. rewrite IH, log_category_step_block, filter_cons.
    destruct (decide (getattr r category.1 [] ≠ [])).
    + rewrite fmap_cons. cbn [concat]. by rewrite <- !app_assoc.
    + by rewrite app_nil_r.
Qed.

Lemma text_log_lines_run r :
  text_log_lines r =
    (Some (fold_left (log_category_step r) Config.CHECK_CATEGORIES (log_header r)
           ++ [str_repeat "=" 70]), r).
Proof.
  unfold text_log_lines, mbind, Method_bind.
  change (get_summary r) with (result_of get_summary r, r).
  reflexivity.
Qed.

Lemma text_log_lines_result r :
  result_of text_log_lines r =
    Some (log_header r ++
          concat ((fun category => log_block category.2 (getattr r category.1 []))
                    <$> rendered_categories r) ++
          [str_repeat "=" 70]).
Proof.
  unfold result_of. rewrite text_log_lines_run. cbn [fst].
  rewrite log_categories_loop. by rewrite <- app_assoc.
Qed.

(** X5. The text log is nine header lines, then for each category of
    [CHECK_CATEGORIES] whose list is not empty, in that order, a ruled
    title, one line per result and an empty line, then a closing rule: it
    shows the same categories as the HTML report, and a category without
    results leaves no line.  Writing the log does not change the report. *)
Theorem text_log_blocks (r : ValidationReport) :
  result_of text_log_lines r =
    Some (log_header r ++
          concat ((fun category => log_block category.2 (getattr r category.1 []))
                    <$> rendered_categories r) ++
          [str_repeat "=" 70]) ∧
  result_of generate_text_log r = (str_join "
" <$> result_of text_log_lines r) ∧
  self_after generate_text_log r = r.
Proof.
  split; [apply text_log_lines_result|].
  unfold result_of, self_after, generate_text_log, mbind, Method_bind.
  by rewrite text_log_lines_run.
Qed.

(** Leaving out the empty categories loses no result. *)
Lemma concat_nonempty {A B} (f : A → list B) (l : list A) :
  concat (f <$> filter (fun x => f x ≠ []) l) = concat (f <$> l).
Proof.
  induction l as [|x l IH]; [done|].
  rewrite filter_cons. destruct (decide (f x ≠ [])) as [Hne|He].
  - rewrite !fmap_cons. cbn [concat]. by rewrite IH.
  - rewrite fmap_cons. cbn [concat]. rewrite IH.
    destruct (f x); [done|]. exfalso. by apply He.
Qed.

Lemma rendered_results {B} (g : CheckResult → B) r :
  concat ((fun category => g <$> getattr r category.1 []) <$> rendered_categories r) =
  g <$> joined r.
Proof.
  unfold rendered_categories.
  rewrite (list_filter_iff _
             (fun category : string * string => g <$> getattr r category.1 [] ≠ [])).
  - rewrite (concat_nonempty (fun category : string * string =>
                                g <$> getattr r category.1 [])).
    unfold joined. rewrite !fmap_app. cbn. by rewrite app_nil_r.
  - intros category. split; intros H He; apply H.
    + by apply fmap_nil_inv in He.
    + by rewrite He.
Qed.

Lemma elem_of_concat {A} (x : A) (ls : list (list A)) :
  x ∈ concat ls ↔ ∃ l, l ∈ ls ∧ x ∈ l.
Proof.
  induction ls as [|l ls IH]; cbn [concat].
  - split; [by intros ?%elem_of_nil|]. by intros (l & ?%elem_of_nil & _).
  - rewrite elem_of_app, IH. split.
    + intros [H|(l' & Hl' & Hx)].
      * exists l. split; [apply list_elem_of_here|done].
      * exists l'. split; [by apply list_elem_of_further|done].
    + intros (l' & Hl' & Hx). apply elem_of_cons in Hl' as [->|Hl'].
      * by left.
      * right. by exists l'.
Qed.

Lemma length_concat_blocks r (categories : list (string * string)) :
  length (concat ((fun category => log_block category.2 (getattr r category.1 []))
                    <$> categories)) =
  4 * length categories +
  length (concat ((fun category => to_log_line <$> getattr r category.1 [])
                    <$> categories)).
Proof.
  induction categories as [|category categories IH]; [done|].
  rewrite !fmap_cons. cbn [concat]. rewrite !length_app, IH.
  unfold log_block. rewrite !length_app. cbn [length]. lia.
Qed.

(** X6. The text log loses no result and keeps their order: the result
    lines of the log, category after category, are the log lines of
    [get_all_checks] in its order; so every result of the report has its
    line in the log, and the log has ten lines, four more for each category
    shown, and one for each result. *)
Theorem text_log_complete (r : ValidationReport) :
  concat ((fun category => to_log_line <$> getattr r category.1 [])
            <$> rendered_categories r) =
    (to_log_line <$> result_of get_all_checks r) ∧
  ∃ lines, result_of text_log_lines r = Some lines ∧
    (∀ c, in_some_category c r → to_log_line c ∈ lines) ∧
    length lines = 10 + 4 * length (rendered_categories r) + total_results r.
Proof.
  split; [apply rendered_results|].
  eexists. split; [apply text_log_lines_result|]. split.
  - intros c Hc. apply BaseSpec.in_joined in Hc.
    apply elem_of_app. right. apply elem_of_app. left.
    assert (Hline : to_log_line c ∈ (to_log_line <$> joined r))
      by (by apply list_elem_of_fmap_2).
    rewrite <- rendered_results in Hline.
    apply elem_of_concat in Hline as (block & Hblock & Hin).
    apply list_elem_of_fmap in Hblock as (category & -> & Hcat).
    apply elem_of_concat. eexists. split.
    + apply (list_elem_of_fmap_2
               (fun category : string * string =>
                  log_block category.2 (getattr r category.1 []))), Hcat.
    + unfold log_block. apply elem_of_app. right. apply elem_of_app. by left.
  - rewrite !length_app, length_concat_blocks, rendered_results, length_fmap,
      BaseSpec.length_joined.
    cbn [length log_header]. lia.
Qed.

Lemma text_log_complete_witness :
  ∃ lines, result_of text_log_lines sample_mixed = Some lines ∧
           to_log_line sample_fail ∈ lines.
Proof.
  destruct (text_log_complete sample_mixed) as (_ & lines & Hl & Hin & _).
  exists lines. split; [exact Hl|]. apply Hin. left. by left.
Defined.

End TextLogSpec.

(** ** VM configuration checks *)

Module VsphereSpec.
Import Base VsphereChecks.

Section VmConfiguration.
Variable PYVMOMI_AVAILABLE : bool.
Variable re_search_ignorecase : string -> string -> bool.
Variable reconfig : VM -> string -> string -> bool.

Let check_option := check_option PYVMOMI_AVAILABLE reconfig.
Let add_option := add_vm_config_extra_option PYVMOMI_AVAILABLE reconfig.
Let check_single := check_single_vm_configuration PYVMOMI_AVAILABLE re_search_ignorecase reconfig.
Let check_all := check_vm_configuration PYVMOMI_AVAILABLE re_search_ignorecase reconfig.
Let autolock_issue := autolock_issue re_search_ignorecase.
Let delay_issue := delay_issue re_search_ignorecase.

Lemma check_option_lists vm fix_issues applies key current wanted text issues fixes :
  let found := applies && negb (bool_decide (current = wanted)) in
  check_option vm fix_issues applies key current wanted text (issues, fixes) =
    (issues ++ (if found
                then [key +:+ " is '" +:+ current +:+ "' (should be '" +:+ wanted +:+ "')"]
                else []),
     fixes ++ (if found && fix_issues && add_option vm key wanted then [text] else [])).
Proof.
  unfold check_option, VsphereChecks.check_option, add_option. cbv zeta.
  destruct (applies && negb (bool_decide (current = wanted))); cbn [andb];
    [|by rewrite !app_nil_r].
  destruct fix_issues; cbn [andb]; [|by rewrite app_nil_r].
  destruct (add_vm_config_extra_option _ _ _ _ _); [done|by rewrite app_nil_r].
Qed.

Lemma check_single_defined vm fix_issues :
  (ConfigFunctions.should_skip_vm (vm_name vm) = true → check_single vm fix_issues = None) ∧
  (ConfigFunctions.should_skip_vm (vm_name vm) = false →
   ∃ c, check_single vm fix_issues = Some c).
Proof.
  unfold check_single, check_single_vm_configuration.
  split; intros Hskip; rewrite Hskip; [done|].
  destruct (read_options vm) as [[uuid_action type_delay] autolock].
  repeat match goal with
  | |- context [VsphereChecks.check_option ?a ?b ?c ?d ?e ?f ?g ?h ?i ?j] =>
      destruct (VsphereChecks.check_option a b c d e f g h i j) as [? ?]
  end.
  repeat match goal with
  | |- context [match ?l with [] => _ | _ :: _ => _ end] => destruct l
  | |- context [if ?b then _ else _] => destruct b
  end; by eexists.
Qed.

(** X7. A VM that is no system VM gets one result, named after it.  It is
    PASS exactly when none of the three issues is found; it is FIXED exactly
    when fixing is on and the fix of at least one issue found succeeded,
    also when another issue found was not fixed; otherwise it is FAIL.  With
    fixing off, or without pyVmomi, no result is FIXED.  A system VM gets no
    result. *)
Theorem vm_configuration_status (vm : VM) (fix_issues : bool) :
  (ConfigFunctions.should_skip_vm (vm_name vm) = true → check_single vm fix_issues = None) ∧
  (ConfigFunctions.should_skip_vm (vm_name vm) = false →
   ∃ c, check_single vm fix_issues = Some c ∧
     name c = "VM Config: " +:+ vm_name vm ∧
     (status c = "PASS" ↔
        uuid_issue vm = false ∧ autolock_issue vm = false ∧ delay_issue vm = false) ∧
     (status c = "FIXED" ↔
        fix_issues = true ∧
        (uuid_issue vm && add_option vm "uuid.action" "keep" = true ∨
         autolock_issue vm && add_option vm "tools.guest.desktop.autolock" "FALSE" = true ∨
         delay_issue vm && add_option vm "keyboard.typematicMinDelay" "2000000" = true)) ∧
     (status c ≠ "PASS" → status c ≠ "FIXED" → status c = "FAIL") ∧
     (PYVMOMI_AVAILABLE = false → status c ≠ "FIXED")).
Proof.
  unfold check_single, check_single_vm_configuration.
  split; intros Hskip; rewrite Hskip; [done|].
  unfold autolock_issue, delay_issue, VsphereChecks.autolock_issue,
    VsphereChecks.delay_issue, uuid_issue, uuid_action_of, type_delay_of, autolock_of.
  destruct (read_options vm) as [[uuid_action type_delay] autolock]. cbn [fst snd].
  fold check_option. rewrite !check_option_lists. cbv zeta. cbn [andb app].
  set (i1 := negb (bool_decide (uuid_action = "keep"))).
  set (i2 := guest_matches _ "windows" _ && negb (bool_decide (autolock = "FALSE"))).
  set (i3 := guest_matches _ linux_patterns _ && negb (bool_decide (type_delay = "2000000"))).
  assert (Hoff : PYVMOMI_AVAILABLE = false → ∀ k v, add_option vm k v = false).
  { intros H k v. unfold add_option, add_vm_config_extra_option. by rewrite H. }
  destruct i1, i2, i3, fix_issues; cbn [andb app];
    destruct (add_option vm "uuid.action" "keep") eqn:E1;
    destruct (add_option vm "tools.guest.desktop.autolock" "FALSE") eqn:E2;
    destruct (add_option vm "keyboard.typematicMinDelay" "2000000") eqn:E3;
    cbn [andb app]; eexists; (split; [reflexivity|]); cbn [name status];
    (split; [reflexivity|]);
    (split; [split; [discriminate || done | intros (? & ? & ?); done || discriminate]|]);
    (split; [split; [discriminate || (intros _; split; [done|tauto]) |
                     intros [? [?|[?|?]]]; done || discriminate]|]);
    (split; [intros; done || tauto|]);
    intros Hpy; (discriminate || (rewrite (Hoff Hpy) in *; discriminate)).
Qed.

Lemma vm_loop vms fix_issues results :
  fold_left
    (fun results entry =>
       match entry with
       | ReadableVm vm =>
           match check_single vm fix_issues with
           | Some result => results ++ [result]
           | None => results
           end
       | RaisingVm vmname e =>
           results ++ [mkCheckResult ("VM Config: " +:+ vmname) "WARN"
                         ("Could not check: " +:+ e) []]
       end) vms results =
  results ++ omap (fun entry =>
                     match entry with
                     | ReadableVm vm => check_single vm fix_issues
                     | RaisingVm vmname e =>
                         Some (mkCheckResult ("VM Config: " +:+ vmname) "WARN"
                                 ("Could not check: " +:+ e) [])
                     end) vms.
Proof.
  revert results. induction vms as [|entry vms IH]; intros results.
  - by rewrite app_nil_r.
  - cbn [fold_left omap list_omap]. rewrite IH. destruct entry as [vm|vmname e].
    + destruct (check_single vm fix_issues); [|done]. by rewrite <- app_assoc.
    + by rewrite <- app_assoc.
Qed.

Lemma check_single_statuses vm fix_issues c :
  check_single vm fix_issues = Some c →
  ConfigFunctions.should_skip_vm (vm_name vm) = false ∧
  (status c = "PASS" ∨ status c = "FAIL" ∨ status c = "FIXED").
Proof.
  unfold check_single, check_single_vm_configuration.
  destruct (ConfigFunctions.should_skip_vm (vm_name vm)); [done|].
  destruct (read_options vm) as [[uuid_action type_delay] autolock].
  repeat match goal with
  | |- context [VsphereChecks.check_option ?a ?b ?c ?d ?e ?f ?g ?h ?i ?j] =>
      destruct (VsphereChecks.check_option a b c d e f g h i j) as [? ?]
  end.
  repeat match goal with
  | |- context [match ?l with [] => _ | _ :: _ => _ end] => destruct l
  | |- context [if ?b then _ else _] => destruct b
  end; intros [= <-]; cbn [status]; auto.
Qed.


End VmConfiguration.

Lemma vm_configuration_status_witness :
  let vm := mkVM "core-a" (Some (mkVMConfig [("uuid.action", "create")]
                                   (Some "ubuntu64Guest"))) in
  let reconfig := fun (_ : VM) key (_ : string) => bool_decide (key = "uuid.action") in
  ∃ c, check_single_vm_configuration true (fun _ _ => true) reconfig vm true = Some c ∧
       status c = "FIXED".
Proof.
  intros vm reconfig.
  destruct (proj2 (vm_configuration_status true (fun _ _ => true) reconfig vm true) eq_refl)
    as (c & Hc & _ & _ & Hfixed & _).
  exists c. split; [exact Hc|]. apply Hfixed. split; [done|]. by left.
Defined.


End VsphereSpec.

(** ** Text operations and the system-VM filter *)

Module PyStrSpec.
Import PyStr.

Lemma str_append_assoc (s1 s2 s3 : string) : (s1 +:+ s2) +:+ s3 = s1 +:+ s2 +:+ s3.
Proof.
  induction s1 as [|a s1 IH]; [done|].
  change (String a ((s1 +:+ s2) +:+ s3) = String a (s1 +:+ s2 +:+ s3)).
  by rewrite IH.
Qed.

Lemma startswith_spec prefix s :
  startswith prefix s = true ↔ ∃ rest, s = prefix +:+ rest.
Proof.
  revert s. induction prefix as [|a prefix IH]; intros s.
  - split; [|done]. intros _. by exists s.
  - destruct s as [|b s]; cbn [startswith].
    + split; [done|]. intros (rest & H). discriminate.
    + rewrite andb_true_iff, bool_decide_eq_true, IH. split.
      * intros [-> (rest & ->)]. by exists rest.
      * intros (rest & H). injection H as -> ->. split; [done|]. by exists rest.
Qed.

Lemma contains_spec pattern s :
  contains pattern s = true ↔ ∃ before after, s = before +:+ pattern +:+ after.
Proof.
  induction s as [|b s IH]; cbn [contains]; rewrite orb_true_iff, startswith_spec.
  - split.
    + intros [(rest & H)|?]; [|done]. by exists "", rest.
    + intros (before & after & H). left. destruct before; [by exists after|done].
  - rewrite IH. split.
    + intros [(rest & H)|(before & after & ->)].
      * by exists "", rest.
      * by exists (String b before), after.
    + intros (before & after & H). destruct before as [|a before].
      * left. by exists after.
      * right. injection H as -> ->. by exists before, after.
Qed.

Lemma len_append (s1 s2 : string) : len (s1 +:+ s2) = len s1 + len s2.
Proof.
  induction s1 as [|a s1 IH]; [done|].
  change (S (len (s1 +:+ s2)) = S (len s1 + len s2)). by rewrite IH.
Qed.

Lemma len_take n s : len (take n s) = n `min` len s.
Proof.
  revert s. induction n as [|n IH]; intros [|a s]; try done.
  change (S (len (take n s)) = S (n `min` len s)). by rewrite IH.
Qed.

Lemma len_drop n s : len (drop n s) = len s - n.
Proof.
  revert s. induction n as [|n IH]; intros [|a s]; try done.
  apply IH.
Qed.

Lemma take_append n s1 s2 : len s1 = n → take n (s1 +:+ s2) = s1.
Proof.
  revert s1. induction n as [|n IH]; intros [|a s1] Hlen; try done.
  change (String a (take n (s1 +:+ s2)) = String a s1). rewrite IH; [done|].
  by injection Hlen.
Qed.

Lemma drop_append n s1 s2 : len s1 = n → drop n (s1 +:+ s2) = s2.
Proof.
  revert s1. induction n as [|n IH]; intros [|a s1] Hlen; try done.
  change (drop n (s1 +:+ s2) = s2). apply IH. by injection Hlen.
Qed.

Lemma ascii_text_decide s :
  forallb (fun a => Ascii.nat_of_ascii a <? 128)%nat (String.list_ascii_of_string s) = true →
  ascii_text s.
Proof.
  unfold ascii_text. induction (String.list_ascii_of_string s) as [|a l IH]; [done|].
  cbn [forallb]. intros [Ha Hl]%andb_true_iff. constructor; [|by apply IH].
  by apply Nat.ltb_lt.
Qed.

(** X9. A VM is skipped as a system VM exactly when its name contains one
    of the two skip patterns, anywhere and in the pattern's letter case: the
    empty name is not skipped, and whatever is put before or after a skipped
    name is skipped too. *)
Theorem should_skip_vm_substring (vm_name : string) :
  (ConfigFunctions.should_skip_vm vm_name = true ↔
     ∃ before after,
       vm_name = before +:+ "vcf-services-platform-template-" +:+ after ∨
       vm_name = before +:+ "SupervisorControlPlaneVM" +:+ after) ∧
  (∀ before after,
     ConfigFunctions.should_skip_vm vm_name = true →
     ConfigFunctions.should_skip_vm (before +:+ vm_name +:+ after) = true) ∧
  ConfigFunctions.should_skip_vm "" = false.
Proof.
  assert (Hiff : ∀ n, ConfigFunctions.should_skip_vm n = true ↔
     ∃ before after,
       n = before +:+ "vcf-services-platform-template-" +:+ after ∨
       n = before +:+ "SupervisorControlPlaneVM" +:+ after).
  { intros n. unfold ConfigFunctions.should_skip_vm, ConfigFunctions.SKIP_VM_PATTERNS.
    cbn [existsb]. rewrite orb_false_r, orb_true_iff, !contains_spec. split.
    - intros [(b & a & H)|(b & a & H)]; exists b, a; [by left|by right].
    - intros (b & a & [H|H]); [left|right]; by exists b, a. }
  split; [apply Hiff|]. split; [|reflexivity].
  intros before after. rewrite !Hiff. intros (b & a & [-> | ->]).
  - exists (before +:+ b), (a +:+ after). left. by rewrite !str_append_assoc.
  - exists (before +:+ b), (a +:+ after). right. by rewrite !str_append_assoc.
Qed.

Lemma should_skip_vm_substring_witness :
  ConfigFunctions.should_skip_vm "prod-SupervisorControlPlaneVM (2)" = true.
Proof.
  apply (proj1 (proj2 (should_skip_vm_substring "SupervisorControlPlaneVM"))
           "prod-" " (2)").
  reflexivity.
Defined.

End PyStrSpec.

(** ** Linux machines and password expiration *)

Module LinuxSpec.
Import Base LinuxChecks.

Lemma check_ssh_access_name hostname lsf :
  name (check_ssh_access hostname lsf) = "SSH: " +:+ hostname.
Proof.
  unfold check_ssh_access. destruct lsf as [l|]; [|done].
  destruct (test_ping l hostname); [|done].
  destruct (test_tcp_port l hostname 22); [|done].
  destruct (ssh_hostname l hostname) as [rc err].
  by destruct (bool_decide (rc = 0%Z)).
Qed.

Lemma check_ssh_access_status hostname l :
  let c := check_ssh_access hostname (Some l) in
  (status c = "PASS" ↔
     test_ping l hostname = true ∧ test_tcp_port l hostname 22 = true ∧
     (ssh_hostname l hostname).1 = 0%Z) ∧
  (status c = "FAIL" ↔
     test_ping l hostname = true ∧ test_tcp_port l hostname 22 = true ∧
     (ssh_hostname l hostname).1 ≠ 0%Z) ∧
  (status c = "WARN" ↔
     test_ping l hostname = false ∨ test_tcp_port l hostname 22 = false).
Proof.
  unfold check_ssh_access.
  destruct (test_ping l hostname); cbn [negb].
  2: { cbn [status]. repeat split; try discriminate; try tauto.
       all: intros (? & ?); discriminate. }
  destruct (test_tcp_port l hostname 22); cbn [negb].
  2: { cbn [status]. repeat split; try discriminate; try tauto.
       all: intros (? & ? & ?); discriminate. }
  destruct (ssh_hostname l hostname) as [rc err]. cbn [fst].
  case_bool_decide as Hrc; cbn [status].
  - repeat split; try discriminate; try done.
    + intros (_ & _ & H). done.
    + intros [?|?]; discriminate.
  - repeat split; try discriminate; try done.
    + intros (_ & _ & H). done.
    + intros [?|?]; discriminate.
Qed.

(** X10. Checking a non-empty list of Linux hosts gives one result for each
    host, in the order of the list and named after the host, duplicates
    included.  Without lsfunctions every result is SKIPPED.  With it, a
    host's result is PASS exactly when the host answers the ping, port 22
    answers and the command run over SSH returns 0; it is FAIL exactly when
    ping and port answer and the command returns another code; a host that
    does not answer the ping or whose port 22 is closed is WARN, never
    FAIL.  The empty list gives the one SKIPPED marker. *)
Theorem linux_machines_results (hosts : list string) (lsf : option Lsf) :
  (hosts = [] →
   check_linux_machines hosts lsf =
     [mkCheckResult "Linux Checks" "SKIPPED" "No Linux hosts to check" []]) ∧
  (hosts ≠ [] →
   check_linux_machines hosts lsf = (fun h => check_ssh_access h lsf) <$> hosts ∧
   name <$> check_linux_machines hosts lsf = (fun h => "SSH: " +:+ h) <$> hosts ∧
   (lsf = None →
    Forall (fun c => status c = "SKIPPED") (check_linux_machines hosts lsf)) ∧
   (∀ l i h c,
      lsf = Some l → hosts !! i = Some h →
      check_linux_machines hosts lsf !! i = Some c →
      (status c = "PASS" ↔
         test_ping l h = true ∧ test_tcp_port l h 22 = true ∧
         (ssh_hostname l h).1 = 0%Z) ∧
      (status c = "FAIL" ↔
         test_ping l h = true ∧ test_tcp_port l h 22 = true ∧
         (ssh_hostname l h).1 ≠ 0%Z) ∧
      (status c = "WARN" ↔
         test_ping l h = false ∨ test_tcp_port l h 22 = false))).
Proof.
  split; [by intros ->|]. intros Hne.
  assert (Hall : check_linux_machines hosts lsf =
                 (fun h => check_ssh_access h lsf) <$> hosts).
  { unfold check_linux_machines. destruct hosts as [|h hosts]; [done|].
    by rewrite (Loops.append_loop (fun h => check_ssh_access h lsf)). }
  rewrite Hall. split; [done|]. split; [|split].
  - rewrite <- list_fmap_compose. apply list_fmap_ext.
    intros i h _. apply check_ssh_access_name.
  - intros ->. apply Forall_fmap, Forall_forall. by intros h _.
  - intros l i h c -> Hi Hc. rewrite list_lookup_fmap, Hi in Hc.
    injection Hc as <-. apply check_ssh_access_status.
Qed.

Section PasswordExpiration.
Variable get_password_expiration_days : string -> string -> option Z.

Let check_single := check_single_password_expiration get_password_expiration_days.

(** X11. The password check of an account is PASS exactly when the
    password never expires (or its expiration cannot be read) or expires in
    730 days or more, and FAIL otherwise: it is never WARN, and the
    threshold of 1095 days changes neither the status nor the message.  A
    password already expired is reported with the number of days since. *)
Theorem password_expiration_status (hostname username : string) :
  let c := check_single hostname username in
  let days := get_password_expiration_days hostname username in
  name c = "Password: " +:+ hostname +:+ " (" +:+ username +:+ ")" ∧
  (status c = "PASS" ↔ days = None ∨ ∃ d, days = Some d ∧ (730 ≤ d)%Z) ∧
  (status c = "FAIL" ↔ ∃ d, days = Some d ∧ (d < 730)%Z) ∧
  (∀ d, days = Some d → (730 ≤ d)%Z →
     message c = "Expires in " +:+ pretty d +:+ " days (" +:+ pretty (d / 365)%Z +:+
                 " years)") ∧
  (∀ d, days = Some d → (0 ≤ d < 730)%Z →
     message c = "Expires in " +:+ pretty d +:+ " days - TOO SOON") ∧
  (∀ d, days = Some d → (d < 0)%Z →
     message c = "Password EXPIRED " +:+ pretty (- d)%Z +:+ " days ago").
Proof.
  unfold check_single, check_single_password_expiration.
  unfold ConfigFunctions.PASSWORD_EXPIRE_PASS_DAYS, ConfigFunctions.PASSWORD_EXPIRE_WARN_DAYS.
  cbv zeta. destruct (get_password_expiration_days hostname username) as [d|].
  2: { cbn [name status message]. repeat split; try done; try (by left).
       by intros (d & ? & _). }
  repeat case_bool_decide; cbn [name status message].
  all: repeat split; try done; try lia.
  all: try (intros [?|(d' & [= <-] & ?)]; done || lia).
  all: try (intros (d' & [= <-] & ?); done || lia).
  all: try (intros _; right; exists d; split; [done|lia]).
  all: try (intros _; exists d; split; [done|lia]).
  all: try (intros d' [= <-] ?; done || lia).
  all: try (intros d' [= <-] ?; rewrite Z.abs_neq by lia; done).
Qed.

End PasswordExpiration.

Lemma linux_machines_results_witness :
  let lsf := mkLsf (fun h => bool_decide (h = "esx-01a.site-a.vcf.lab"))
                   (fun _ _ => true) (fun _ => (0%Z, "")) in
  let hosts := ["esx-01a.site-a.vcf.lab"; "vc-mgmt-a.site-a.vcf.lab"] in
  name <$> check_linux_machines hosts (Some lsf)
    = ["SSH: esx-01a.site-a.vcf.lab"; "SSH: vc-mgmt-a.site-a.vcf.lab"] ∧
  (status <$> check_linux_machines hosts (Some lsf)) !! 1 = Some "WARN".
Proof.
  intros lsf hosts.
  assert (Hne : hosts ≠ []) by done.
  destruct (proj2 (linux_machines_results hosts (Some lsf)) Hne) as (_ & Hnames & _ & Hst).
  split; [exact Hnames|].
  destruct (check_linux_machines hosts (Some lsf) !! 1) as [c|] eqn:Hc; [|discriminate Hc].
  rewrite list_lookup_fmap, Hc. cbn [fmap option_fmap option_map]. f_equal.
  apply (Hst lsf 1 "vc-mgmt-a.site-a.vcf.lab" c eq_refl eq_refl Hc). by left.
Defined.

Lemma password_expiration_status_witness :
  message (check_single_password_expiration (fun _ _ => Some 800%Z) "esx-01a" "root")
    = "Expires in 800 days (2 years)".
Proof.
  refine (proj1 (proj2 (proj2 (proj2
    (password_expiration_status (fun _ _ => Some 800%Z) "esx-01a" "root")))) 800%Z eq_refl _).
  lia.
Defined.

End LinuxSpec.

(** ** NTP configuration of the ESXi hosts *)

Module NtpSpec.
Import Base NtpChecks.

Lemma find_ntpd_none host d l :
  Forall (fun s => key s ≠ "ntpd") l → find_ntpd host d l = d.
Proof.
  induction 1 as [|s l Hs _ IH]; [done|].
  cbn [find_ntpd]. by rewrite bool_decide_eq_false_2.
Qed.

Lemma find_ntpd_first host d pre s post :
  Forall (fun s => key s ≠ "ntpd") pre → key s = "ntpd" →
  find_ntpd host d (pre ++ s :: post) =
    mkNtpData (ntp_hostname d) (running s) (policy s)
      match ntp_servers host with
      | Some (server :: _) => server
      | _ => ntp_server d
      end.
Proof.
  intros Hpre Hs. induction Hpre as [|s0 pre Hs0 _ IH].
  - cbn [app find_ntpd]. rewrite bool_decide_eq_true_2 by done.
    by destruct (ntp_servers host) as [[|server rest]|].
  - cbn [app find_ntpd]. by rewrite bool_decide_eq_false_2.
Qed.

Lemma first_ntpd (l : list Service) :
  Forall (fun s => key s ≠ "ntpd") l ∨
  ∃ pre s post, l = pre ++ s :: post ∧
    Forall (fun s => key s ≠ "ntpd") pre ∧ key s = "ntpd".
Proof.
  induction l as [|s0 l IH]; [by left|].
  destruct (decide (key s0 = "ntpd")) as [H0|H0].
  - right. by exists [], s0, l.
  - destruct IH as [IH|(pre & s & post & -> & Hpre & Hs)].
    + left. by constructor.
    + right. exists (s0 :: pre), s, post. split; [done|]. split; [by constructor|done].
Qed.

Lemma check_single_host_ntp_status host :
  let c := check_single_host_ntp host in
  let ntp_config := get_ntp_config host in
  name c = "NTP: " +:+ host_name host ∧
  (status c = "PASS" ↔
     ntp_running ntp_config = true ∧ ntp_policy ntp_config = "on" ∧
     ntp_server ntp_config ≠ "") ∧
  (status c ≠ "PASS" → status c = "WARN") ∧
  (status c = "PASS" →
   message c = "NTP configured correctly (server: " +:+ ntp_server ntp_config +:+ ")").
Proof.
  unfold check_single_host_ntp. cbv zeta.
  destruct (ntp_running (get_ntp_config host)); cbn [negb app];
    repeat case_bool_decide; cbn [negb app name status message];
    repeat split; try done; try discriminate; try tauto.
  all: intros (? & ? & ?); done || discriminate.
Qed.

(** X12. The NTP check of a host looks at the first service with the key
    ntpd and at the first configured NTP server only.  Its result is PASS
    exactly when that service is running with the policy on and the first
    server is a non-empty name, and its message then names that server; in
    every other case, also when the host has no ntpd service or its
    configuration cannot be read, the result is WARN.  It is never FAIL. *)
Theorem ntp_host_status (host : EsxHost) :
  let c := check_single_host_ntp host in
  name c = "NTP: " +:+ host_name host ∧
  (status c = "PASS" ↔
     ∃ pre s post server rest,
       services host = Some (pre ++ s :: post) ∧
       Forall (fun s => key s ≠ "ntpd") pre ∧ key s = "ntpd" ∧
       running s = true ∧ policy s = "on" ∧
       ntp_servers host = Some (server :: rest) ∧ server ≠ "") ∧
  (status c ≠ "PASS" → status c = "WARN") ∧
  (∀ pre s post server rest,
     services host = Some (pre ++ s :: post) →
     Forall (fun s => key s ≠ "ntpd") pre → key s = "ntpd" →
     ntp_servers host = Some (server :: rest) →
     status c = "PASS" →
     message c = "NTP configured correctly (server: " +:+ server +:+ ")").
Proof.
  cbv zeta.
  destruct (check_single_host_ntp_status host) as (Hname & Hpass & Hwarn & Hmsg).
  cbv zeta in Hpass, Hmsg.
  split; [done|]. split; [|split; [done|]].
  - rewrite Hpass. unfold get_ntp_config. split.
    + destruct (services host) as [l|]; [|by intros (? & _)].
      destruct (first_ntpd l) as [Hno|(pre & s & post & -> & Hpre & Hs)].
      * rewrite find_ntpd_none by done. by intros (? & _).
      * rewrite find_ntpd_first by done. cbn [ntp_running ntp_policy ntp_server].
        destruct (ntp_servers host) as [[|server rest]|];
          intros (Hrun & Hpol & Hsrv); try done.
        by exists pre, s, post, server, rest.
    + intros (pre & s & post & server & rest & -> & Hpre & Hs & Hrun & Hpol & Hl & Hsrv).
      rewrite find_ntpd_first by done. by rewrite Hl.
  - intros pre s post server rest Hsv Hpre Hs Hsrv Hst.
    rewrite (Hmsg Hst). unfold get_ntp_config. rewrite Hsv.
    rewrite find_ntpd_first by done. by rewrite Hsrv.
Qed.

Lemma ntp_loop hosts results :
  fold_left
    (fun results entry =>
       match entry with
       | ReadableHost host => results ++ [check_single_host_ntp host]
       | RaisingHost hostname e =>
           results ++ [mkCheckResult ("NTP: " +:+ hostname) "FAIL"
                         ("Failed to check NTP: " +:+ e) []]
       end) hosts results =
  results ++ ((fun entry =>
                 match entry with
                 | ReadableHost host => check_single_host_ntp host
                 | RaisingHost hostname e =>
                     mkCheckResult ("NTP: " +:+ hostname) "FAIL"
                       ("Failed to check NTP: " +:+ e) []
                 end) <$> hosts).
Proof.
  revert results. induction hosts as [|entry hosts IH]; intros results.
  - by rewrite app_nil_r.
  - cbn [fold_left fmap list_fmap]. rewrite IH.
    destruct entry; by rewrite <- app_assoc.
Qed.


Lemma ntp_host_status_witness :
  let host := mkEsxHost "esx-01a.site-a.vcf.lab"
                (Some [mkService "sshd" true "on"; mkService "ntpd" true "on";
                       mkService "ntpd" false "off"])
                (Some ["ntp.vcf.lab"; ""]) in
  message (check_single_host_ntp host) = "NTP configured correctly (server: ntp.vcf.lab)".
Proof.
  intros host.
  refine (proj2 (proj2 (proj2 (ntp_host_status host)))
            [mkService "sshd" true "on"] (mkService "ntpd" true "on")
            [mkService "ntpd" false "off"] "ntp.vcf.lab" [""]
            eq_refl _ eq_refl eq_refl eq_refl).
  by repeat constructor.
Defined.


End NtpSpec.

(** ** Licenses *)

Module LicenseSpec.
Import Base PyStr PyStrSpec LicenseChecks.

Lemma mask_long (license_key : string) :
  10 < len license_key →
  mask_license_key license_key =
    take 5 license_key +:+ "-****-****-****-" +:+
    drop (len license_key - 5) license_key.
Proof. intros H. unfold mask_license_key. by rewrite bool_decide_eq_true_2. Qed.

Lemma mask_short (license_key : string) :
  (len license_key ≤ 10)%nat → mask_license_key license_key = license_key.
Proof. intros H. unfold mask_license_key. rewrite bool_decide_eq_false_2; [done|lia]. Qed.

(** X15. Masking a license key of ASCII characters with more than ten
    characters gives 26 characters: the first five and the last five of the
    key around a fixed filling, so that two keys with the same ends are
    masked alike.  A key of at most ten characters is not masked at all.
    Masking a masked key changes nothing. *)
Theorem mask_license_key_ends (license_key : string) :
  ascii_text license_key →
  ((len license_key ≤ 10)%nat → mask_license_key license_key = license_key) ∧
  (10 < len license_key →
   len (mask_license_key license_key) = 26 ∧
   take 5 (mask_license_key license_key) = take 5 license_key ∧
   take 16 (drop 5 (mask_license_key license_key)) = "-****-****-****-" ∧
   drop 21 (mask_license_key license_key) = drop (len license_key - 5) license_key ∧
   ∀ other,
     ascii_text other → 10 < len other →
     take 5 other = take 5 license_key →
     drop (len other - 5) other = drop (len license_key - 5) license_key →
     mask_license_key other = mask_license_key license_key) ∧
  mask_license_key (mask_license_key license_key) = mask_license_key license_key.
Proof.
  intros _.
  assert (Hlong : 10 < len license_key →
    len (take 5 license_key) = 5 ∧ len (drop (len license_key - 5) license_key) = 5).
  { intros H. rewrite len_take, len_drop. lia. }
  split; [apply mask_short|]. split.
  - intros H. destruct (Hlong H) as [H5 H5']. rewrite (mask_long _ H).
    split; [|split; [|split; [|split]]].
    + rewrite !len_append, H5, H5'. done.
    + by rewrite take_append.
    + rewrite drop_append by done. by rewrite take_append.
    + rewrite <- str_append_assoc. rewrite drop_append; [done|].
      rewrite len_append, H5. done.
    + intros other _ Ho Ht Hd. rewrite (mask_long _ Ho). by rewrite Ht, Hd.
  - destruct (decide (10 < len license_key)) as [H|H]; [|by rewrite !(mask_short license_key) by lia].
    destruct (Hlong H) as [H5 H5'].
    assert (Hm : len (mask_license_key license_key) = 26).
    { rewrite (mask_long _ H), !len_append, H5, H5'. done. }
    rewrite (mask_long (mask_license_key license_key)) by lia. rewrite Hm.
    rewrite (mask_long _ H) at 1 2.
    rewrite take_append by done.
    change (26 - 5) with 21.
    rewrite <- (str_append_assoc (take 5 license_key) "-****-****-****-"
                  (drop (len license_key - 5) license_key)).
    rewrite drop_append; [|by rewrite len_append, H5].
    by rewrite (mask_long _ H).
Qed.

Section Licenses.
Variable Date : Type.
Variable date_str : Date -> string.
Variable months_until_at_least : Date -> Z -> bool.

Let expiration_status := get_license_expiration_status Date date_str months_until_at_least.
Let check_single := check_single_license Date date_str months_until_at_least.

(** X14. The result of a license is named after the license.  The
    evaluation key is FAIL whatever its date, and the details show it in
    full.  The details show any other key as [mask_license_key] gives it:
    of a key of more than ten characters only the first five and the last
    five around a fixed filling, a key of at most ten characters in full.
    A license without an expiration date is never PASS: it is WARN exactly
    when its name contains the vShield Endpoint product name and FAIL
    otherwise.  A dated license has the status of its expiration date: PASS
    from 9 months on, WARN from 3 months on, FAIL below. *)
Theorem license_status (license_key license_name entity_name : string)
    (exp_date : option Date) :
  let c := check_single license_key license_name entity_name exp_date in
  let evaluation := "00000-00000-00000-00000-00000" in
  name c = "License: " +:+ license_name ∧
  (license_key = evaluation →
   status c = "FAIL" ∧ dict_get (details c) "license_key" = Some (PStr license_key)) ∧
  (license_key ≠ evaluation →
   (ascii_text license_key →
    dict_get (details c) "license_key" = Some (PStr (mask_license_key license_key)) ∧
    (10 < len license_key →
     dict_get (details c) "license_key" =
       Some (PStr (take 5 license_key +:+ "-****-****-****-" +:+
                   drop (len license_key - 5) license_key))) ∧
    ((len license_key ≤ 10)%nat →
     dict_get (details c) "license_key" = Some (PStr license_key))) ∧
   (exp_date = None →
    (status c = "WARN" ↔ contains "NSX for vShield Endpoint" license_name = true) ∧
    (status c = "FAIL" ↔ contains "NSX for vShield Endpoint" license_name = false) ∧
    dict_get (details c) "expiration" = Some (PStr "Never")) ∧
   (∀ d, exp_date = Some d →
    (status c = "PASS" ↔ months_until_at_least d 9 = true) ∧
    (status c = "WARN" ↔
       months_until_at_least d 9 = false ∧ months_until_at_least d 3 = true) ∧
    (status c = "FAIL" ↔
       months_until_at_least d 9 = false ∧ months_until_at_least d 3 = false) ∧
    (status c, message c) = expiration_status d ∧
    dict_get (details c) "expiration" = Some (PStr (date_str d)))) ∧
  (status c = "PASS" →
   license_key ≠ evaluation ∧ ∃ d, exp_date = Some d ∧ months_until_at_least d 9 = true).
Proof.
  unfold check_single, check_single_license, expiration_status,
    get_license_expiration_status,
    ConfigFunctions.EXPIRATION_PASS_MONTHS, ConfigFunctions.EXPIRATION_WARN_MONTHS.
  cbv zeta. case_bool_decide as Hkey.
  - cbn [name status details]. split; [done|]. split; [|split; [done|discriminate]].
    intros _. split; [done|]. subst license_key. reflexivity.
  - split; [by destruct exp_date as [d|];
              [destruct (months_until_at_least d 9), (months_until_at_least d 3)|
               destruct (contains _ license_name)]|].
    split; [done|]. split.
    + intros _. split; [|split].
      * intros _.
        match goal with |- ?shown = ?masked ∧ _ => assert (Hd : shown = masked) end.
        { destruct exp_date as [d|];
            [by destruct (months_until_at_least d 9), (months_until_at_least d 3)|
             by destruct (contains _ license_name)]. }
        split; [exact Hd|]. split; intros Hlen; rewrite Hd.
        { by rewrite mask_long. }
        { by rewrite mask_short. }
      * intros ->. destruct (contains _ license_name); cbn [status details];
          repeat split; done || discriminate.
      * intros d ->.
        destruct (months_until_at_least d 9), (months_until_at_least d 3);
          cbn [status message details]; repeat split; try done; try discriminate;
          intros [? ?]; discriminate.
    + destruct exp_date as [d|].
      * destruct (months_until_at_least d 9) eqn:E9;
          [|by destruct (months_until_at_least d 3)].
        intros _. split; [done|]. by exists d.
      * by destruct (contains _ license_name).
Qed.

End Licenses.

Lemma mask_license_key_ends_witness :
  mask_license_key "AB12C-DE34F-GH56J-KL78M-NP90Q" = "AB12C-****-****-****-NP90Q" ∧
  len (mask_license_key "AB12C-DE34F-GH56J-KL78M-NP90Q") = 26.
Proof.
  split; [reflexivity|].
  refine (proj1 (proj1 (proj2 (mask_license_key_ends "AB12C-DE34F-GH56J-KL78M-NP90Q" _)) _)).
  - by apply ascii_text_decide.
  - cbn. lia.
Defined.

Lemma license_status_witness :
  let c := check_single_license unit (fun _ => "2027-12-30") (fun _ _ => false)
             "00000-00000-00000-00000-00000" "vSphere 8 Enterprise Plus" "esx-01a"
             (Some tt) in
  status c = "FAIL" ∧
  dict_get (details c) "license_key" = Some (PStr "00000-00000-00000-00000-00000").
Proof.
  exact (proj1 (proj2 (license_status unit (fun _ => "2027-12-30") (fun _ _ => false)
           "00000-00000-00000-00000-00000" "vSphere 8 Enterprise Plus" "esx-01a"
           (Some tt))) eq_refl).
Defined.

End LicenseSpec.

(** ** The lab year of a SKU *)

Module ConfigSpec.
Import PyStr PyStrSpec ConfigFunctions.

Lemma two_digits d1 d2 :
  is_digit d1 = true → is_digit d2 = true →
  int_of_digits (String d1 (String d2 "")) =
    Some (10 * digit_value d1 + digit_value d2)%Z.
Proof.
  intros H1 H2. unfold int_of_digits. cbn [int_digits]. by rewrite H1, H2.
Qed.

Lemma match_year_at_digits s year_part :
  match_year_at s = Some year_part →
  ∃ d1 d2, year_part = String d1 (String d2 "") ∧
           is_digit d1 = true ∧ is_digit d2 = true.
Proof.
  unfold match_year_at.
  destruct s as [|a [|d1 [|d2 [|d3 [|d4 rest]]]]]; try done.
  destruct (bool_decide (a = dash)); [|done]. cbn [andb].
  destruct (is_digit d1) eqn:E1; [|done].
  destruct (is_digit d2) eqn:E2; [|done]. cbn [andb].
  destruct (is_digit d3 && is_digit d4 && non_digit_or_end rest); [|done].
  intros [= <-]. by exists d1, d2.
Qed.

Lemma search_year_digits s year_part :
  search_year s = Some year_part →
  ∃ d1 d2, year_part = String d1 (String d2 "") ∧
           is_digit d1 = true ∧ is_digit d2 = true.
Proof.
  induction s as [|a s IH]; cbn [search_year].
  - done.
  - destruct (match_year_at (String a s)) as [y|] eqn:E; [|exact IH].
    intros [= <-]. by eapply match_year_at_digits.
Qed.

Lemma match_year_at_other a s : a ≠ dash → match_year_at (String a s) = None.
Proof.
  intros Ha. unfold match_year_at.
  destruct s as [|d1 [|d2 [|d3 [|d4 rest]]]]; try done.
  by rewrite bool_decide_eq_false_2.
Qed.

Lemma no_dash_first a s : contains "-" (String a s) = false → a ≠ dash ∧ contains "-" s = false.
Proof.
  cbn [contains startswith]. rewrite orb_false_iff, andb_true_r.
  intros [Ha Hs]. split; [|done]. apply bool_decide_eq_false in Ha.
  intros ->. by apply Ha.
Qed.

Lemma search_year_no_dash s : contains "-" s = false → search_year s = None.
Proof.
  induction s as [|a s IH]; [done|].
  intros [Ha Hs]%no_dash_first. cbn [search_year].
  rewrite match_year_at_other by done. by apply IH.
Qed.

Lemma search_year_first prefix d1 d2 d3 d4 rest :
  contains "-" prefix = false →
  is_digit d1 = true → is_digit d2 = true → is_digit d3 = true → is_digit d4 = true →
  non_digit_or_end rest = true →
  search_year (prefix +:+ "-" +:+ String d1 (String d2 (String d3 (String d4 rest)))) =
    Some (String d1 (String d2 "")).
Proof.
  intros Hp H1 H2 H3 H4 Hr. induction prefix as [|a prefix IH].
  - change (search_year (String dash (String d1 (String d2 (String d3 (String d4 rest))))) =
            Some (String d1 (String d2 ""))).
    cbn [search_year match_year_at].
    rewrite bool_decide_eq_true_2 by done. by rewrite H1, H2, H3, H4, Hr.
  - apply no_dash_first in Hp as [Ha Hp].
    change (search_year (String a (prefix +:+ "-" +:+
              String d1 (String d2 (String d3 (String d4 rest))))) =
            Some (String d1 (String d2 ""))).
    cbn [search_year]. rewrite match_year_at_other by done. by apply IH.
Qed.

Lemma get_lab_year_cases lab_sku :
  get_lab_year lab_sku = "27" ∨
  ∃ d1 d2, get_lab_year lab_sku = String d1 (String d2 "") ∧
    is_digit d1 = true ∧ is_digit d2 = true ∧
    (20 ≤ 10 * digit_value d1 + digit_value d2 ≤ 35)%Z.
Proof.
  unfold get_lab_year. cbv zeta.
  destruct (bool_decide (lab_sku = "") || bool_decide (len lab_sku < 4)); [by left|].
  destruct (search_year lab_sku) as [year_part|] eqn:E;
    [|left; by destruct (search_beta lab_sku)].
  destruct (search_year_digits _ _ E) as (d1 & d2 & -> & H1 & H2).
  rewrite (two_digits _ _ H1 H2).
  case_bool_decide as Hlo; cbn [andb]; [|left; by destruct (search_beta lab_sku)].
  case_bool_decide as Hhi; [|left; by destruct (search_beta lab_sku)].
  right. exists d1, d2. repeat split; done.
Qed.

(** X16. For every SKU of ASCII characters the lab year is a text of two
    digits whose number lies between 20 and 35, so that the expiration
    dates are always computed: they are December 30 of the year 2000 plus
    that number and December 31 of the year after. *)
Theorem lab_year_range (lab_sku : string) :
  ascii_text lab_sku →
  ∃ y, int_of_digits (get_lab_year lab_sku) = Some y ∧
       (20 ≤ y ≤ 35)%Z ∧
       len (get_lab_year lab_sku) = 2 ∧
       get_expiration_dates lab_sku =
         Some (mkDate (2000 + y) 12 30, mkDate (2001 + y) 12 31).
Proof.
  intros _. unfold get_expiration_dates. cbv zeta.
  destruct (get_lab_year_cases lab_sku) as [-> | (d1 & d2 & -> & H1 & H2 & Hy)].
  - exists 27%Z. repeat split; done.
  - exists (10 * digit_value d1 + digit_value d2)%Z.
    rewrite (two_digits _ _ H1 H2). repeat split; try done; try lia.
    do 2 f_equal; f_equal; lia.
Qed.

(** X17. In a SKU of ASCII characters only the first hyphen followed by
    exactly four digits counts.  When no hyphen stands before it, the lab
    year is the first two of the four digits if their number lies between
    20 and 35, and 27 otherwise.  A SKU without a hyphen has the lab year
    27. *)
Theorem lab_year_standard (prefix rest : string) (d1 d2 d3 d4 : Ascii.ascii) :
  let lab_sku := prefix +:+ "-" +:+ String d1 (String d2 (String d3 (String d4 rest))) in
  let y := (10 * digit_value d1 + digit_value d2)%Z in
  ascii_text lab_sku →
  contains "-" prefix = false →
  is_digit d1 = true → is_digit d2 = true → is_digit d3 = true → is_digit d4 = true →
  non_digit_or_end rest = true →
  ((20 ≤ y ≤ 35)%Z → get_lab_year lab_sku = String d1 (String d2 "")) ∧
  (¬ (20 ≤ y ≤ 35)%Z → get_lab_year lab_sku = "27") ∧
  get_lab_year prefix = "27".
Proof.
  intros lab_sku y _ Hp H1 H2 H3 H4 Hr.
  assert (Hlen : len lab_sku = len prefix + 5 + len rest).
  { unfold lab_sku. rewrite !len_append. cbn [len String.length]. fold (len rest). lia. }
  assert (Hlong : bool_decide (lab_sku = "") || bool_decide (len lab_sku < 4) = false).
  { apply orb_false_iff. split; apply bool_decide_eq_false.
    - intros H. rewrite H in Hlen. cbn in Hlen. lia.
    - lia. }
  assert (Hsearch : search_year lab_sku = Some (String d1 (String d2 ""))).
  { by apply search_year_first. }
  split; [|split].
  - intros Hy. unfold get_lab_year. cbv zeta. rewrite Hlong, Hsearch.
    rewrite (two_digits _ _ H1 H2). fold y.
    rewrite !bool_decide_eq_true_2 by lia. done.
  - intros Hy. unfold get_lab_year. cbv zeta. rewrite Hlong, Hsearch.
    rewrite (two_digits _ _ H1 H2). fold y.
    destruct (decide (20 ≤ y)%Z) as [Hlo|Hlo].
    + rewrite (bool_decide_eq_true_2 _ Hlo). rewrite bool_decide_eq_false_2 by lia.
      by destruct (search_beta lab_sku).
    + rewrite (bool_decide_eq_false_2 _ Hlo). by destruct (search_beta lab_sku).
  - unfold get_lab_year. cbv zeta.
    destruct (bool_decide (prefix = "") || bool_decide (len prefix < 4)); [done|].
    rewrite search_year_no_dash by done. by destruct (search_beta prefix).
Qed.

Lemma lab_year_range_witness :
  ∃ y, int_of_digits (get_lab_year "HOL-2701") = Some y ∧
       (20 ≤ y ≤ 35)%Z ∧
       len (get_lab_year "HOL-2701") = 2 ∧
       get_expiration_dates "HOL-2701" =
         Some (mkDate (2000 + y) 12 30, mkDate (2001 + y) 12 31).
Proof.
  apply (lab_year_range "HOL-2701"). by apply ascii_text_decide.
Defined.

Lemma lab_year_standard_witness :
  get_lab_year "ATE-2505-beta" = "25" ∧ get_lab_year "HOL-1901" = "27".
Proof.
  split.
  - refine (proj1 (lab_year_standard "ATE" "-beta"
              (Ascii.ascii_of_nat 50) (Ascii.ascii_of_nat 53)
              (Ascii.ascii_of_nat 48) (Ascii.ascii_of_nat 53) _ _ _ _ _ _ _) _);
      try reflexivity; [by apply ascii_text_decide|].
    change (20 ≤ 25 ≤ 35)%Z. lia.
  - refine (proj1 (proj2 (lab_year_standard "HOL" ""
              (Ascii.ascii_of_nat 49) (Ascii.ascii_of_nat 57)
              (Ascii.ascii_of_nat 48) (Ascii.ascii_of_nat 49) _ _ _ _ _ _ _)) _);
      try reflexivity; [by apply ascii_text_decide|].
    change (¬ (20 ≤ 19 ≤ 35)%Z). lia.
Defined.

End ConfigSpec.

(** ** Clusters and ESXi builds *)

Module InventorySpec.
Import Base VsphereChecks.

Lemma cluster_loop (view : list Cluster) (results : list CheckResult) :
  fold_left
    (fun results cluster =>
       (results ++ [check_cluster_drs cluster]) ++ [check_cluster_ha cluster])
    view results =
  results ++ (view ≫= (fun c => [check_cluster_drs c; check_cluster_ha c])).
Proof.
  revert results. induction view as [|c view IH]; intros results.
  - by rewrite app_nil_r.
  - cbn [fold_left]. rewrite IH. rewrite bind_cons. by rewrite <- !app_assoc.
Qed.

Lemma clusters_loop (sis : list (Read (list Cluster))) (results : list CheckResult) :
  fold_left
    (fun results si =>
       match si with
       | Value view =>
           fold_left
             (fun results cluster =>
                (results ++ [check_cluster_drs cluster]) ++ [check_cluster_ha cluster])
             view results
       | Error e =>
           results ++ [mkCheckResult "Cluster Checks" "WARN"
                         ("Could not check clusters: " +:+ e) []]
       end)
    sis results =
  results ++
  (sis ≫= (fun si =>
     match si with
     | Value view => view ≫= (fun c => [check_cluster_drs c; check_cluster_ha c])
     | Error e => [mkCheckResult "Cluster Checks" "WARN"
                     ("Could not check clusters: " +:+ e) []]
     end)).
Proof.
  revert results. induction sis as [|si sis IH]; intros results.
  - by rewrite app_nil_r.
  - rewrite bind_cons, app_assoc. destruct si as [view|e]; cbn [fold_left].
    + rewrite cluster_loop. apply IH.
    + apply IH.
Qed.

Lemma host_loop (view : list BuildHost) builds :
  fold_left
    (fun builds host =>
       match product host with
       | Some (version, build) =>
           builds_append builds (full_build_of version build) (build_host_name host)
       | None => builds
       end) view builds =
  group (readable_hosts [Value view]) builds.
Proof.
  unfold readable_hosts. cbn [mbind list_bind]. rewrite app_nil_r.
  revert builds. induction view as [|h view IH]; intros builds; [done|].
  cbn [fold_left omap list_omap]. rewrite IH.
  by destruct (product h) as [[version build]|].
Qed.

Lemma builds_append_keys builds k n :
  (builds_append builds k n).*1 =
    if bool_decide (k ∈ builds.*1) then builds.*1 else builds.*1 ++ [k].
Proof.
  induction builds as [|[k' hosts] builds IH]; [done|].
  cbn [builds_append]. destruct (decide (k' = k)) as [->|Hk].
  - rewrite (bool_decide_eq_true_2 (k = k)) by done.
    cbn [fmap list_fmap fst]. rewrite bool_decide_eq_true_2; [done|].
    by left.
  - rewrite (bool_decide_eq_false_2 (k' = k)) by done.
    cbn [fmap list_fmap fst]. rewrite IH.
    destruct (decide (k ∈ builds.*1)) as [Hin|Hin].
    + rewrite !bool_decide_eq_true_2; [done| |done]. by right.
    + rewrite !bool_decide_eq_false_2; [done| |done].
      intros [?|?]%elem_of_cons; [by subst|done].
Qed.

Lemma builds_append_NoDup builds k n :
  NoDup builds.*1 → NoDup (builds_append builds k n).*1.
Proof.
  intros H. rewrite builds_append_keys. case_bool_decide as Hk; [done|].
  apply NoDup_app. split; [done|]. split; [|apply NoDup_singleton].
  intros x Hx ->%list_elem_of_singleton. done.
Qed.

Lemma builds_append_elem builds k n x :
  x ∈ (builds_append builds k n).*1 ↔ x ∈ builds.*1 ∨ x = k.
Proof.
  rewrite builds_append_keys. case_bool_decide as Hk.
  - split; [by left|]. intros [? | ->]; done.
  - rewrite elem_of_app, list_elem_of_singleton. done.
Qed.

Lemma builds_append_total builds k n :
  total (builds_append builds k n) = S (total builds).
Proof.
  unfold total. induction builds as [|[k' hosts] builds IH]; [done|].
  cbn [builds_append]. destruct (bool_decide (k' = k)).
  - cbn. rewrite length_app. cbn. lia.
  - cbn. cbn in IH. rewrite IH. lia.
Qed.

Lemma group_invariants l builds :
  NoDup builds.*1 →
  NoDup (group l builds).*1 ∧
  (∀ x, x ∈ (group l builds).*1 ↔ x ∈ builds.*1 ∨ x ∈ l.*1) ∧
  total (group l builds) = total builds + length l.
Proof.
  revert builds. induction l as [|[k n] l IH]; intros builds Hnd.
  - unfold group. cbn [fold_left length fmap list_fmap].
    split; [done|]. split; [|lia]. intros x. rewrite elem_of_nil. tauto.
  - cbn [group fold_left]. fold (group l (builds_append builds k n)).
    destruct (IH (builds_append builds k n)) as (H1 & H2 & H3);
      [by apply builds_append_NoDup|].
    split; [done|]. split.
    + intros x. rewrite H2, builds_append_elem. cbn [fmap list_fmap fst].
      rewrite elem_of_cons. tauto.
    + rewrite H3, builds_append_total. cbn [length]. lia.
Qed.

Lemma group_app l1 l2 builds : group (l1 ++ l2) builds = group l2 (group l1 builds).
Proof. unfold group. by rewrite fold_left_app. Qed.

Lemma builds_loop (sis : list (Read (list BuildHost))) results builds :
  fold_left
    (fun '(results, builds) si =>
       match si with
       | Value view =>
           (results,
            fold_left
              (fun builds host =>
                 match product host with
                 | Some (version, build) =>
                     builds_append builds (full_build_of version build)
                       (build_host_name host)
                 | None => builds
                 end)
              view builds)
       | Error e =>
           (results ++ [mkCheckResult "ESXi Build Checks" "WARN"
                          ("Could not check ESXi builds: " +:+ e) []],
            builds)
       end)
    sis (results, builds) =
  (results ++ (build_warning <$> view_errors sis), group (readable_hosts sis) builds).
Proof.
  revert results builds. induction sis as [|si sis IH]; intros results builds.
  - cbn. by rewrite app_nil_r.
  - destruct si as [view|e]; cbn [fold_left].
    + rewrite host_loop, IH. f_equal.
      assert (Hcons : readable_hosts (Value view :: sis) =
                readable_hosts [Value view] ++ readable_hosts sis).
      { unfold readable_hosts. cbn [mbind list_bind]. by rewrite app_nil_r. }
      by rewrite Hcons, group_app.
    + rewrite IH. f_equal. cbn [view_errors omap list_omap fmap list_fmap].
      by rewrite <- app_assoc.
Qed.

Lemma analyze_builds_cases (b : list (string * list string)) :
  ∃ verdict infos,
    analyze_builds b = verdict :: infos ∧
    name verdict = "ESXi Builds" ∧
    (status verdict = "SKIPPED" ↔ b = []) ∧
    (status verdict = "PASS" ↔ ∃ k v, b = [(k, v)]) ∧
    (status verdict = "WARN" ↔ ∃ x y rest, b = x :: y :: rest) ∧
    (∀ k v, b = [(k, v)] →
       message verdict =
         "All " +:+ pretty (length v) +:+ " hosts are running " +:+ k ∧
       dict_get (details verdict) "host_count" = Some (PInt (Z.of_nat (length v)))) ∧
    (status verdict ≠ "WARN" → infos = []) ∧
    (status verdict = "WARN" →
       name <$> infos = (fun k => "ESXi Build: " +:+ k) <$> b.*1 ∧
       Forall (fun c => status c = "INFO") infos).
Proof.
  destruct b as [|[k v] [|[k2 v2] rest]]; cbn [analyze_builds]; eexists _, _;
    (split; [reflexivity|]); cbn [name status message details];
    (split; [reflexivity|]).
  - split; [done|]. split; [split; [done|by intros (? & ? & ?)]|].
    split; [split; [done|by intros (? & ? & ? & ?)]|].
    split; [done|]. split; [done|]. intros; discriminate.
  - split; [done|]. split; [split; [by eexists _, _|done]|].
    split; [split; [done|by intros (? & ? & ? & ?)]|].
    split; [by intros ? ? [= <- <-]|]. split; [done|]. intros; discriminate.
  - split; [done|]. split; [split; [done|by intros (? & ? & ?)]|].
    split; [split; [by eexists _, _, _|done]|].
    split; [done|]. split; [done|]. intros _. split.
    + rewrite <- !list_fmap_compose. apply list_fmap_ext. by intros i [??] _.
    + apply Forall_fmap, Forall_forall. by intros [??] _.
Qed.

Section Inventory.
Variable PYVMOMI_AVAILABLE : bool.

Let check_clusters := check_clusters PYVMOMI_AVAILABLE.
Let check_esxi_builds := check_esxi_builds PYVMOMI_AVAILABLE.



End Inventory.



End InventorySpec.

(** ** Splitting a text *)

Module SplitSpec.
Import PyStr PyStrSpec.

Lemma append_nil_r_str (s : string) : s +:+ "" = s.
Proof.
  induction s as [|a s IH]; [done|].
  change (String a (s +:+ "") = String a s). by rewrite IH.
Qed.

Lemma contains_false_cons sep a s :
  contains sep (String a s) = false →
  startswith sep (String a s) = false ∧ contains sep s = false.
Proof. cbn [contains]. by intros ?%orb_false_iff. Qed.

(** A text without the separator is one part. *)
Lemma split_aux_none sep cur s :
  contains sep s = false → split_aux sep 0 cur s = [cur +:+ s].
Proof.
  revert cur. induction s as [|a s IH]; intros cur Hs.
  - cbn [split_aux]. by rewrite append_nil_r_str.
  - apply contains_false_cons in Hs as [Hstart Hs]. cbn [split_aux].
    rewrite Hstart, IH by done. by rewrite str_append_assoc.
Qed.

Lemma contains_char_cons c a s :
  contains (String c "") (String a s) = bool_decide (c = a) || contains (String c "") s.
Proof. cbn [contains startswith]. by rewrite andb_true_r. Qed.

Lemma contains_char_app c s1 s2 :
  contains (String c "") (s1 +:+ s2) =
    contains (String c "") s1 || contains (String c "") s2.
Proof.
  induction s1 as [|a s1 IH]; [done|].
  change (String a s1 +:+ s2) with (String a (s1 +:+ s2)).
  rewrite !contains_char_cons, IH. by rewrite orb_assoc.
Qed.

(** The first part of a text ends at the first separator character. *)
Lemma split_aux_char c cur s1 s2 :
  contains (String c "") s1 = false →
  split_aux (String c "") 0 cur (s1 +:+ String c s2) =
    (cur +:+ s1) :: split_aux (String c "") 0 "" s2.
Proof.
  revert cur. induction s1 as [|a s1 IH]; intros cur Hs.
  - change ("" +:+ String c s2) with (String c s2). cbn [split_aux startswith].
    rewrite bool_decide_eq_true_2 by done. cbn [andb len String.length Nat.sub].
    by rewrite append_nil_r_str.
  - rewrite contains_char_cons in Hs. apply orb_false_iff in Hs as [Ha Hs].
    change (String a s1 +:+ String c s2) with (String a (s1 +:+ String c s2)).
    cbn [split_aux startswith]. rewrite Ha. cbn [andb].
    rewrite IH by done. by rewrite str_append_assoc.
Qed.

(** The scheme of a URL is the first part of its split at [://]. *)
Lemma split_aux_scheme cur scheme rest :
  contains ":" scheme = false →
  split_aux "://" 0 cur (scheme +:+ "://" +:+ rest) =
    (cur +:+ scheme) :: split_aux "://" 0 "" rest.
Proof.
  revert cur. induction scheme as [|a scheme IH]; intros cur Hs.
  - rewrite append_nil_r_str. destruct rest; reflexivity.
  - rewrite contains_char_cons in Hs. apply orb_false_iff in Hs as [Ha Hs].
    change (String a scheme +:+ "://" +:+ rest)
      with (String a (scheme +:+ "://" +:+ rest)).
    cbn [split_aux startswith]. rewrite Ha. cbn [andb].
    rewrite IH by done. by rewrite str_append_assoc.
Qed.

(** A text without the first character of the separator is passed over. *)
Lemma split_aux_pass c sep cur s1 s2 :
  contains (String c "") s1 = false →
  split_aux (String c sep) 0 cur (s1 +:+ s2) =
    split_aux (String c sep) 0 (cur +:+ s1) s2.
Proof.
  revert cur. induction s1 as [|a s1 IH]; intros cur Hs.
  - change ("" +:+ s2) with s2. by rewrite append_nil_r_str.
  - rewrite contains_char_cons in Hs. apply orb_false_iff in Hs as [Ha Hs].
    change (String a s1 +:+ s2) with (String a (s1 +:+ s2)).
    cbn [split_aux startswith]. rewrite Ha. cbn [andb].
    rewrite IH by done. by rewrite str_append_assoc.
Qed.

(** The first part of a split is a piece of the text from its start on. *)
Lemma split_aux_first sep cur s :
  ∃ t u more, split_aux sep 0 cur s = (cur +:+ t) :: more ∧ s = t +:+ u.
Proof.
  revert cur. induction s as [|a s IH]; intros cur.
  - exists "", "", []. by rewrite append_nil_r_str.
  - cbn [split_aux]. destruct (startswith sep (String a s)).
    + exists "", (String a s), (split_aux sep (len sep - 1) "" s).
      by rewrite append_nil_r_str.
    + destruct (IH (cur +:+ String a "")) as (t & u & more & -> & ->).
      exists (String a t), u, more. split; [|done]. by rewrite str_append_assoc.
Qed.

End SplitSpec.

(** ** SSL certificates *)

Module SslSpec.
Import Base PyStr PyStrSpec SplitSpec SslChecks.

Lemma str_append_inj (prefix s1 s2 : string) :
  prefix +:+ s1 = prefix +:+ s2 → s1 = s2.
Proof.
  induction prefix as [|a prefix IH]; [done|].
  change (String a (prefix +:+ s1) = String a (prefix +:+ s2) → s1 = s2).
  intros [= H]. by apply IH.
Qed.

Section Certificates.
Variable SSL_AVAILABLE : bool.
Variable lower : string -> string.
Variable py_int : string -> option Z.
Variable test_tcp_port : option (string -> Z -> bool).
Variable check_proxy : option (string -> bool).
Variable Date : Type.
Variable date_str : Date -> string.
Variable get_certificate : string -> Z -> CertFetch Date.
Variable months_at_least : Z -> Z -> bool.

Let host_of := get_ssl_host_from_url py_int.
Let external := is_external_host lower.
Let check_single :=
  check_single_certificate lower test_tcp_port Date date_str get_certificate months_at_least.
Let step :=
  ssl_step lower py_int test_tcp_port check_proxy Date date_str get_certificate
    months_at_least.
Let check_all :=
  check_ssl_certificates SSL_AVAILABLE lower py_int test_tcp_port check_proxy Date date_str
    get_certificate months_at_least.
Let eligible := eligible lower check_proxy.
Let certificate_name := certificate_name py_int.
Let reachable := reachable test_tcp_port.

Lemma check_single_name host :
  name (check_single host) =
    "SSL: " +:+ SslHost_name host +:+ ":" +:+ pretty (SslHost_port host).
Proof.
  unfold check_single, check_single_certificate. cbv zeta.
  destruct (negb _); [done|].
  destruct (get_certificate _ _) as [CN OU Org d days| |e|e]; try done.
  - destruct (months_at_least days _); [done|].
    destruct (months_at_least days _); [done|].
    by destruct (is_external_host _ _).
  - by destruct (is_external_host _ _).
Qed.

Lemma step_cases (results : list CheckResult) (checked : gset string) (url : string) :
  let k := SslHost_name (host_of url) +:+ ":" +:+ pretty (SslHost_port (host_of url)) in
  (step (results, checked) url = (results, checked) ∧
   (¬ eligible url ∨ k ∈ checked)) ∨
  (step (results, checked) url =
     (results ++ [check_single (host_of url)], checked ∪ {[ k ]}) ∧
   eligible url ∧ k ∉ checked).
Proof.
  unfold step, ssl_step, eligible, SslChecks.eligible. cbv zeta.
  destruct (startswith "https" (lower url)); cbn [negb];
    [|left; split; [done|left; by intros [? _]]].
  destruct (should_skip_url check_proxy url);
    [left; split; [done|left; by intros [_ ?]]|].
  fold host_of. fold check_single.
  case_bool_decide as Hin; [left; split; [done|by right]|].
  right. by repeat split.
Qed.

Lemma ssl_loop (urls : list string) (results : list CheckResult) (checked : gset string) :
  (∀ k, k ∈ checked ↔ "SSL: " +:+ k ∈ name <$> results) →
  NoDup (name <$> results) →
  let final := (fold_left step urls (results, checked)).1 in
  NoDup (name <$> final) ∧
  (∀ c, c ∈ final →
     c ∈ results ∨ ∃ url, url ∈ urls ∧ eligible url ∧ c = check_single (host_of url)) ∧
  (∀ c, c ∈ results → c ∈ final) ∧
  (∀ url, url ∈ urls → eligible url → certificate_name url ∈ name <$> final).
Proof.
  revert results checked. induction urls as [|url urls IH]; intros results checked Hset Hnd.
  - cbn. split; [done|]. split; [by left|]. split; [done|]. by intros url ?%elem_of_nil.
  - cbn [fold_left].
    assert (Hname : name (check_single (host_of url)) = certificate_name url)
      by apply check_single_name.
    destruct (step_cases results checked url) as [[-> Hurl]|(-> & Hel & Hin)].
    + destruct (IH results checked Hset Hnd) as (H1 & H2 & H3 & H4).
      split; [done|]. split; [|split; [done|]].
      * intros c [?|(u & Hu & He & ->)]%H2; [by left|right].
        exists u. split; [by right|done].
      * intros u [-> | Hu]%elem_of_cons He; [|by apply H4].
        destruct Hurl as [Hn|Hin]; [done|].
        apply Hset in Hin. apply list_elem_of_fmap in Hin as (c & Hc & Hin).
        apply list_elem_of_fmap. exists c. split; [done|]. by apply H3.
    + set (k := SslHost_name (host_of url) +:+ ":" +:+ pretty (SslHost_port (host_of url)))
        in *.
      change (certificate_name url) with ("SSL: " +:+ k) in Hname.
      destruct (IH (results ++ [check_single (host_of url)]) (checked ∪ {[ k ]}))
        as (H1 & H2 & H3 & H4).
      * intros k'. rewrite elem_of_union, elem_of_singleton, fmap_app, elem_of_app.
        cbn [fmap list_fmap]. rewrite list_elem_of_singleton, Hname, Hset.
        split; (intros [?|?]; [by left|right]); [by subst|by eapply str_append_inj].
      * rewrite fmap_app. apply NoDup_app. split; [done|].
        split; [|apply NoDup_singleton].
        intros x Hx ->%list_elem_of_singleton. rewrite Hname in Hx. by apply Hset in Hx.
      * split; [done|]. split; [|split].
        -- intros c [[?|Hc%list_elem_of_singleton]%elem_of_app|(u & Hu & He & ->)]%H2.
           ++ by left.
           ++ right. exists url. split; [by left|]. by split.
           ++ right. exists u. split; [by right|done].
        -- intros c Hc. apply H3, elem_of_app. by left.
        -- intros u [-> | Hu]%elem_of_cons He; [|by apply H4].
           apply list_elem_of_fmap. exists (check_single (host_of url)).
           split; [by rewrite Hname|]. apply H3, elem_of_app. right. by left.
Qed.

(** X20. With the SSL libraries, no two results of the certificate check
    have the same name: a host and port is checked once, however many URLs
    lead to it.  Every result is the check of the host of an HTTPS URL of
    the list that the proxy test does not skip, and every such URL has the
    result of its host in the list; a list without such a URL, also the
    empty list, gives no result and no marker.  Without the SSL libraries
    the one result is the SKIPPED marker. *)
Theorem ssl_certificates_results (urls : list string) :
  (SSL_AVAILABLE = false →
   check_all urls =
     [mkCheckResult "SSL Check" "SKIPPED" "OpenSSL not available - install pyOpenSSL" []]) ∧
  (SSL_AVAILABLE = true →
   NoDup (name <$> check_all urls) ∧
   (∀ c, c ∈ check_all urls →
      ∃ url, url ∈ urls ∧ eligible url ∧ c = check_single (host_of url) ∧
             name c = certificate_name url) ∧
   (∀ url, url ∈ urls → eligible url → certificate_name url ∈ name <$> check_all urls) ∧
   ((∀ url, url ∈ urls → ¬ eligible url) → check_all urls = [])).
Proof.
  split.
  { intros H. unfold check_all, check_ssl_certificates. by rewrite H. }
  intros H.
  assert (Hrun : check_all urls = (fold_left step urls ([], ∅)).1).
  { unfold check_all, check_ssl_certificates. by rewrite H. }
  destruct (ssl_loop urls [] ∅) as (H1 & H2 & _ & H4).
  { intros k. cbn [fmap list_fmap]. rewrite elem_of_nil. set_solver. }
  { constructor. }
  rewrite Hrun. split; [done|]. split; [|split; [done|]].
  - intros c [?%elem_of_nil|(u & Hu & He & ->)]%H2; [done|].
    exists u. split; [done|]. split; [done|]. split; [done|]. apply check_single_name.
  - intros Hnone. destruct (fold_left step urls ([], ∅)).1 as [|c l]; [done|].
    destruct (H2 c) as [?%elem_of_nil|(u & Hu & He & _)]; [by left|done|].
    by destruct (Hnone u Hu).
Qed.

(** X21. The result of a host is named after host and port.  A host whose
    port does not answer the test is WARN.  Otherwise the result is PASS
    exactly when the certificate is read and expires in 9 months or more;
    it is FAIL exactly when the host is no external host and either the
    certificate expires in less than 3 months or reading it fails with an
    error other than a timeout or a name resolution error.  An external
    host is never FAIL, and every result is PASS, WARN or FAIL. *)
Theorem certificate_status (host : SslHost) :
  let c := check_single host in
  let fetched := get_certificate (SslHost_name host) (SslHost_port host) in
  name c = "SSL: " +:+ SslHost_name host +:+ ":" +:+ pretty (SslHost_port host) ∧
  (reachable host = false → status c = "WARN" ∧ message c = "Host not reachable") ∧
  (status c = "PASS" ↔
     reachable host = true ∧
     ∃ CN OU Org d days, fetched = Certificate CN OU Org d days ∧
       months_at_least days 9 = true) ∧
  (status c = "FAIL" ↔
     reachable host = true ∧ external (SslHost_name host) = false ∧
     ((∃ e, fetched = OtherError e) ∨
      ∃ CN OU Org d days, fetched = Certificate CN OU Org d days ∧
        months_at_least days 9 = false ∧ months_at_least days 3 = false)) ∧
  (external (SslHost_name host) = true → status c ≠ "FAIL") ∧
  (status c = "PASS" ∨ status c = "WARN" ∨ status c = "FAIL").
Proof.
  cbv zeta. split; [apply check_single_name|].
  unfold check_single, check_single_certificate, reachable, SslChecks.reachable, external,
    ConfigFunctions.EXPIRATION_PASS_MONTHS, ConfigFunctions.EXPIRATION_WARN_MONTHS.
  cbv zeta.
  destruct (match test_tcp_port with Some f => _ | None => true end) eqn:Er; cbn [negb].
  2: { cbn [status message]. repeat split; try done; try discriminate; auto.
       all: intros (? & _); discriminate. }
  destruct (get_certificate _ _) as [CN OU Org d days| |e|e];
    [destruct (months_at_least days 9) eqn:E9; [|destruct (months_at_least days 3) eqn:E3;
       [|destruct (is_external_host lower _) eqn:Ex]]| | |
     destruct (is_external_host lower _) eqn:Ex];
    cbn [status message]; repeat split; try done; try discriminate; auto.
  all: try (intros (_ & (? & ? & ? & ? & ? & Heq & ?));
            first [discriminate Heq | injection Heq; intros; subst; congruence]).
  all: try (intros (_ & ? & [(? & Heq)|(? & ? & ? & ? & ? & Heq & ? & ?)]);
            first [discriminate Heq | injection Heq; intros; subst; congruence
                  | congruence]).
  all: try (by eexists _, _, _, _, _).
  all: try (right; by eexists _, _, _, _, _).
  all: left; by eexists.
Qed.

(** X22. For a URL made of a scheme without a colon, [://], a host without
    colon and slash, an optional port text without colon and slash and an
    optional path, the host read from the URL is that host, whatever the
    path holds, also another URL; the port is the number [int] reads from
    the port text, and 443 when the URL has no port or [int] rejects its
    text.  Set aside is an empty port text before a path that starts with
    a slash, where the colon of the port and the two slashes read as the
    end of a scheme.  A URL without a scheme is read in the same way only
    when it holds no [://] at all: whatever stands before a first [://],
    also a host and the start of a path, is dropped, and the host is read
    from what follows. *)
Theorem ssl_host_from_url (scheme : option string) (host : string)
    (port path : option string) :
  ((∀ s, scheme = Some s → contains ":" s = false) →
   contains ":" host = false → contains "/" host = false →
   (∀ p, port = Some p → contains ":" p = false ∧ contains "/" p = false) →
   (scheme = None → contains "://" (url_text None host port path) = false) →
   (port = Some "" → ∀ q, path = Some q → startswith "/" q = false) →
   host_of (url_text scheme host port path) =
     mkSslHost host (match port with Some p => default 443%Z (py_int p) | None => 443%Z end)) ∧
  (∀ before after,
     contains ":" before = false → contains "://" after = false →
     host_of (before +:+ "://" +:+ after) = host_of after).
Proof.
  split.
  2: { intros before after Hb Ha.
       assert (Hc : contains "://" (before +:+ "://" +:+ after) = true)
         by (apply contains_spec; by exists before, after).
       unfold host_of, get_ssl_host_from_url. cbv zeta. rewrite Hc, Ha.
       unfold split. rewrite split_aux_scheme by done.
       by rewrite split_aux_none. }
  intros Hscheme Hh1 Hh2 Hport Hrest Hempty.
  set (portp := match port with Some p => ":" +:+ p | None => "" end).
  set (pathp := match path with Some p => "/" +:+ p | None => "" end).
  set (hp := host +:+ portp).
  set (rest := url_text None host port path) in *.
  assert (Erest : rest = host +:+ portp +:+ pathp) by done.
  assert (Hhp : contains "/" hp = false).
  { unfold hp, portp. rewrite contains_char_app, Hh2. destruct port as [p|]; [|done].
    destruct (Hport p eq_refl) as [_ Hp].
    change (":" +:+ p) with (String (Ascii.ascii_of_nat 58) p).
    rewrite contains_char_cons, Hp. done. }
  assert (H1 : ∃ t u,
             (if contains "://" (url_text scheme host port path)
              then item (split "://" (url_text scheme host port path)) 1
              else url_text scheme host port path) = hp +:+ t ∧ pathp = t +:+ u).
  { destruct scheme as [s|].
    - assert (Eurl : url_text (Some s) host port path = s +:+ "://" +:+ rest).
      { unfold rest, url_text. fold portp pathp.
        change ("" +:+ host +:+ portp +:+ pathp) with (host +:+ portp +:+ pathp).
        by rewrite str_append_assoc. }
      rewrite Eurl.
      assert (Hc : contains "://" (s +:+ "://" +:+ rest) = true)
        by (apply contains_spec; by exists s, rest).
      rewrite Hc. unfold split. rewrite split_aux_scheme by (by apply Hscheme).
      cbn [item nth]. rewrite Erest.
      change "://" with (String (Ascii.ascii_of_nat 58) "//").
      rewrite split_aux_pass by done. change ("" +:+ host) with host.
      assert (Hpass : split_aux (String (Ascii.ascii_of_nat 58) "//") 0 host (portp +:+ pathp) =
                      split_aux (String (Ascii.ascii_of_nat 58) "//") 0 hp pathp).
      { unfold hp, portp. destruct port as [p|]; [|by rewrite append_nil_r_str].
        destruct (Hport p eq_refl) as [Hp1 Hp2].
        change (":" +:+ p) with (String (Ascii.ascii_of_nat 58) p).
        change (String (Ascii.ascii_of_nat 58) p +:+ pathp)
          with (String (Ascii.ascii_of_nat 58) (p +:+ pathp)).
        cbn [split_aux].
        assert (Hno : startswith (String (Ascii.ascii_of_nat 58) "//")
                        (String (Ascii.ascii_of_nat 58) (p +:+ pathp)) = false).
        { cbn [startswith]. rewrite bool_decide_eq_true_2 by done. cbn [andb].
          destruct p as [|a p].
          - change ("" +:+ pathp) with pathp. unfold pathp. destruct path as [q|]; [|done].
            change ("/" +:+ q) with (String (Ascii.ascii_of_nat 47) q).
            change "//" with (String (Ascii.ascii_of_nat 47) "/").
            cbn [startswith]. rewrite bool_decide_eq_true_2 by done. cbn [andb].
            by apply Hempty.
          - change (String a p +:+ pathp) with (String a (p +:+ pathp)).
            change "/" with (String (Ascii.ascii_of_nat 47) "") in Hp2.
            rewrite contains_char_cons in Hp2. apply orb_false_iff in Hp2 as [Ha _].
            change "//" with (String (Ascii.ascii_of_nat 47) "/").
            cbn [startswith]. vm_compute (Ascii.ascii_of_nat 47) in Ha. by rewrite Ha. }
        rewrite Hno. rewrite split_aux_pass by done.
        by rewrite str_append_assoc. }
      rewrite Hpass.
      destruct (split_aux_first (String (Ascii.ascii_of_nat 58) "//") hp pathp)
        as (t & u & more & -> & Hu).
      by exists t, u.
    - change (url_text None host port path) with rest. rewrite (Hrest eq_refl).
      exists pathp, "". split; [|by rewrite append_nil_r_str].
      rewrite Erest. unfold hp. by rewrite str_append_assoc. }
  destruct H1 as (t & u & H1 & Hu).
  assert (H2 : (if contains "/" (hp +:+ t) then item (split "/" (hp +:+ t)) 0 else hp +:+ t)
               = hp).
  { destruct t as [|a t].
    - rewrite append_nil_r_str. by rewrite Hhp.
    - assert (Ha : a = Ascii.ascii_of_nat 47).
      { unfold pathp in Hu. destruct path as [q|]; [|discriminate].
        change ("/" +:+ q) with (String (Ascii.ascii_of_nat 47) q) in Hu.
        change (String a t +:+ u) with (String a (t +:+ u)) in Hu. congruence. }
      subst a.
      change "/" with (String (Ascii.ascii_of_nat 47) "").
      rewrite contains_char_app, contains_char_cons.
      rewrite bool_decide_eq_true_2 by done. rewrite orb_true_r.
      unfold split. by rewrite split_aux_char. }
  unfold host_of, get_ssl_host_from_url. cbv zeta. rewrite H1, H2.
  unfold hp, portp. destruct port as [p|].
  - destruct (Hport p eq_refl) as [Hp _].
    change (":" +:+ p) with (String (Ascii.ascii_of_nat 58) p).
    rewrite contains_char_app, Hh1, contains_char_cons.
    rewrite bool_decide_eq_true_2 by done. cbn [orb].
    unfold split. rewrite split_aux_char by done. rewrite split_aux_none by done.
    cbn [item nth]. change ("" +:+ p) with p. change ("" +:+ host) with host.
    by destruct (py_int p).
  - rewrite append_nil_r_str. by rewrite Hh1.
Qed.

End Certificates.

Lemma ssl_certificates_results_witness :
  NoDup (name <$> check_ssl_certificates true (fun s => s) (fun _ => None) None None
           unit (fun _ => "2027-12-30") (fun _ _ => SocketTimeout) (fun _ _ => false)
           ["https://vc-mgmt-a.site-a.vcf.lab/ui"; "https://vc-mgmt-a.site-a.vcf.lab/sdk"]).
Proof.
  exact (proj1 (proj2 (ssl_certificates_results true (fun s => s) (fun _ => None) None None
           unit (fun _ => "2027-12-30") (fun _ _ => SocketTimeout) (fun _ _ => false)
           ["https://vc-mgmt-a.site-a.vcf.lab/ui"; "https://vc-mgmt-a.site-a.vcf.lab/sdk"])
         eq_refl)).
Defined.

Lemma certificate_status_witness :
  status (check_single_certificate (fun s => s) (Some (fun _ _ => true)) unit
            (fun _ => "2027-12-30") (fun _ _ => OtherError "handshake failure")
            (fun _ _ => false) (mkSslHost "www.vmware.com" 443)) ≠ "FAIL".
Proof.
  apply (proj1 (proj2 (proj2 (proj2 (proj2
           (certificate_status (fun s => s) (Some (fun _ _ => true)) unit
              (fun _ => "2027-12-30") (fun _ _ => OtherError "handshake failure")
              (fun _ _ => false) (mkSslHost "www.vmware.com" 443))))))).
  reflexivity.
Defined.

Lemma ssl_host_from_url_witness :
  get_ssl_host_from_url (fun _ => Some 8443%Z)
    "https://nsx-mgmt-01a.site-a.vcf.lab:8443/login?next=https://evil.example/x"
    = mkSslHost "nsx-mgmt-01a.site-a.vcf.lab" 8443.
Proof.
  apply (proj1 (ssl_host_from_url (fun _ => Some 8443%Z) (Some "https")
           "nsx-mgmt-01a.site-a.vcf.lab" (Some "8443")
           (Some "login?next=https://evil.example/x"))).
  - by intros s [= <-].
  - reflexivity.
  - reflexivity.
  - by intros p [= <-].
  - discriminate.
  - discriminate.
Defined.

End SslSpec.

(** ** URL checks *)

Module UrlSpec.
Import Base PyStr PyStrSpec SplitSpec UrlChecks.

Section Urls.
Variable REQUESTS_AVAILABLE : bool.
Variable strip : string -> string.
Variable lower : string -> string.
Variable lsf_test_url : option (string -> option string -> TestUrl).
Variable session_get : string -> GetUrl.
Variable elapsed_text : string -> string.
Variable elapsed_round : string -> string.

Let parse := parse_url_entry strip.
Let check_single :=
  check_single_url REQUESTS_AVAILABLE lsf_test_url session_get elapsed_text elapsed_round.
Let step :=
  url_step REQUESTS_AVAILABLE strip lower lsf_test_url session_get elapsed_text
    elapsed_round.
Let check_all :=
  check_urls REQUESTS_AVAILABLE strip lower lsf_test_url session_get elapsed_text
    elapsed_round.
Let checkable := checkable strip lower.
Let check_entry :=
  check_entry REQUESTS_AVAILABLE strip lsf_test_url session_get elapsed_text elapsed_round.
Let requested := requested strip lower.

Lemma url_loop (entries : list string) (results : list CheckResult) (checked : gset string) :
  (fold_left step entries (results, checked)).1 =
    results ++ (check_entry <$> requested checked entries).
Proof.
  revert results checked. induction entries as [|entry entries IH]; intros results checked.
  - cbn. by rewrite app_nil_r.
  - cbn [fold_left requested UrlChecks.requested]. fold requested.
    unfold step at 2, url_step. fold step. fold parse.
    destruct (bool_decide (entry = "") || startswith "#" (strip entry)); [apply IH|].
    destruct (bool_decide (url (parse entry) ∈ checked)); [apply IH|].
    destruct (startswith "http" (lower (url (parse entry)))); cbn [negb].
    + rewrite IH. rewrite <- app_assoc. done.
    + rewrite IH. done.
Qed.

Lemma requested_props (checked : gset string) (entries : list string) :
  NoDup ((fun e => url (parse e)) <$> requested checked entries) ∧
  (∀ e, e ∈ requested checked entries →
     (url (parse e) ∉ checked) ∧ e ∈ entries ∧ checkable e) ∧
  (∀ e, e ∈ entries → checkable e →
     url (parse e) ∈ checked ∨
     ∃ e', e' ∈ requested checked entries ∧ url (parse e') = url (parse e)) ∧
  (length (requested checked entries) ≤ length entries)%nat.
Proof.
  revert checked. induction entries as [|entry entries IH]; intros checked.
  - cbn. split; [constructor|]. split; [by intros e ?%elem_of_nil|].
    split; [by intros e ?%elem_of_nil|lia].
  - cbn [requested UrlChecks.requested]. fold requested. fold parse.
    destruct (IH checked) as (N1 & In1 & Out1 & L1).
    destruct (IH (checked ∪ {[ url (parse entry) ]})) as (N2 & In2 & Out2 & L2).
    destruct (bool_decide (entry = "") || startswith "#" (strip entry)) eqn:Ec.
    { split; [done|]. split; [|split; [|cbn [length]; lia]].
      - intros e He. destruct (In1 e He) as (? & ? & ?). split; [done|]. split; [by right|done].
      - intros e [-> | He]%elem_of_cons Hch; [|by apply Out1].
        destruct Hch as (Hne & Hcm & _). apply orb_true_iff in Ec as [Ec|Ec].
        + by apply bool_decide_eq_true in Ec.
        + congruence. }
    apply orb_false_iff in Ec as [Ene Ecm]. apply bool_decide_eq_false in Ene.
    case_bool_decide as Hin.
    { split; [done|]. split; [|split; [|cbn [length]; lia]].
      - intros e He. destruct (In1 e He) as (? & ? & ?). split; [done|]. split; [by right|done].
      - intros e [-> | He]%elem_of_cons Hch; [by left|by apply Out1]. }
    assert (Hlater : ∀ e, e ∈ requested (checked ∪ {[ url (parse entry) ]}) entries →
              url (parse e) ≠ url (parse entry) ∧ (url (parse e) ∉ checked) ∧
              e ∈ entry :: entries ∧ checkable e).
    { intros e He. destruct (In2 e He) as (Hn & ? & ?).
      rewrite elem_of_union, elem_of_singleton in Hn.
      split; [tauto|]. split; [tauto|]. split; [by right|done]. }
    destruct (startswith "http" (lower (url (parse entry)))) eqn:Eh.
    + cbn [app fmap list_fmap length]. split; [|split; [|split; [|lia]]].
      * constructor; [|done]. intros (e & Heq & He)%list_elem_of_fmap.
        destruct (Hlater e He) as (Hne & _). by apply Hne.
      * intros e [-> | He]%elem_of_cons.
        -- split; [done|]. split; [by left|]. by repeat split.
        -- destruct (Hlater e He) as (_ & ? & ? & ?). done.
      * intros e [-> | He]%elem_of_cons Hch.
        -- right. exists entry. split; [by left|done].
        -- destruct (Out2 e He Hch) as [Hc|(e' & He' & Heq)].
           ++ apply elem_of_union in Hc as [? | ->%elem_of_singleton]; [by left|].
              right. exists entry. split; [by left|done].
           ++ right. exists e'. split; [by right|done].
    + cbn [app length]. split; [done|]. split; [|split; [|lia]].
      * intros e He. destruct (Hlater e He) as (_ & ? & ? & ?). done.
      * intros e [-> | He]%elem_of_cons Hch.
        -- destruct Hch as (_ & _ & Hh). unfold parse in Eh. congruence.
        -- destruct (Out2 e He Hch) as [Hc|(e' & He' & Heq)].
           ++ apply elem_of_union in Hc as [?|Hc%elem_of_singleton]; [by left|].
              destruct Hch as (_ & _ & Hh). fold parse in Hh. rewrite Hc in Hh. congruence.
           ++ right. by exists e'.
Qed.

(** X23. The URL check of a non-empty list requests no URL twice: of the
    entries that are neither empty nor comments it checks, in the order of
    the list, the first entry of each URL whose URL starts with http, so
    that the description and the expected text of a later entry of the same
    URL are ignored.  Every entry that can be checked has its URL checked,
    and a list without such an entry gives no result and no marker.  The
    empty list gives the one SKIPPED marker. *)
Theorem url_results (url_entries : list string) :
  (url_entries = [] →
   check_all url_entries = [mkCheckResult "URL Checks" "SKIPPED" "No URLs to check" []]) ∧
  (url_entries ≠ [] →
   check_all url_entries = check_entry <$> requested ∅ url_entries ∧
   NoDup ((fun e => url (parse e)) <$> requested ∅ url_entries) ∧
   (∀ e, e ∈ requested ∅ url_entries → e ∈ url_entries ∧ checkable e) ∧
   (∀ e, e ∈ url_entries → checkable e →
      ∃ e', e' ∈ requested ∅ url_entries ∧ url (parse e') = url (parse e)) ∧
   (length (check_all url_entries) ≤ length url_entries)%nat ∧
   ((∀ e, e ∈ url_entries → ¬ checkable e) → check_all url_entries = [])).
Proof.
  split; [by intros ->|]. intros Hne.
  assert (Hrun : check_all url_entries = check_entry <$> requested ∅ url_entries).
  { unfold check_all, check_urls. destruct url_entries as [|e l]; [done|].
    fold step. by rewrite url_loop. }
  destruct (requested_props ∅ url_entries) as (N & In & Out & L).
  rewrite Hrun. split; [done|]. split; [done|]. split; [|split; [|split]].
  - intros e He. destruct (In e He) as (_ & ? & ?). done.
  - intros e He Hch. destruct (Out e He Hch) as [?|?]; [set_solver|done].
  - by rewrite length_fmap.
  - intros Hnone. destruct (requested ∅ url_entries) as [|e l]; [done|].
    destruct (In e) as (_ & He & Hch); [by left|]. by destruct (Hnone e He).
Qed.

(** X24. The result of a URL is named after its description, or after the
    URL when the description is empty.  It is SKIPPED exactly when the
    requests library is missing; otherwise it is PASS exactly when
    [lsf.test_url] answers true or, without that function, when the
    response has the code 200 and holds the expected text, if one is
    given; in every other case, also after an exception, it is FAIL.  No
    result is WARN. *)
Theorem single_url_status (u d expected : string) :
  let c := check_single u d expected in
  name c = "URL: " +:+ (if bool_decide (d = "") then u else d) ∧
  (status c = "SKIPPED" ↔ REQUESTS_AVAILABLE = false) ∧
  (status c = "PASS" ↔
     REQUESTS_AVAILABLE = true ∧
     match lsf_test_url with
     | Some test_url =>
         test_url u (if bool_decide (expected = "") then None else Some expected)
           = Accessible true
     | None =>
         ∃ text, session_get u = Response 200 text ∧
                 (expected = "" ∨ contains expected text = true)
     end) ∧
  (status c ≠ "SKIPPED" → status c ≠ "PASS" → status c = "FAIL").
Proof.
  unfold check_single, check_single_url. cbv zeta.
  clear parse check_single step check_all checkable check_entry requested.
  split.
  { destruct (bool_decide (d = "")); cbn [negb];
      destruct REQUESTS_AVAILABLE; cbn [negb]; try done;
      destruct lsf_test_url as [f|];
      [destruct (f _ _) as [[|]|e]|destruct (session_get u) as [code text| |e|e]
      |destruct (f _ _) as [[|]|e]|destruct (session_get u) as [code text| |e|e]];
      try done;
      destruct (negb (bool_decide (code = 200%Z))); try done;
      by destruct (negb (bool_decide (expected = "")) && negb (contains expected text)). }
  destruct REQUESTS_AVAILABLE; cbn [negb].
  2: { cbn [status]. repeat split; try done; try discriminate. by intros [? _]. }
  destruct lsf_test_url as [f|].
  - destruct (bool_decide (expected = "")); cbn [negb];
      destruct (f _ _) as [[|]|e]; cbn [status];
      repeat split; try done; try discriminate; by intros [_ ?].
  - destruct (session_get u) as [code text| |e|e]; cbn [status].
    2,3,4: repeat split; try done; try discriminate; by intros [_ (? & ? & _)].
    case_bool_decide as Hcode; cbn [negb status].
    2: { repeat split; try done; try discriminate.
         intros [_ (t & [= ? _] & _)]. done. }
    subst code. case_bool_decide as He; cbn [negb andb status].
    + repeat split; try done; try discriminate.
      exists text. split; [done|by left].
    + destruct (contains expected text) eqn:Ec; cbn [negb status].
      * repeat split; try done; try discriminate.
        exists text. split; [done|by right].
      * repeat split; try done; try discriminate.
        intros [_ (t & [= <-] & [?|?])]; [done|congruence].
Qed.

(** X25. An entry is split at its commas: the URL is the text before the
    first comma, the description the text between the first and the second
    and the expected text the one between the second and the third, each
    stripped; what follows a third comma is dropped, and a part that is
    missing is empty. *)
Theorem parse_url_entry_fields (u d e : string) (tail : option string) :
  contains "," u = false → contains "," d = false → contains "," e = false →
  parse u = mkParsedUrl (strip u) "" "" ∧
  parse (u +:+ "," +:+ d) = mkParsedUrl (strip u) (strip d) "" ∧
  parse (u +:+ "," +:+ d +:+ "," +:+ e +:+
         match tail with Some t => "," +:+ t | None => "" end) =
    mkParsedUrl (strip u) (strip d) (strip e).
Proof.
  intros Hu Hd He.
  assert (H1 : split "," u = [u]) by (unfold split; by rewrite split_aux_none).
  assert (H2 : ∀ rest, split "," (u +:+ "," +:+ rest) = u :: split "," rest).
  { intros rest. unfold split.
    change ("," +:+ rest) with (String (Ascii.ascii_of_nat 44) rest).
    by rewrite split_aux_char. }
  assert (H3 : ∀ rest, split "," (d +:+ "," +:+ rest) = d :: split "," rest).
  { intros rest. unfold split.
    change ("," +:+ rest) with (String (Ascii.ascii_of_nat 44) rest).
    by rewrite split_aux_char. }
  assert (H4 : split "," d = [d]) by (unfold split; by rewrite split_aux_none).
  assert (H5 : ∃ more, split "," (e +:+ match tail with Some t => "," +:+ t | None => "" end)
                       = e :: more).
  { destruct tail as [t|].
    - exists (split "," t). unfold split.
      change ("," +:+ t) with (String (Ascii.ascii_of_nat 44) t).
      by rewrite split_aux_char.
    - exists []. rewrite append_nil_r_str. unfold split. by rewrite split_aux_none. }
  unfold parse, parse_url_entry. cbv zeta. split; [|split].
  - by rewrite H1.
  - by rewrite H2, H4.
  - destruct H5 as (more & H5). by rewrite H2, H3, H5.
Qed.

End Urls.

Lemma url_results_witness :
  let entries := ["# lab URLs"; "https://vc.lab/ui,vCenter"; "https://vc.lab/ui,again";
                  "ftp://files.lab"] in
  (length (check_urls true (fun s => s) (fun s => s) None (fun _ => TimeoutError)
            (fun _ => "0.10") (fun _ => "0.1") entries) ≤ 4)%nat.
Proof.
  intros entries.
  assert (Hne : entries ≠ []) by done.
  exact (proj1 (proj2 (proj2 (proj2 (proj2
    (proj2 (url_results true (fun s => s) (fun s => s) None (fun _ => TimeoutError)
              (fun _ => "0.10") (fun _ => "0.1") entries) Hne)))))).
Defined.

Lemma single_url_status_witness :
  status (check_single_url true None (fun _ => ConnectionError "refused")
            (fun _ => "0.10") (fun _ => "0.1") "https://vc.lab/ui" "vCenter" "") = "FAIL".
Proof.
  apply (proj2 (proj2 (proj2 (single_url_status true None
           (fun _ => ConnectionError "refused") (fun _ => "0.10") (fun _ => "0.1")
           "https://vc.lab/ui" "vCenter" "")))); discriminate.
Defined.

Lemma parse_url_entry_fields_witness :
  parse_url_entry (fun s => s) "https://vc.lab/ui,vCenter,Login,ignored" =
    mkParsedUrl "https://vc.lab/ui" "vCenter" "Login".
Proof.
  apply (proj2 (proj2 (parse_url_entry_fields (fun s => s)
           "https://vc.lab/ui" "vCenter" "Login" (Some "ignored") eq_refl eq_refl eq_refl))).
Defined.

End UrlSpec.

(** ** Windows machines *)

Module WindowsSpec.
Import Base PyStr WindowsChecks.

Section Windows.
Variable PYPSEXEC_AVAILABLE : bool.
Variable lower : string -> string.
Variable test_ping : option (string -> bool).
Variable test_tcp_port : option (string -> Z -> bool).
Variable get_password : option string.
Variable client_run : string -> string -> string -> string -> ClientRun.

Let access := check_windows_accessibility test_ping test_tcp_port.
Let activation := check_windows_activation PYPSEXEC_AVAILABLE lower client_run.
Let firewall := check_windows_firewall PYPSEXEC_AVAILABLE lower client_run.
Let run_remote := run_remote_command PYPSEXEC_AVAILABLE client_run.
Let check_all :=
  check_windows_machines PYPSEXEC_AVAILABLE lower test_ping test_tcp_port get_password
    client_run.
Let detailed := detailed PYPSEXEC_AVAILABLE test_ping test_tcp_port get_password.
Let password := password_of get_password.

(** The results of one host. *)
Let host_results (host : WinHost) : list CheckResult :=
  access host :: if detailed host then [activation host password; firewall host password]
                 else [].

Lemma windows_loop (hosts : list WinHost) (results : list CheckResult) :
  fold_left
    (windows_step PYPSEXEC_AVAILABLE lower test_ping test_tcp_port client_run password)
    hosts results =
  results ++ (hosts ≫= host_results).
Proof.
  revert results. induction hosts as [|h hosts IH]; intros results.
  - by rewrite app_nil_r.
  - cbn [fold_left]. rewrite IH, bind_cons, app_assoc. f_equal.
    unfold windows_step, host_results, detailed, WindowsChecks.detailed. cbv zeta.
    fold access activation firewall password.
    destruct (bool_decide (status (access h) = "PASS")); cbn [negb andb]; [|done].
    destruct (PYPSEXEC_AVAILABLE && negb (bool_decide (password = ""))); [|done].
    by rewrite <- !app_assoc.
Qed.

(** X26. The Windows check of a non-empty list gives, after a warning when
    pypsexec is missing, for each host in the order of the list its
    accessibility result and, only when that result is PASS, pypsexec is
    there and the password is not empty, its activation and its firewall
    result.  The accessibility result is SKIPPED exactly when the host has
    no IP address, PASS exactly when it has one and the ping and port 445
    answer as far as they are tested, and WARN otherwise, never FAIL.
    Without pypsexec the list has one result more than there are hosts.
    The empty list gives the one SKIPPED marker. *)
Theorem windows_machines_results (hosts : list WinHost) :
  (hosts = [] →
   check_all hosts =
     [mkCheckResult "Windows Checks" "SKIPPED" "No Windows machines to check" []]) ∧
  (hosts ≠ [] →
   check_all hosts =
     (if PYPSEXEC_AVAILABLE then []
      else [mkCheckResult "Windows Checks" "WARN"
              "pypsexec not available - limited checks only" []]) ++
     (hosts ≫= fun host =>
        access host ::
        if detailed host then [activation host password; firewall host password]
        else []) ∧
   (PYPSEXEC_AVAILABLE = false → length (check_all hosts) = S (length hosts)) ∧
   (length hosts ≤ length (check_all hosts) ≤ 3 * length hosts + 1)%nat) ∧
  (∀ host,
     name (access host) = "Windows: " +:+ win_name host ∧
     (status (access host) = "SKIPPED" ↔ ip_of host = "") ∧
     (status (access host) = "PASS" ↔
        ip_of host ≠ "" ∧
        (∀ f, test_ping = Some f → f (ip_of host) = true) ∧
        (∀ g, test_tcp_port = Some g → g (ip_of host) 445%Z = true)) ∧
     (status (access host) ≠ "SKIPPED" → status (access host) ≠ "PASS" →
      status (access host) = "WARN") ∧
     (ip_of host = "" → detailed host = false)).
Proof.
  split; [by intros ->|]. split.
  - intros Hne.
    assert (Hrun : check_all hosts =
      (if PYPSEXEC_AVAILABLE then []
       else [mkCheckResult "Windows Checks" "WARN"
               "pypsexec not available - limited checks only" []]) ++
      (hosts ≫= host_results)).
    { unfold check_all, check_windows_machines. destruct hosts as [|h hosts]; [done|].
      cbv zeta. fold password. rewrite windows_loop.
      by destruct PYPSEXEC_AVAILABLE. }
    split; [exact Hrun|]. rewrite Hrun. clear Hrun Hne.
    assert (Hhost : ∀ h,
              (1 ≤ length (host_results h) ≤ 3)%nat ∧
              (PYPSEXEC_AVAILABLE = false → length (host_results h) = 1)).
    { intros h. unfold host_results. destruct (detailed h) eqn:E; cbn [length].
      - split; [lia|]. intros Hpy. unfold detailed, WindowsChecks.detailed in E.
        rewrite Hpy, andb_false_r in E. done.
      - split; [lia|done]. }
    assert (Hlen : ∀ l : list WinHost,
              (length l ≤ length (l ≫= host_results) ≤ 3 * length l)%nat ∧
              (PYPSEXEC_AVAILABLE = false → length (l ≫= host_results) = length l)).
    { induction l as [|h l [IH1 IH2]]; [done|].
      rewrite bind_cons, length_app. destruct (Hhost h) as [Hh1 Hh2].
      cbn [length]. split; [lia|]. intros Hpy. rewrite (Hh2 Hpy), (IH2 Hpy). done. }
    destruct (Hlen hosts) as [H1 H2]. rewrite length_app. split.
    + intros Hpy. rewrite (H2 Hpy), Hpy. cbn [length]. lia.
    + destruct PYPSEXEC_AVAILABLE; cbn [length]; lia.
  - intros host. unfold detailed, WindowsChecks.detailed, access,
      check_windows_accessibility. cbv zeta.
    case_bool_decide as Hip.
    { cbn [name status]. repeat split; try done; try discriminate.
      by intros [? _]. }
    destruct test_ping as [f|], test_tcp_port as [g|];
      try destruct (f (ip_of host)) eqn:Ef; try destruct (g (ip_of host) 445%Z) eqn:Eg;
      cbn [negb name status].
    all: repeat split; try done; try discriminate.
    all: try (intros ? [= <-]; done).
    all: try (intros (_ & Hf & Hg); first [specialize (Hf _ eq_refl)|specialize (Hg _ eq_refl)];
              congruence).
    all: try (intros (_ & Hf & Hg); specialize (Hg _ eq_refl); congruence).
Qed.

(** X27. When pypsexec is there and the host has an IP address, the
    activation and firewall results follow the output of the remote
    command.  If the command cannot be run or returns a code other than 0
    the result is WARN.  Otherwise the activation result is PASS when the
    output in lower case holds [permanently activated] or [will expire],
    also when it holds [not activated] too; it is FAIL when it holds none
    of the two but [notification mode] or [not activated]; and else WARN.
    The firewall result is FAIL exactly when the command succeeds and the
    output in lower case holds the line of a profile whose state is on, and
    PASS exactly when it succeeds without such a line. *)
Theorem windows_detailed_status (host : WinHost) (pw : string) :
  PYPSEXEC_AVAILABLE = true → ip_of host ≠ "" →
  let act := run_remote (ip_of host) "Administrator" pw
               "cscript //nologo C:\Windows\System32\slmgr.vbs /xpr" in
  let fw := run_remote (ip_of host) "Administrator" pw
              "netsh advfirewall show allprofiles state" in
  let activated := contains "permanently activated" (lower (stdout act)) ||
                   contains "will expire" (lower (stdout act)) in
  let not_activated := contains "notification mode" (lower (stdout act)) ||
                       contains "not activated" (lower (stdout act)) in
  let state_on :=
    contains "state                                 on" (lower (stdout fw)) in
  (∀ command,
     success (run_remote (ip_of host) "Administrator" pw command) = true ↔
     ∃ out err, client_run (ip_of host) "Administrator" pw command = Executed out err 0) ∧
  name (activation host pw) = "Activation: " +:+ win_name host ∧
  name (firewall host pw) = "Firewall: " +:+ win_name host ∧
  (status (activation host pw) = "PASS" ↔ success act = true ∧ activated = true) ∧
  (status (activation host pw) = "FAIL" ↔
     success act = true ∧ activated = false ∧ not_activated = true) ∧
  (status (activation host pw) = "WARN" ↔
     success act = false ∨ (activated = false ∧ not_activated = false)) ∧
  (status (firewall host pw) = "FAIL" ↔ success fw = true ∧ state_on = true) ∧
  (status (firewall host pw) = "PASS" ↔ success fw = true ∧ state_on = false) ∧
  (status (firewall host pw) = "WARN" ↔ success fw = false).
Proof.
  intros Hpy Hip. cbv zeta.
  unfold activation, firewall, check_windows_activation, check_windows_firewall.
  cbv zeta. fold run_remote. rewrite Hpy. cbn [negb].
  rewrite !(bool_decide_eq_false_2 (ip_of host = "")) by done.
  split.
  { intros command. unfold run_remote, run_remote_command. rewrite Hpy. cbn [negb].
    destruct (client_run _ _ _ command) as [out err rc|e]; cbn [success].
    - rewrite bool_decide_eq_true. split; [intros ->; by eexists _, _|].
      by intros (? & ? & [= _ _ ->]).
    - split; [done|]. by intros (? & ? & ?). }
  set (act := run_remote (ip_of host) "Administrator" pw
                "cscript //nologo C:\Windows\System32\slmgr.vbs /xpr").
  set (fw := run_remote (ip_of host) "Administrator" pw
               "netsh advfirewall show allprofiles state").
  split.
  { destruct (success act); cbn [negb]; [|done].
    destruct (_ || _); [done|]. by destruct (_ || _). }
  split.
  { destruct (success fw); cbn [negb]; [|done]. by destruct (contains _ _). }
  destruct (success act); cbn [negb].
  - destruct (contains "permanently activated" (lower (stdout act)) ||
              contains "will expire" (lower (stdout act)));
      [|destruct (contains "notification mode" (lower (stdout act)) ||
                  contains "not activated" (lower (stdout act)))];
      destruct (success fw); cbn [negb status];
      try destruct (contains _ (lower (stdout fw))); cbn [status];
      repeat split; try done; try discriminate;
      try (intros [? ?]; done || discriminate);
      try (intros [? | [? ?]]; done || discriminate);
      try (intros (? & ? & ?); done || discriminate);
      try (by right).
  - destruct (success fw); cbn [negb status];
      try destruct (contains _ (lower (stdout fw))); cbn [status];
      repeat split; try done; try discriminate;
      try (intros [? ?]; done || discriminate);
      try (intros (? & ? & ?); done || discriminate);
      try (by left).
Qed.

End Windows.

Lemma windows_machines_results_witness :
  let hosts := [mkWinHost "win-01a" (Some "10.1.10.21"); mkWinHost "win-02a" None] in
  length (check_windows_machines false (fun s => s) None None (Some "secret")
            (fun _ _ _ _ => ClientError "unused") hosts) = 3.
Proof.
  intros hosts.
  assert (Hne : hosts ≠ []) by done.
  exact (proj1 (proj2 (proj1 (proj2
    (windows_machines_results false (fun s => s) None None (Some "secret")
       (fun _ _ _ _ => ClientError "unused") hosts)) Hne)) eq_refl).
Defined.

Lemma windows_detailed_status_witness :
  status (check_windows_firewall true (fun s => s)
            (fun _ _ _ _ => Executed "state                                 on" "" 0)
            (mkWinHost "win-01a" (Some "10.1.10.21")) "secret") = "FAIL".
Proof.
  assert (Hip : ip_of (mkWinHost "win-01a" (Some "10.1.10.21")) ≠ "") by discriminate.
  apply (proj1 (proj2 (proj2 (proj2 (proj2 (proj2 (proj2
    (windows_detailed_status true (fun s => s)
       (fun _ _ _ _ => Executed "state                                 on" "" 0)
       (mkWinHost "win-01a" (Some "10.1.10.21")) "secret" eq_refl Hip)))))))).
  split; reflexivity.
Defined.

End WindowsSpec.

(** ** Time synchronization and the accounts of the password check *)

Module AccountsSpec.
Import Base PyStr LinuxChecks.

Section TimeSync.
Variable lsf_given : bool.
Variable ssh_date : string -> SshDate.
Variable int_strip : string -> IntParse.
Variable local_time : Z.

Let check := check_time_sync lsf_given ssh_date int_strip local_time.

(** X28. The time check of a host is named after it.  Without lsfunctions
    it is SKIPPED.  With it, a command that raises an exception, a command
    that ends with a return code other than 0 and an output that is no
    number each give WARN, with the message of their case.  When the remote
    clock is read, the result depends only on the distance between the two
    clocks, whichever is ahead: PASS up to 60 seconds, WARN above 60 and up
    to 300 seconds, FAIL above 300 seconds.  So a result is PASS or FAIL
    only when the remote clock was read, and every result with lsfunctions
    is PASS, WARN or FAIL. *)
Theorem time_sync_status (hostname : string) :
  let c := check hostname in
  name c = "Time: " +:+ hostname ∧
  (lsf_given = false → status c = "SKIPPED" ∧ message c = "lsfunctions not available") ∧
  (lsf_given = true →
   (∀ e, ssh_date hostname = SshRaised e →
      status c = "WARN" ∧ message c = "Could not check time: " +:+ e ∧
      dict_get (details c) "error" = Some (PStr e)) ∧
   (∀ returncode out err,
      ssh_date hostname = SshReturned returncode out err → returncode ≠ 0%Z →
      status c = "WARN" ∧ message c = "Could not get remote time" ∧
      dict_get (details c) "error" = Some (PStr err)) ∧
   (∀ out err e,
      ssh_date hostname = SshReturned 0 out err → int_strip out = IntError e →
      status c = "WARN" ∧ message c = "Could not check time: " +:+ e ∧
      dict_get (details c) "error" = Some (PStr e)) ∧
   (∀ out err remote_time,
      ssh_date hostname = SshReturned 0 out err → int_strip out = IntValue remote_time →
      let delta := Z.abs (remote_time - local_time) in
      (status c = "PASS" ↔ (delta ≤ 60)%Z) ∧
      (status c = "WARN" ↔ (60 < delta ≤ 300)%Z) ∧
      (status c = "FAIL" ↔ (300 < delta)%Z) ∧
      dict_get (details c) "delta_seconds" = Some (PInt delta)) ∧
   (status c = "PASS" →
      ∃ out err remote_time,
        ssh_date hostname = SshReturned 0 out err ∧ int_strip out = IntValue remote_time ∧
        (Z.abs (remote_time - local_time) ≤ 60)%Z) ∧
   (status c = "FAIL" →
      ∃ out err remote_time,
        ssh_date hostname = SshReturned 0 out err ∧ int_strip out = IntValue remote_time ∧
        (300 < Z.abs (remote_time - local_time))%Z) ∧
   (status c = "PASS" ∨ status c = "WARN" ∨ status c = "FAIL")).
Proof.
  unfold check, check_time_sync. cbv zeta. clear check. split; [|split].
  - destruct lsf_given; cbn [negb]; [|done].
    destruct (ssh_date hostname) as [rc out err|e]; [|done].
    destruct (negb (bool_decide (rc = 0%Z))); [done|].
    destruct (int_strip out) as [remote|e]; [|done].
    by repeat case_bool_decide.
  - by intros ->.
  - intros ->. cbn [negb]. split; [|split; [|split; [|split; [|split; [|split]]]]].
    + by intros e ->.
    + intros rc out err -> Hrc. by rewrite bool_decide_eq_false_2.
    + intros out err e ->. rewrite bool_decide_eq_true_2 by done. cbn [negb].
      by intros ->.
    + intros out err remote -> . cbn [negb]. rewrite bool_decide_eq_true_2 by done.
      cbn [negb]. intros ->. cbv zeta.
      repeat case_bool_decide; cbn [status details];
        repeat split; try done; try discriminate; try lia.
    + destruct (ssh_date hostname) as [rc out err|e]; [|done].
      case_bool_decide as Hrc; cbn [negb]; [|done]. subst rc.
      destruct (int_strip out) as [remote|e] eqn:Eint; [|done].
      repeat case_bool_decide; cbn [status]; try done.
      intros _. exists out, err, remote. repeat split; done.
    + destruct (ssh_date hostname) as [rc out err|e]; [|done].
      case_bool_decide as Hrc; cbn [negb]; [|done]. subst rc.
      destruct (int_strip out) as [remote|e] eqn:Eint; [|done].
      repeat case_bool_decide; cbn [status]; try done.
      intros _. exists out, err, remote. repeat split; try done. lia.
    + destruct (ssh_date hostname) as [rc out err|e]; [|by right; left].
      destruct (negb (bool_decide (rc = 0%Z))); [by right; left|].
      destruct (int_strip out) as [remote|e]; [|by right; left].
      repeat case_bool_decide; cbn [status]; auto.
Qed.

End TimeSync.

Section PasswordExpirations.
Variable lsf_given : bool.
Variable config_get : string -> string -> option string.
Variable strip : string -> string.
Variable lower : string -> string.
Variable get_password_expiration_days : string -> string -> option Z.

Let check_single := check_single_password_expiration get_password_expiration_days.
Let check_all :=
  check_password_expirations lsf_given config_get strip lower get_password_expiration_days.
Let option_hosts := option_hosts config_get strip.
Let sddc_from_urls := sddc_from_urls config_get strip lower.
Let accounts := accounts config_get strip lower.

Lemma check_accounts_loop (users : list string) (hosts : list string)
    (results : list CheckResult) :
  check_accounts get_password_expiration_days users results hosts =
    results ++ ((fun a => check_single a.1 a.2) <$>
                (hosts ≫= fun h => (fun u => (h, u)) <$> users)).
Proof.
  unfold check_accounts. revert results.
  induction hosts as [|h hosts IH]; intros results.
  - by rewrite app_nil_r.
  - cbn [fold_left]. rewrite IH, bind_cons, fmap_app, app_assoc. f_equal.
    clear IH. revert results. induction users as [|u users IHu]; intros results.
    + by rewrite app_nil_r.
    + cbn [fold_left fmap list_fmap]. rewrite IHu. by rewrite <- app_assoc.
Qed.

Lemma host_entries_nonempty (raw : string) :
  Forall (fun h => h ≠ "") (host_entries strip raw).
Proof.
  unfold host_entries. generalize (split "
" raw). intros lines.
  assert (H : Forall (fun h : string => h ≠ "") []) by constructor.
  revert H. generalize (@nil string) at 1 3. intros hosts. revert hosts.
  induction lines as [|entry lines IH]; intros hosts H; [done|].
  cbn [fold_left]. apply IH.
  destruct (bool_decide (entry = "") || startswith "#" (strip entry)); [done|].
  cbv zeta. case_bool_decide as Hh; cbn [negb]; [done|].
  apply Forall_app. split; [done|]. by constructor.
Qed.

Lemma sddc_from_urls_extends (sddc_managers : list string) :
  Forall (fun h => h ≠ "") sddc_managers → NoDup sddc_managers →
  ∃ more, sddc_from_urls sddc_managers = sddc_managers ++ more ∧
          Forall (fun h => h ≠ "") more ∧ NoDup (sddc_managers ++ more).
Proof.
  unfold sddc_from_urls, LinuxChecks.sddc_from_urls.
  destruct (config_get "RESOURCES" "URLs") as [raw|].
  2: { intros H1 H2. exists []. rewrite app_nil_r. by repeat split. }
  generalize (split "
" raw). intros lines. revert sddc_managers.
  induction lines as [|entry lines IH]; intros l H1 H2.
  { exists []. rewrite app_nil_r. by repeat split. }
  cbn [fold_left].
  destruct (contains "sddcmanager" (lower entry)); [|by apply IH].
  cbv zeta. destruct (contains "://" _); [|by apply IH].
  set (hostname := item (split ":" _) 0).
  case_bool_decide as Hne; cbn [negb andb]; [by apply IH|].
  case_bool_decide as Hin; cbn [negb]; [by apply IH|].
  destruct (IH (l ++ [hostname])) as (more & Heq & Hm1 & Hm2).
  - apply Forall_app. split; [done|]. by constructor.
  - apply NoDup_app. split; [done|]. split; [|apply NoDup_singleton].
    by intros x Hx ->%list_elem_of_singleton.
  - exists (hostname :: more). rewrite Heq, <- app_assoc. cbn [app].
    split; [done|]. split; [by constructor|]. by rewrite <- app_assoc in Hm2.
Qed.

(** X29. With lsfunctions, the password check looks at these accounts and
    no other, in this order: root on every ESXi host, root on every
    vCenter, root and admin on every NSX manager, and vcf, root and backup
    on every SDDC manager, the ones of the VCF section before the ones
    found only in the URLs.  No host name is empty, a host found in the
    URLs is added once and only when it is new, and every result is PASS or
    FAIL.  Without lsfunctions the one result is the SKIPPED marker. *)
Theorem password_accounts :
  (lsf_given = false →
   check_all =
     [mkCheckResult "Password Expiration Checks" "SKIPPED" "lsfunctions not available"
        []]) ∧
  (lsf_given = true →
   check_all = (fun a => check_single a.1 a.2) <$> accounts ∧
   (name <$> check_all) =
     (fun a => "Password: " +:+ a.1 +:+ " (" +:+ a.2 +:+ ")") <$> accounts ∧
   length check_all =
     length (option_hosts "RESOURCES" "ESXiHosts") +
     length (option_hosts "RESOURCES" "vCenters") +
     2 * length (option_hosts "VCF" "vcfnsxmgr") +
     3 * length (sddc_from_urls (option_hosts "VCF" "sddcmanager")) ∧
   Forall (fun c => status c = "PASS" ∨ status c = "FAIL") check_all) ∧
  Forall (fun a => a.1 ≠ "") accounts ∧
  (NoDup (option_hosts "VCF" "sddcmanager") →
   ∃ more, sddc_from_urls (option_hosts "VCF" "sddcmanager") =
             option_hosts "VCF" "sddcmanager" ++ more ∧
           NoDup (option_hosts "VCF" "sddcmanager" ++ more)).
Proof.
  assert (Hhosts : ∀ s o, Forall (fun h => h ≠ "") (option_hosts s o)).
  { intros s o. unfold option_hosts, LinuxChecks.option_hosts.
    destruct (config_get s o); [apply host_entries_nonempty|constructor]. }
  assert (Hsddc : Forall (fun h => h ≠ "")
                    (sddc_from_urls (option_hosts "VCF" "sddcmanager"))).
  { unfold sddc_from_urls, LinuxChecks.sddc_from_urls.
    destruct (config_get "RESOURCES" "URLs") as [raw|]; [|apply Hhosts].
    generalize (Hhosts "VCF" "sddcmanager").
    generalize (option_hosts "VCF" "sddcmanager"). generalize (split "
" raw).
    intros lines. induction lines as [|entry lines IH]; intros l Hl; [done|].
    cbn [fold_left]. apply IH.
    destruct (contains "sddcmanager" (lower entry)); [|done].
    cbv zeta. destruct (contains "://" _); [|done].
    case_bool_decide as Hne; cbn [negb andb]; [done|].
    destruct (negb _); [|done]. apply Forall_app. split; [done|]. by constructor. }
  split; [|split; [|split]].
  - intros H. unfold check_all, check_password_expirations. by rewrite H.
  - intros H.
    assert (Hrun : check_all = (fun a => check_single a.1 a.2) <$> accounts).
    { unfold check_all, check_password_expirations. rewrite H. cbn [negb]. cbv zeta.
      assert (Hone : ∀ l : list string,
                (l ≫= fun h => (fun u => (h, u)) <$> ["root"]) =
                (fun h => (h, "root")) <$> l).
      { induction l as [|h l IHl]; [done|]. by rewrite bind_cons, fmap_cons, IHl. }
      rewrite !check_accounts_loop, !Hone. fold option_hosts sddc_from_urls.
      unfold accounts, LinuxChecks.accounts. fold option_hosts sddc_from_urls.
      rewrite !fmap_app, <- !app_assoc. done. }
    split; [done|]. rewrite Hrun. split; [|split].
    + rewrite <- list_fmap_compose. apply list_fmap_ext. intros i a _.
      unfold compose, check_single, check_single_password_expiration. cbv zeta.
      destruct (get_password_expiration_days a.1 a.2) as [d|]; [|done].
      by repeat case_bool_decide.
    + rewrite length_fmap. unfold accounts, LinuxChecks.accounts.
      fold option_hosts sddc_from_urls. rewrite !length_app, !length_fmap.
      assert (H2 : ∀ l : list string,
                length (l ≫= fun h => [(h, "root"); (h, "admin")]) = 2 * length l).
      { induction l as [|h l IHl]; [done|]. rewrite bind_cons, length_app, IHl.
        cbn [length]. lia. }
      assert (H3 : ∀ l : list string,
                length (l ≫= fun h => [(h, "vcf"); (h, "root"); (h, "backup")]) =
                3 * length l).
      { induction l as [|h l IHl]; [done|]. rewrite bind_cons, length_app, IHl.
        cbn [length]. lia. }
      rewrite H2, H3. lia.
    + apply Forall_fmap, Forall_forall. intros a _.
      unfold compose, check_single, check_single_password_expiration. cbv zeta.
      destruct (get_password_expiration_days a.1 a.2) as [d|]; [|by left].
      repeat case_bool_decide; cbn [status]; auto.
  - unfold accounts, LinuxChecks.accounts. fold option_hosts sddc_from_urls.
    rewrite !Forall_app. repeat split.
    + apply Forall_fmap. eapply Forall_impl; [apply Hhosts|]. done.
    + apply Forall_fmap. eapply Forall_impl; [apply Hhosts|]. done.
    + apply Forall_forall. intros a (h & Ha & Hh)%list_elem_of_bind.
      pose proof (Hhosts "VCF" "vcfnsxmgr") as Hn. rewrite Forall_forall in Hn.
      apply elem_of_cons in Ha as [-> | Ha]; [by apply Hn|].
      apply list_elem_of_singleton in Ha as ->. by apply Hn.
    + apply Forall_forall. intros a (h & Ha & Hh)%list_elem_of_bind.
      rewrite Forall_forall in Hsddc.
      apply elem_of_cons in Ha as [-> | Ha]; [by apply Hsddc|].
      apply elem_of_cons in Ha as [-> | Ha]; [by apply Hsddc|].
      apply list_elem_of_singleton in Ha as ->. by apply Hsddc.
  - intros Hnd.
    destruct (sddc_from_urls_extends (option_hosts "VCF" "sddcmanager"))
      as (more & Heq & _ & Hm); [apply Hhosts|done|].
    by exists more.
Qed.

End PasswordExpirations.

Lemma time_sync_status_witness :
  status (check_time_sync true (fun _ => SshReturned 0 "1700000400" "")
            (fun _ => IntValue 1700000400) 1700000000 "esx-01a") = "FAIL" ∧
  status (check_time_sync true (fun _ => SshReturned 255 "" "Connection refused")
            (fun _ => IntValue 0) 1700000000 "esx-01a") = "WARN".
Proof.
  split.
  - apply (proj1 (proj2 (proj2 (proj1 (proj2 (proj2 (proj2 (proj2 (proj2
             (time_sync_status true (fun _ => SshReturned 0 "1700000400" "")
                (fun _ => IntValue 1700000400) 1700000000 "esx-01a")) eq_refl))))
             "1700000400" "" 1700000400%Z eq_refl eq_refl)))).
    change (300 < 400)%Z. lia.
  - assert (Hrc : (255 ≠ 0)%Z) by lia.
    exact (proj1 (proj1 (proj2 (proj2 (proj2
             (time_sync_status true (fun _ => SshReturned 255 "" "Connection refused")
                (fun _ => IntValue 0) 1700000000 "esx-01a")) eq_refl))
             255%Z "" "Connection refused" eq_refl Hrc)).
Defined.

Lemma password_accounts_witness :
  let config_get := fun section option : string =>
    if bool_decide (section = "VCF") && bool_decide (option = "vcfnsxmgr")
    then Some "nsx-mgmt-01a:esx-01a" else None in
  name <$> check_password_expirations true config_get (fun s => s) (fun s => s)
             (fun _ _ => None) =
    ["Password: nsx-mgmt-01a (root)"; "Password: nsx-mgmt-01a (admin)"].
Proof.
  intros config_get.
  by rewrite (proj1 (proj2 (proj1 (proj2
       (password_accounts true config_get (fun s => s) (fun s => s) (fun _ _ => None)))
       eq_refl))).
Defined.

End AccountsSpec.

(** ** The licenses of the vCenters *)

Module LicensesSpec.
Import Base LicenseChecks.

Section Licenses.
Variable Date : Type.
Variable date_str : Date -> string.
Variable months_until_at_least : Date -> Z -> bool.

Let check_single := check_single_license Date date_str months_until_at_least.
Let asset_step := asset_step Date date_str months_until_at_least.
Let license_step := license_step Date date_str.
Let si_step := si_step Date date_str months_until_at_least.
Let check_all := check_licenses Date date_str months_until_at_least.
Lemma grows_same n (s : list CheckResult * gset string) : grows n s s.
Proof. split; [|done]. exists []. rewrite app_nil_r. split; [done|cbn; lia]. Qed.

Lemma grows_one (results : list CheckResult) (c : CheckResult) (k1 k2 : gset string) :
  k1 ⊆ k2 → grows 1 (results, k1) (results ++ [c], k2).
Proof. intros H. split; [|done]. exists [c]. split; [done|cbn; lia]. Qed.

Lemma grows_trans n m s1 s2 s3 : grows n s1 s2 → grows m s2 s3 → grows (n + m) s1 s3.
Proof.
  intros [(l1 & E1 & L1) S1] [(l2 & E2 & L2) S2]. split; [|by etrans].
  exists (l1 ++ l2). rewrite E2, E1, <- app_assoc, length_app. split; [done|lia].
Qed.

Lemma reported_grows n s1 s2 :
  grows n s1 s2 → evaluation_reported s1.1 → evaluation_reported s2.1.
Proof.
  intros [(more & E & _) _] (c & Hc & Hs & Hm). exists c. rewrite E.
  split; [|done]. apply elem_of_app. by left.
Qed.

Lemma asset_step_spec state asset :
  invariant state →
  invariant (asset_step state asset) ∧ grows 1 state (asset_step state asset) ∧
  asset_licenseKey asset ∈ (asset_step state asset).2.
Proof.
  destruct state as [results checked]. unfold invariant, asset_step,
    LicenseChecks.asset_step. cbn [fst snd]. intros Hinv.
  case_bool_decide as Hin.
  { split; [done|]. split; [apply grows_same|done]. }
  cbv zeta. cbn [fst snd]. split; [|split].
  - intros [He|He%elem_of_singleton]%elem_of_union.
    + destruct (Hinv He) as (c & Hc & Hs & Hm). exists c. split; [|done].
      apply elem_of_app. by left.
    + eexists. split; [apply elem_of_app; right; by left|].
      unfold check_single_license. rewrite <- He.
      rewrite bool_decide_eq_true_2 by done. done.
  - apply grows_one. apply union_subseteq_l.
  - apply elem_of_union. right. by apply elem_of_singleton.
Qed.

Lemma license_step_spec state lic :
  invariant state →
  invariant (license_step state lic) ∧ grows 1 state (license_step state lic).
Proof.
  destruct state as [results checked]. unfold invariant, license_step,
    LicenseChecks.license_step. cbn [fst snd]. intros Hinv.
  case_bool_decide as Hin.
  { split; [done|apply grows_same]. }
  destruct (used lic); cbn [negb andb].
  { split; [done|apply grows_same]. }
  case_bool_decide as Hkey; cbn [negb].
  { split; [done|apply grows_same]. }
  cbn [fst snd]. split.
  - intros [He|He%elem_of_singleton]%elem_of_union; [|by destruct Hkey].
    destruct (Hinv He) as (c & Hc & Hs & Hm). exists c. split; [|done].
    apply elem_of_app. by left.
  - apply grows_one. apply union_subseteq_l.
Qed.

Lemma assets_loop assets state :
  invariant state →
  invariant (fold_left asset_step assets state) ∧
  grows (length assets) state (fold_left asset_step assets state) ∧
  ∀ a, a ∈ assets → asset_licenseKey a ∈ (fold_left asset_step assets state).2.
Proof.
  revert state. induction assets as [|a assets IH]; intros state Hinv.
  - split; [done|]. split; [apply grows_same|]. by intros a ?%elem_of_nil.
  - cbn [fold_left]. destruct (asset_step_spec state a Hinv) as (H1 & H2 & H3).
    destruct (IH _ H1) as (I1 & I2 & I3). split; [done|]. split.
    + apply (grows_trans 1 (length assets) _ _ _ H2 I2).
    + intros x [-> | Hx]%elem_of_cons; [|by apply I3].
      destruct I2 as [_ Hsub]. by apply Hsub.
Qed.

Lemma licenses_loop licenses state :
  invariant state →
  invariant (fold_left license_step licenses state) ∧
  grows (length licenses) state (fold_left license_step licenses state).
Proof.
  revert state. induction licenses as [|l licenses IH]; intros state Hinv.
  - split; [done|apply grows_same].
  - cbn [fold_left]. destruct (license_step_spec state l Hinv) as (H1 & H2).
    destruct (IH _ H1) as (I1 & I2). split; [done|].
    apply (grows_trans 1 (length licenses) _ _ _ H2 I2).
Qed.

Lemma si_step_spec state si :
  invariant state →
  invariant (si_step state si) ∧ grows (most_results si) state (si_step state si) ∧
  (∀ assets licenses a,
     si = Manager assets licenses → a ∈ assets →
     asset_licenseKey a ∈ (si_step state si).2) ∧
  (∀ e, si = ManagerError e →
     mkCheckResult "License Check" "FAIL" ("Could not check licenses: " +:+ e) []
       ∈ (si_step state si).1) ∧
  (∀ e, si = QueryError e →
     mkCheckResult "License Query" "FAIL" ("Failed to query assigned licenses: " +:+ e) []
       ∈ (si_step state si).1).
Proof.
  intros Hinv. destruct si as [e|e|assets licenses];
    unfold si_step, LicenseChecks.si_step; cbn [most_results fst snd].
  - split; [|split; [|split; [done|split; [|done]]]].
    + intros He. destruct (Hinv He) as (c & Hc & Hs & Hm). exists c.
      split; [|done]. apply elem_of_app. by left.
    + destruct state. by apply grows_one.
    + intros e' [= <-]. apply elem_of_app. right. by left.
  - split; [|split; [|split; [done|split; [done|]]]].
    + intros He. destruct (Hinv He) as (c & Hc & Hs & Hm). exists c.
      split; [|done]. apply elem_of_app. by left.
    + destruct state. by apply grows_one.
    + intros e' [= <-]. apply elem_of_app. right. by left.
  - fold asset_step license_step.
    destruct (assets_loop assets state Hinv) as (A1 & A2 & A3).
    destruct (licenses_loop licenses _ A1) as (L1 & L2).
    split; [done|]. split; [by eapply grows_trans|]. split; [|done].
    intros assets' licenses' a [= <- <-] Ha. destruct L2 as [_ Hsub].
    by apply Hsub, A3.
Qed.

Lemma sis_loop sis state :
  invariant state →
  let final := fold_left si_step sis state in
  invariant final ∧ grows (sum_list (most_results <$> sis)) state final ∧
  (∀ assets licenses a,
     Manager assets licenses ∈ sis → a ∈ assets → asset_licenseKey a ∈ final.2) ∧
  (∀ e, ManagerError e ∈ sis →
     mkCheckResult "License Check" "FAIL" ("Could not check licenses: " +:+ e) []
       ∈ final.1) ∧
  (∀ e, QueryError e ∈ sis →
     mkCheckResult "License Query" "FAIL" ("Failed to query assigned licenses: " +:+ e) []
       ∈ final.1).
Proof.
  revert state. induction sis as [|si sis IH]; intros state Hinv.
  - cbn. split; [done|]. split; [apply grows_same|].
    repeat split; intros; by apply elem_of_nil in H.
  - cbn [fold_left fmap list_fmap sum_list].
    destruct (si_step_spec state si Hinv) as (S1 & S2 & S3 & S4 & S5).
    destruct (IH _ S1) as (I1 & I2 & I3 & I4 & I5). cbv zeta in I1, I2, I3, I4, I5.
    split; [done|]. split; [by eapply grows_trans|].
    destruct I2 as [(more & Emore & _) Hsub].
    split; [|split].
    + intros assets licenses a [<- | Hin]%elem_of_cons Ha; [|by eapply I3].
      by eapply Hsub, S3.
    + intros e [<- | Hin]%elem_of_cons; [|by apply I4].
      rewrite Emore. apply elem_of_app. left. by apply S4.
    + intros e [<- | Hin]%elem_of_cons; [|by apply I5].
      rewrite Emore. apply elem_of_app. left. by apply S5.
Qed.


End Licenses.


End LicensesSpec.
